(** * The GEDCOM anonymizer of tools/anonymize_gedcom.py

    A shallow embedding of [GedcomAnonymizer] (the identity maps, the date
    policy, the per-line dispatch and the line loop of [anonymize_file])
    together with the parts of Python it relies on: [str] as a list of code
    points, [str.strip], [str.split], the backtracking matcher behind
    [re.match], and the decimal formatting of an [int] in an f-string. *)

From Stdlib Require Import String Ascii NArith DecimalString DecimalNat.
From stdpp Require Import base option list gmap.

(** ** Python strings *)

(** A Python [str] is a sequence of Unicode code points. *)
Abbreviation char := N.
Abbreviation str := (list N).

(** A literal of the source, as the code points of its (ASCII) characters. *)
Definition py (s : string) : str := N_of_ascii <$> list_ascii_of_string s.
Arguments py s%_string.

Definition BOM : char := 65279.   (* U+FEFF, the byte-order mark *)
Definition LF : char := 10.       (* '\n' *)
Definition CR : char := 13.       (* '\r' *)
Definition AT : char := 64.       (* '@' *)
Definition UNDERSCORE : char := 95.

(** Membership in a table of inclusive code point ranges. *)
Definition in_ranges (c : char) (table : list (N * N)) : bool :=
  existsb (λ r, (r.1 <=? c)%N && (c <=? r.2)%N) table.

(** The character classes are those of the Unicode Character Database
    14.0.0 that CPython 3.11 ships: [str.isspace], [str.isdecimal] and
    [str.isalnum] on one character, which are also what [\s], [\d] and
    (with the underscore) [\w] test in a [str] pattern. *)
Definition space_table : list (N * N) :=
 [(9,13); (28,32); (133,133); (160,160); (5760,5760); (8192,8202); (8232,8233); (8239,8239);
   (8287,8287); (12288,12288)]%N.

Definition decimal_table : list (N * N) :=
 [(48,57); (1632,1641); (1776,1785); (1984,1993); (2406,2415); (2534,2543); (2662,2671);
   (2790,2799); (2918,2927); (3046,3055); (3174,3183); (3302,3311); (3430,3439); (3558,3567);
   (3664,3673); (3792,3801); (3872,3881); (4160,4169); (4240,4249); (6112,6121); (6160,6169);
   (6470,6479); (6608,6617); (6784,6793); (6800,6809); (6992,7001); (7088,7097); (7232,7241);
   (7248,7257); (42528,42537); (43216,43225); (43264,43273); (43472,43481); (43504,43513);
   (43600,43609); (44016,44025); (65296,65305); (66720,66729); (68912,68921); (69734,69743);
   (69872,69881); (69942,69951); (70096,70105); (70384,70393); (70736,70745); (70864,70873);
   (71248,71257); (71360,71369); (71472,71481); (71904,71913); (72016,72025); (72784,72793);
   (73040,73049); (73120,73129); (92768,92777); (92864,92873); (93008,93017); (120782,120831);
   (123200,123209); (123632,123641); (125264,125273); (130032,130041)]%N.

Definition alnum_table : list (N * N) :=
 [(48,57); (65,90); (97,122); (170,170); (178,179); (181,181); (185,186); (188,190); (192,214);
   (216,246); (248,705); (710,721); (736,740); (748,748); (750,750); (880,884); (886,887);
   (890,893); (895,895); (902,902); (904,906); (908,908); (910,929); (931,1013); (1015,1153);
   (1162,1327); (1329,1366); (1369,1369); (1376,1416); (1488,1514); (1519,1522); (1568,1610);
   (1632,1641); (1646,1647); (1649,1747); (1749,1749); (1765,1766); (1774,1788); (1791,1791);
   (1808,1808); (1810,1839); (1869,1957); (1969,1969); (1984,2026); (2036,2037); (2042,2042);
   (2048,2069); (2074,2074); (2084,2084); (2088,2088); (2112,2136); (2144,2154); (2160,2183);
   (2185,2190); (2208,2249); (2308,2361); (2365,2365); (2384,2384); (2392,2401); (2406,2415);
   (2417,2432); (2437,2444); (2447,2448); (2451,2472); (2474,2480); (2482,2482); (2486,2489);
   (2493,2493); (2510,2510); (2524,2525); (2527,2529); (2534,2545); (2548,2553); (2556,2556);
   (2565,2570); (2575,2576); (2579,2600); (2602,2608); (2610,2611); (2613,2614); (2616,2617);
   (2649,2652); (2654,2654); (2662,2671); (2674,2676); (2693,2701); (2703,2705); (2707,2728);
   (2730,2736); (2738,2739); (2741,2745); (2749,2749); (2768,2768); (2784,2785); (2790,2799);
   (2809,2809); (2821,2828); (2831,2832); (2835,2856); (2858,2864); (2866,2867); (2869,2873);
   (2877,2877); (2908,2909); (2911,2913); (2918,2927); (2929,2935); (2947,2947); (2949,2954);
   (2958,2960); (2962,2965); (2969,2970); (2972,2972); (2974,2975); (2979,2980); (2984,2986);
   (2990,3001); (3024,3024); (3046,3058); (3077,3084); (3086,3088); (3090,3112); (3114,3129);
   (3133,3133); (3160,3162); (3165,3165); (3168,3169); (3174,3183); (3192,3198); (3200,3200);
   (3205,3212); (3214,3216); (3218,3240); (3242,3251); (3253,3257); (3261,3261); (3293,3294);
   (3296,3297); (3302,3311); (3313,3314); (3332,3340); (3342,3344); (3346,3386); (3389,3389);
   (3406,3406); (3412,3414); (3416,3425); (3430,3448); (3450,3455); (3461,3478); (3482,3505);
   (3507,3515); (3517,3517); (3520,3526); (3558,3567); (3585,3632); (3634,3635); (3648,3654);
   (3664,3673); (3713,3714); (3716,3716); (3718,3722); (3724,3747); (3749,3749); (3751,3760);
   (3762,3763); (3773,3773); (3776,3780); (3782,3782); (3792,3801); (3804,3807); (3840,3840);
   (3872,3891); (3904,3911); (3913,3948); (3976,3980); (4096,4138); (4159,4169); (4176,4181);
   (4186,4189); (4193,4193); (4197,4198); (4206,4208); (4213,4225); (4238,4238); (4240,4249);
   (4256,4293); (4295,4295); (4301,4301); (4304,4346); (4348,4680); (4682,4685); (4688,4694);
   (4696,4696); (4698,4701); (4704,4744); (4746,4749); (4752,4784); (4786,4789); (4792,4798);
   (4800,4800); (4802,4805); (4808,4822); (4824,4880); (4882,4885); (4888,4954); (4969,4988);
   (4992,5007); (5024,5109); (5112,5117); (5121,5740); (5743,5759); (5761,5786); (5792,5866);
   (5870,5880); (5888,5905); (5919,5937); (5952,5969); (5984,5996); (5998,6000); (6016,6067);
   (6103,6103); (6108,6108); (6112,6121); (6128,6137); (6160,6169); (6176,6264); (6272,6276);
   (6279,6312); (6314,6314); (6320,6389); (6400,6430); (6470,6509); (6512,6516); (6528,6571);
   (6576,6601); (6608,6618); (6656,6678); (6688,6740); (6784,6793); (6800,6809); (6823,6823);
   (6917,6963); (6981,6988); (6992,7001); (7043,7072); (7086,7141); (7168,7203); (7232,7241);
   (7245,7293); (7296,7304); (7312,7354); (7357,7359); (7401,7404); (7406,7411); (7413,7414);
   (7418,7418); (7424,7615); (7680,7957); (7960,7965); (7968,8005); (8008,8013); (8016,8023);
   (8025,8025); (8027,8027); (8029,8029); (8031,8061); (8064,8116); (8118,8124); (8126,8126);
   (8130,8132); (8134,8140); (8144,8147); (8150,8155); (8160,8172); (8178,8180); (8182,8188);
   (8304,8305); (8308,8313); (8319,8329); (8336,8348); (8450,8450); (8455,8455); (8458,8467);
   (8469,8469); (8473,8477); (8484,8484); (8486,8486); (8488,8488); (8490,8493); (8495,8505);
   (8508,8511); (8517,8521); (8526,8526); (8528,8585); (9312,9371); (9450,9471); (10102,10131);
   (11264,11492); (11499,11502); (11506,11507); (11517,11517); (11520,11557); (11559,11559);
   (11565,11565); (11568,11623); (11631,11631); (11648,11670); (11680,11686); (11688,11694);
   (11696,11702); (11704,11710); (11712,11718); (11720,11726); (11728,11734); (11736,11742);
   (11823,11823); (12293,12295); (12321,12329); (12337,12341); (12344,12348); (12353,12438);
   (12445,12447); (12449,12538); (12540,12543); (12549,12591); (12593,12686); (12690,12693);
   (12704,12735); (12784,12799); (12832,12841); (12872,12879); (12881,12895); (12928,12937);
   (12977,12991); (13312,19903); (19968,42124); (42192,42237); (42240,42508); (42512,42539);
   (42560,42606); (42623,42653); (42656,42735); (42775,42783); (42786,42888); (42891,42954);
   (42960,42961); (42963,42963); (42965,42969); (42994,43009); (43011,43013); (43015,43018);
   (43020,43042); (43056,43061); (43072,43123); (43138,43187); (43216,43225); (43250,43255);
   (43259,43259); (43261,43262); (43264,43301); (43312,43334); (43360,43388); (43396,43442);
   (43471,43481); (43488,43492); (43494,43518); (43520,43560); (43584,43586); (43588,43595);
   (43600,43609); (43616,43638); (43642,43642); (43646,43695); (43697,43697); (43701,43702);
   (43705,43709); (43712,43712); (43714,43714); (43739,43741); (43744,43754); (43762,43764);
   (43777,43782); (43785,43790); (43793,43798); (43808,43814); (43816,43822); (43824,43866);
   (43868,43881); (43888,44002); (44016,44025); (44032,55203); (55216,55238); (55243,55291);
   (63744,64109); (64112,64217); (64256,64262); (64275,64279); (64285,64285); (64287,64296);
   (64298,64310); (64312,64316); (64318,64318); (64320,64321); (64323,64324); (64326,64433);
   (64467,64829); (64848,64911); (64914,64967); (65008,65019); (65136,65140); (65142,65276);
   (65296,65305); (65313,65338); (65345,65370); (65382,65470); (65474,65479); (65482,65487);
   (65490,65495); (65498,65500); (65536,65547); (65549,65574); (65576,65594); (65596,65597);
   (65599,65613); (65616,65629); (65664,65786); (65799,65843); (65856,65912); (65930,65931);
   (66176,66204); (66208,66256); (66273,66299); (66304,66339); (66349,66378); (66384,66421);
   (66432,66461); (66464,66499); (66504,66511); (66513,66517); (66560,66717); (66720,66729);
   (66736,66771); (66776,66811); (66816,66855); (66864,66915); (66928,66938); (66940,66954);
   (66956,66962); (66964,66965); (66967,66977); (66979,66993); (66995,67001); (67003,67004);
   (67072,67382); (67392,67413); (67424,67431); (67456,67461); (67463,67504); (67506,67514);
   (67584,67589); (67592,67592); (67594,67637); (67639,67640); (67644,67644); (67647,67669);
   (67672,67702); (67705,67742); (67751,67759); (67808,67826); (67828,67829); (67835,67867);
   (67872,67897); (67968,68023); (68028,68047); (68050,68096); (68112,68115); (68117,68119);
   (68121,68149); (68160,68168); (68192,68222); (68224,68255); (68288,68295); (68297,68324);
   (68331,68335); (68352,68405); (68416,68437); (68440,68466); (68472,68497); (68521,68527);
   (68608,68680); (68736,68786); (68800,68850); (68858,68899); (68912,68921); (69216,69246);
   (69248,69289); (69296,69297); (69376,69415); (69424,69445); (69457,69460); (69488,69505);
   (69552,69579); (69600,69622); (69635,69687); (69714,69743); (69745,69746); (69749,69749);
   (69763,69807); (69840,69864); (69872,69881); (69891,69926); (69942,69951); (69956,69956);
   (69959,69959); (69968,70002); (70006,70006); (70019,70066); (70081,70084); (70096,70106);
   (70108,70108); (70113,70132); (70144,70161); (70163,70187); (70272,70278); (70280,70280);
   (70282,70285); (70287,70301); (70303,70312); (70320,70366); (70384,70393); (70405,70412);
   (70415,70416); (70419,70440); (70442,70448); (70450,70451); (70453,70457); (70461,70461);
   (70480,70480); (70493,70497); (70656,70708); (70727,70730); (70736,70745); (70751,70753);
   (70784,70831); (70852,70853); (70855,70855); (70864,70873); (71040,71086); (71128,71131);
   (71168,71215); (71236,71236); (71248,71257); (71296,71338); (71352,71352); (71360,71369);
   (71424,71450); (71472,71483); (71488,71494); (71680,71723); (71840,71922); (71935,71942);
   (71945,71945); (71948,71955); (71957,71958); (71960,71983); (71999,71999); (72001,72001);
   (72016,72025); (72096,72103); (72106,72144); (72161,72161); (72163,72163); (72192,72192);
   (72203,72242); (72250,72250); (72272,72272); (72284,72329); (72349,72349); (72368,72440);
   (72704,72712); (72714,72750); (72768,72768); (72784,72812); (72818,72847); (72960,72966);
   (72968,72969); (72971,73008); (73030,73030); (73040,73049); (73056,73061); (73063,73064);
   (73066,73097); (73112,73112); (73120,73129); (73440,73458); (73648,73648); (73664,73684);
   (73728,74649); (74752,74862); (74880,75075); (77712,77808); (77824,78894); (82944,83526);
   (92160,92728); (92736,92766); (92768,92777); (92784,92862); (92864,92873); (92880,92909);
   (92928,92975); (92992,92995); (93008,93017); (93019,93025); (93027,93047); (93053,93071);
   (93760,93846); (93952,94026); (94032,94032); (94099,94111); (94176,94177); (94179,94179);
   (94208,100343); (100352,101589); (101632,101640); (110576,110579); (110581,110587);
   (110589,110590); (110592,110882); (110928,110930); (110948,110951); (110960,111355);
   (113664,113770); (113776,113788); (113792,113800); (113808,113817); (119520,119539);
   (119648,119672); (119808,119892); (119894,119964); (119966,119967); (119970,119970);
   (119973,119974); (119977,119980); (119982,119993); (119995,119995); (119997,120003);
   (120005,120069); (120071,120074); (120077,120084); (120086,120092); (120094,120121);
   (120123,120126); (120128,120132); (120134,120134); (120138,120144); (120146,120485);
   (120488,120512); (120514,120538); (120540,120570); (120572,120596); (120598,120628);
   (120630,120654); (120656,120686); (120688,120712); (120714,120744); (120746,120770);
   (120772,120779); (120782,120831); (122624,122654); (123136,123180); (123191,123197);
   (123200,123209); (123214,123214); (123536,123565); (123584,123627); (123632,123641);
   (124896,124902); (124904,124907); (124909,124910); (124912,124926); (124928,125124);
   (125127,125135); (125184,125251); (125259,125259); (125264,125273); (126065,126123);
   (126125,126127); (126129,126132); (126209,126253); (126255,126269); (126464,126467);
   (126469,126495); (126497,126498); (126500,126500); (126503,126503); (126505,126514);
   (126516,126519); (126521,126521); (126523,126523); (126530,126530); (126535,126535);
   (126537,126537); (126539,126539); (126541,126543); (126545,126546); (126548,126548);
   (126551,126551); (126553,126553); (126555,126555); (126557,126557); (126559,126559);
   (126561,126562); (126564,126564); (126567,126570); (126572,126578); (126580,126583);
   (126585,126588); (126590,126590); (126592,126601); (126603,126619); (126625,126627);
   (126629,126633); (126635,126651); (127232,127244); (130032,130041); (131072,173791);
   (173824,177976); (177984,178205); (178208,183969); (183984,191456); (194560,195101);
   (196608,201546)]%N.

Definition isspace (c : char) : bool := in_ranges c space_table.
Definition isdecimal (c : char) : bool := in_ranges c decimal_table.
Definition isalnum (c : char) : bool := in_ranges c alnum_table.
Definition isword (c : char) : bool := isalnum c || (c =? UNDERSCORE)%N.

Arguments isspace : simpl never.
Arguments isdecimal : simpl never.
Arguments isalnum : simpl never.
Arguments isword : simpl never.

(** Truthiness of a [str]: non-empty. *)
Definition truthy (s : str) : bool := match s with [] => false | _ => true end.

(** [s.lstrip(chars)], [s.rstrip(chars)] and [s.strip()], the set of
    characters to remove given as a predicate. *)
Fixpoint lstrip_chars (p : char → bool) (s : str) : str :=
  match s with
  | c :: s' => if p c then lstrip_chars p s' else s
  | [] => []
  end.
Definition rstrip_chars (p : char → bool) (s : str) : str :=
  reverse (lstrip_chars p (reverse s)).
Definition strip (s : str) : str := rstrip_chars isspace (lstrip_chars isspace s).

(** [s.split()]: the maximal runs of non-whitespace characters. [cur] is the
    run being read, if one was started. *)
Fixpoint split_from (cur : option str) (s : str) : list str :=
  match s with
  | [] => match cur with Some w => [w] | None => [] end
  | c :: s' =>
      if isspace c
      then match cur with Some w => w :: split_from None s' | None => split_from None s' end
      else split_from (Some (default [] cur ++ [c])) s'
  end.
Definition split (s : str) : list str := split_from None s.

(** [s.startswith(c)] for a one-character prefix. *)
Definition startswith (s : str) (c : char) : bool :=
  match s with c' :: _ => (c' =? c)%N | [] => false end.

(** [str(n)] for a non-negative [int]: its decimal digits. *)
Definition str_of_int (n : nat) : str := py (NilEmpty.string_of_uint (Nat.to_uint n)).

(** ** The matcher behind [re.match]

    Python's [re] is a backtracking matcher: it explores the ways a pattern
    can match in a fixed priority order (a greedy quantifier tries the longest
    repetition first, an optional group is tried before it is skipped, an
    alternation goes left to right) and reports the first that succeeds.
    [run r st] lists all the ways in that order, so the match is its head. *)

Record mstate := MState {
  pos : nat;               (* characters consumed so far *)
  rest : str;              (* what is left of the subject *)
  caps : gmap nat str      (* the groups that took part, by number *)
}.

Inductive regex :=
| Cls (p : char → bool)                         (* one character of a class *)
| Lit (s : str)                                 (* a literal string *)
| Rep (p : char → bool) (lo : nat) (hi : option nat)  (* greedy p{lo,hi} *)
| Eps
| Seq (r1 r2 : regex)
| Alt (r1 r2 : regex)                           (* r1|r2 *)
| Opt (r : regex)                               (* (?:r)?, greedy *)
| Grp (n : nat) (r : regex)                     (* capture group number n *)
| Bol                                           (* ^ *)
| Eol.                                          (* $ (no MULTILINE flag) *)

Definition may_repeat (hi : option nat) : bool :=
  match hi with Some O => false | _ => true end.

Fixpoint rep (p : char → bool) (lo : nat) (hi : option nat)
    (cs : gmap nat str) (i : nat) (s : str) : list mstate :=
  let stop := match lo with O => [MState i s cs] | S _ => [] end in
  match s with
  | c :: s' =>
      if p c && may_repeat hi
      then rep p (Nat.pred lo) (Nat.pred <$> hi) cs (S i) s' ++ stop
      else stop
  | [] => stop
  end.

Fixpoint is_prefix (s t : str) : bool :=
  match s, t with
  | [], _ => true
  | c :: s', d :: t' => (c =? d)%N && is_prefix s' t'
  | _ :: _, [] => false
  end.

Fixpoint run (r : regex) (st : mstate) : list mstate :=
  match r with
  | Cls p =>
      match rest st with
      | c :: s' => if p c then [MState (S (pos st)) s' (caps st)] else []
      | [] => []
      end
  | Lit s =>
      if is_prefix s (rest st)
      then [MState (pos st + length s) (drop (length s) (rest st)) (caps st)]
      else []
  | Rep p lo hi => rep p lo hi (caps st) (pos st) (rest st)
  | Eps => [st]
  | Seq r1 r2 => st' ← run r1 st; run r2 st'
  | Alt r1 r2 => run r1 st ++ run r2 st
  | Opt r => run r st ++ [st]
  | Grp n r =>
      (λ st', MState (pos st') (rest st')
                (<[n := take (pos st' - pos st) (rest st)]> (caps st'))) <$> run r st
  | Bol => match pos st with O => [st] | S _ => [] end
  | Eol =>
      (* at the end, or just before a newline that ends the subject *)
      match rest st with
      | [] => [st]
      | [c] => if (c =? LF)%N then [st] else []
      | _ => []
      end
  end.

(** [re.match(r, s)]: the match object, or [None]. *)
Definition re_match (r : regex) (s : str) : option mstate :=
  head (run r (MState 0 s ∅)).

(** [m.group(n)]: [None] for a group that did not take part. *)
Definition group (m : mstate) (n : nat) : option str := caps m !! n.

Definition cat (rs : list regex) : regex := foldr Seq Eps rs.
Definition plus (p : char → bool) : regex := Rep p 1 None.
Definition star (p : char → bool) : regex := Rep p 0 None.
Definition times (p : char → bool) (n : nat) : regex := Rep p n (Some n).
Definition chr (c : char) : regex := Cls (λ d, (d =? c)%N).
Definition not_at (c : char) : bool := negb (c =? AT)%N.   (* any character but @ *)
Definition dot (c : char) : bool := negb (c =? LF)%N.      (* . (no DOTALL) *)

(** The patterns of the source. *)

(** The line pattern, "^(\d+)\s+(@[^@]+@\s+)?(\w+)(\s+(.*))?$". *)
Definition LINE_RE : regex :=
  cat [Bol; Grp 1 (plus isdecimal); plus isspace;
       Opt (Grp 2 (cat [chr AT; plus not_at; chr AT; plus isspace]));
       Grp 3 (plus isword);
       Opt (Grp 4 (cat [plus isspace; Grp 5 (star dot)]));
       Eol].

(** The full date, "\d{1,2}\s+\w{3}\s+\d{4}". *)
Definition FULL_DATE_RE : regex :=
  cat [Rep isdecimal 1 (Some 2); plus isspace; times isword 3; plus isspace;
       times isdecimal 4].

(** The qualified year, "(ABT|BEF|AFT|CAL|EST)\s+\d{4}". *)
Definition QUALIFIED_DATE_RE : regex :=
  cat [Grp 1 (Alt (Lit (py "ABT")) (Alt (Lit (py "BEF")) (Alt (Lit (py "AFT"))
                (Alt (Lit (py "CAL")) (Lit (py "EST"))))));
       plus isspace; times isdecimal 4].

(** The bare year, "\d{4}". *)
Definition YEAR_RE : regex := times isdecimal 4.

(** ** The engine *)

(** A line the methods print to standard output. Only the warning of
    [anonymize_line] is kept, by its fields: the line number shown and the
    preview [line[:50]] (printed with [repr]). *)
Inductive message := Warning (shown_line_number : nat) (preview : str).

(** The fields of a [GedcomAnonymizer], and what its methods have printed so
    far. *)
Record Anonymizer := MkAnonymizer {
  name_map : gmap str str;
  place_map : gmap str str;
  keep_dates : bool;
  keep_places : bool;
  person_counter : nat;
  place_counter : nat;
  printed : list message
}.

(** [GedcomAnonymizer(keep_dates, keep_places)] *)
Definition init (keep_dates keep_places : bool) : Anonymizer :=
  MkAnonymizer ∅ ∅ keep_dates keep_places 1 1 [].

(** Methods run on the object and either return or raise. *)
Inductive exn := KeyError | IndexError | TypeError.

Inductive result (A : Type) :=
| Return (a : A) (self : Anonymizer)
| Raise (e : exn) (self : Anonymizer).
Arguments Return {A} a self.
Arguments Raise {A} e self.

Definition M (A : Type) : Type := Anonymizer → result A.

#[global] Instance M_ret : MRet M := λ A a self, Return a self.
#[global] Instance M_bind : MBind M := λ A B f m self,
  match m self with
  | Return a self' => f a self'
  | Raise e self' => Raise e self'
  end.

Definition get : M Anonymizer := λ self, Return self self.
Definition raise {A} (e : exn) : M A := λ self, Raise e self.
Definition pass : M unit := mret ().

Definition set_name_map (m : gmap str str) : M unit := λ self,
  Return () (MkAnonymizer m (place_map self) (keep_dates self) (keep_places self)
               (person_counter self) (place_counter self) (printed self)).
Definition set_place_map (m : gmap str str) : M unit := λ self,
  Return () (MkAnonymizer (name_map self) m (keep_dates self) (keep_places self)
               (person_counter self) (place_counter self) (printed self)).
Definition set_person_counter (n : nat) : M unit := λ self,
  Return () (MkAnonymizer (name_map self) (place_map self) (keep_dates self)
               (keep_places self) n (place_counter self) (printed self)).
Definition set_place_counter (n : nat) : M unit := λ self,
  Return () (MkAnonymizer (name_map self) (place_map self) (keep_dates self)
               (keep_places self) (person_counter self) n (printed self)).
Definition print (msg : message) : M unit := λ self,
  Return () (MkAnonymizer (name_map self) (place_map self) (keep_dates self)
               (keep_places self) (person_counter self) (place_counter self)
               (printed self ++ [msg])).

(** [k in d] and [d[k]] on a dict, [l[i]] on a list. *)
Definition contains (d : gmap str str) (k : str) : bool := bool_decide (is_Some (d !! k)).
Definition getitem (d : gmap str str) (k : str) : M str :=
  match d !! k with Some v => mret v | None => raise KeyError end.
Definition item (l : list str) (i : nat) : M str :=
  match l !! i with Some v => mret v | None => raise IndexError end.

(** An optional value in an f-string, and as the right operand of [+=]. *)
Definition format (o : option str) : str := default (py "None") o.
Definition as_str (o : option str) : M str :=
  match o with Some s => mret s | None => raise TypeError end.

Definition is_match (m : option mstate) : bool := bool_decide (is_Some m).

(** ** The methods of [GedcomAnonymizer] *)

Definition anonymize_name (name : str) : M str :=
  self ← get;
  (if negb (contains (name_map self) name) then
     set_name_map (<[name := py "Person " ++ str_of_int (person_counter self)]>
                     (name_map self));;
     self ← get;
     set_person_counter (person_counter self + 1)
   else pass);;
  self ← get;
  getitem (name_map self) name.

Definition anonymize_place (place : str) : M str :=
  self ← get;
  if keep_places self then mret place
  else
    (if negb (contains (place_map self) place) then
       set_place_map (<[place := py "Place " ++ str_of_int (place_counter self)]>
                        (place_map self));;
       self ← get;
       set_place_counter (place_counter self + 1)
     else pass);;
    self ← get;
    getitem (place_map self) place.

Definition anonymize_date (date : str) : M str :=
  self ← get;
  if keep_dates self then mret date
  else if is_match (re_match FULL_DATE_RE date) then mret (py "1 JAN 1900")
  else if is_match (re_match QUALIFIED_DATE_RE date) then
    prefix ← item (split date) 0;
    mret (prefix ++ py " 1900")
  else if is_match (re_match YEAR_RE date) then mret (py "1900")
  else mret date.

Definition TEXT_TAGS : list str := [py "NOTE"; py "TEXT"; py "CONT"; py "CONC"].
Definition NAME_PART_TAGS : list str :=
  [py "GIVN"; py "SURN"; py "NPFX"; py "NSFX"; py "NICK"].
Definition ADDRESS_TAGS : list str :=
  [py "ADDR"; py "ADR1"; py "ADR2"; py "CITY"; py "STAE"; py "POST"; py "CTRY"].
Definition CONTACT_TAGS : list str := [py "PHON"; py "EMAIL"; py "WWW"; py "FAX"].

(** The branches that replace a non-blank value with a fixed text. *)
Definition fixed_text (base value text : str) : M str :=
  if truthy (strip value) then mret (base ++ py " " ++ text) else mret base.

(** [line[1:]] when the line starts with the byte-order mark. *)
Definition strip_bom (line : str) : str :=
  if startswith line BOM then drop 1 line else line.

(** The [if]/[elif] chain of [anonymize_line] on the tag: [level] is group 1
    of the match, [base] the rebuilt start of the line. *)
Definition dispatch (level : option str) (base tag value : str) : M str :=
  if bool_decide (tag = py "NAME") then
    anon_value ← anonymize_name value;
    mret (base ++ py " " ++ anon_value)
  else if bool_decide (tag = py "PLAC") then
    anon_value ← anonymize_place value;
    mret (base ++ py " " ++ anon_value)
  else if bool_decide (tag = py "DATE") then
    anon_value ← anonymize_date value;
    mret (base ++ py " " ++ anon_value)
  else if bool_decide (tag ∈ TEXT_TAGS) then
    fixed_text base value (py "[anonymized text]")
  else if bool_decide (tag ∈ NAME_PART_TAGS) then
    fixed_text base value (py "[anonymized]")
  else if bool_decide (tag ∈ ADDRESS_TAGS) then
    fixed_text base value (py "[anonymized]")
  else if bool_decide (tag ∈ CONTACT_TAGS) then
    fixed_text base value (py "[anonymized]")
  else if bool_decide (tag = py "TITL") && bool_decide (level = Some (py "1")) then
    fixed_text base value (py "[anonymized]")
  else if truthy value then mret (base ++ py " " ++ value)
  else mret base.

Definition anonymize_line (line : str) (line_number : nat) : M str :=
  let line := strip_bom line in
  match re_match LINE_RE line with
  | None =>
      (if (line_number <? 5)%nat && truthy (strip line)
       then print (Warning (line_number + 1) (take 50 line))
       else pass);;
      mret line
  | Some m =>
      let level := group m 1 in
      let xref := group m 2 in
      let tag := group m 3 in
      let value := default [] (group m 5) in   (* value or "" *)
      let base := format level ++ py " " in
      let base := if truthy (default [] xref) then base ++ default [] xref else base in
      tag ← as_str tag;                         (* base += tag *)
      let base := base ++ tag in
      dispatch level base tag value
  end.

(** The loop of [anonymize_file] over [lines], the result of [readlines()]:
    [i] is the index [enumerate] gives the first of them. The result is
    [anonymized_lines], each of which is then written followed by a newline. *)
Definition is_newline (c : char) : bool := (c =? LF)%N || (c =? CR)%N.

Fixpoint anonymize_lines (i : nat) (lines : list str) : M (list str) :=
  match lines with
  | [] => mret []
  | line :: lines' =>
      let line := rstrip_chars is_newline line in
      anonymized_line ←
        (if truthy (strip line) then anonymize_line line i else mret line);
      anonymized_lines ← anonymize_lines (S i) lines';
      mret (anonymized_line :: anonymized_lines)
  end.

Definition anonymize_file (lines : list str) : M (list str) := anonymize_lines 0 lines.

(** What is written for one element of [anonymized_lines]. *)
Definition written (line : str) : str := line ++ [LF].

(** ** Notions of the specification

    What the properties below are phrased in. None of it is used by the
    engine. *)

(** The fields of a line that matches the line pattern. *)
Record Decomposed := MkDecomposed {
  level : str;
  xref : option str;
  tag : str;
  value : str
}.

Definition decompose (line : str) : option Decomposed :=
  m ← re_match LINE_RE line;
  lv ← group m 1;
  tg ← group m 3;
  Some (MkDecomposed lv (group m 2) tg (default [] (group m 5))).

(** A line whose fields are [d] and whose tag is [tg]. *)
Definition tagged (tg : str) (line : str) : option Decomposed :=
  d ← decompose (strip_bom line);
  if bool_decide (tag d = tg) then Some d else None.

(** The start of the rebuilt line: level, a space, the cross-reference as it
    was matched, the tag. *)
Definition base_of (d : Decomposed) : str :=
  level d ++ py " " ++ default [] (xref d) ++ tag d.

(** A line of [readlines()] without its line ending, and whether the loop
    hands it to [anonymize_line]. *)
Definition content (raw : str) : str := rstrip_chars is_newline raw.
Definition is_blank (line : str) : bool := negb (truthy (strip line)).

Definition tagged_raw (tg : str) (raw : str) : option Decomposed :=
  if is_blank (content raw) then None else tagged tg (content raw).

(** The values of the lines with tag [tg], in document order. *)
Definition tag_values (tg : str) (lines : list str) : list str :=
  omap (λ raw, value <$> tagged_raw tg raw) lines.

(** The distinct values of a list in the order of their first occurrence. *)
Fixpoint first_seen_from (seen : list str) (vs : list str) : list str :=
  match vs with
  | [] => seen
  | v :: vs' =>
      if bool_decide (v ∈ seen) then first_seen_from seen vs'
      else first_seen_from (seen ++ [v]) vs'
  end.
Definition first_seen (vs : list str) : list str := first_seen_from [] vs.

(** A placeholder, and what one lookup-or-insert of an identity map does. *)
Definition placeholder (kind : str) (n : nat) : str := kind ++ str_of_int n.

Definition resolve (kind : str) (m : gmap str str) (c : nat) (v : str)
    : str * gmap str str * nat :=
  match m !! v with
  | Some p => (p, m, c)
  | None => (placeholder kind c, <[v := placeholder kind c]> m, S c)
  end.

(** The state a method call leaves, and the state after a sequence of calls
    of [anonymize_line]. *)
Definition state_of {A} (r : result A) : Anonymizer :=
  match r with Return _ self => self | Raise _ self => self end.

Definition after_calls (calls : list (str * nat)) (self : Anonymizer) : Anonymizer :=
  foldl (λ self call, state_of (anonymize_line call.1 call.2 self)) self calls.

(** Shapes of a date value. [all p s]: every character of [s] is in [p]. *)
Definition all (p : char → bool) (s : str) : Prop := forallb p s = true.

Definition dmy_shape (token : char → bool) (s : str) : Prop :=
  ∃ d w1 t w2 y tail,
    s = d ++ w1 ++ t ++ w2 ++ y ++ tail ∧
    all isdecimal d ∧ (1 ≤ length d ≤ 2)%nat ∧
    all isspace w1 ∧ (1 ≤ length w1)%nat ∧
    all token t ∧ length t = 3%nat ∧
    all isspace w2 ∧ (1 ≤ length w2)%nat ∧
    all isdecimal y ∧ length y = 4%nat.

Definition QUALIFIERS : list str := [py "ABT"; py "BEF"; py "AFT"; py "CAL"; py "EST"].

Definition qualified_shape (q : str) (s : str) : Prop :=
  ∃ w y tail,
    s = q ++ w ++ y ++ tail ∧
    all isspace w ∧ (1 ≤ length w)%nat ∧
    all isdecimal y ∧ length y = 4%nat.

Definition year_shape (s : str) : Prop :=
  ∃ y tail, s = y ++ tail ∧ all isdecimal y ∧ length y = 4%nat.

(** A letter, read generously: a word character that is neither a decimal
    digit nor the underscore. *)
Definition isletter (c : char) : bool :=
  isword c && negb (isdecimal c) && negb (c =? UNDERSCORE)%N.

(** The number a level stands for, [int(level)]: every run of decimal digits
    in the table starts at a multiple of ten of its offset, so the value of a
    digit is its distance to the start of its range, modulo ten. *)
Definition digit_value (c : char) : N :=
  match find (λ r, (r.1 <=? c)%N && (c <=? r.2)%N) decimal_table with
  | Some r => ((c - r.1) mod 10)%N
  | None => 0%N
  end.
Definition int_of (s : str) : N := foldl (λ n c, (10 * n + digit_value c)%N) 0%N s.

(** The day-month-year pattern with the class of the middle token left
    open; the pattern of the source has the word characters there. *)
Definition dmy_re (token : char → bool) : regex :=
  cat [Rep isdecimal 1 (Some 2); plus isspace; times token 3; plus isspace;
       times isdecimal 4].

(** The object with its name map and person counter (its place map and
    place counter) replaced, and with a warning printed. *)
Definition with_names (m : gmap str str) (c : nat) (self : Anonymizer) : Anonymizer :=
  MkAnonymizer m (place_map self) (keep_dates self) (keep_places self) c
    (place_counter self) (printed self).
Definition with_places (m : gmap str str) (c : nat) (self : Anonymizer) : Anonymizer :=
  MkAnonymizer (name_map self) m (keep_dates self) (keep_places self)
    (person_counter self) c (printed self).
Definition with_printed (msgs : list message) (self : Anonymizer) : Anonymizer :=
  MkAnonymizer (name_map self) (place_map self) (keep_dates self) (keep_places self)
    (person_counter self) (place_counter self) msgs.

(** What a call of [anonymize_line] on [line] does to the name map and the
    person counter (to the place map and the place counter), and what it
    returns when the line is a NAME (a PLAC) line. *)
Definition name_effect (line : str) (self self' : Anonymizer) (out : str) : Prop :=
  match tagged (py "NAME") line with
  | Some d =>
      let '(p, m, c) :=
        resolve (py "Person ") (name_map self) (person_counter self) (value d) in
      name_map self' = m ∧ person_counter self' = c ∧
      out = base_of d ++ py " " ++ p
  | None => name_map self' = name_map self ∧ person_counter self' = person_counter self
  end.

Definition place_effect (line : str) (self self' : Anonymizer) (out : str) : Prop :=
  match tagged (py "PLAC") line with
  | Some d =>
      if keep_places self then
        place_map self' = place_map self ∧ place_counter self' = place_counter self ∧
        out = base_of d ++ py " " ++ value d
      else
        let '(p, m, c) :=
          resolve (py "Place ") (place_map self) (place_counter self) (value d) in
        place_map self' = m ∧ place_counter self' = c ∧
        out = base_of d ++ py " " ++ p
  | None => place_map self' = place_map self ∧ place_counter self' = place_counter self
  end.

(** [seen] with [v] noted at its end unless it is there already. *)
Definition note (seen : list str) (v : str) : list str :=
  if bool_decide (v ∈ seen) then seen else seen ++ [v].

(** An identity map [m] with counter [c] that numbers the values [seen] in
    their order: the value at (0-based) position [n] has placeholder
    number [n + 1], nothing else is in the map, and the counter is the next
    number. *)
Definition numbered (kind : str) (seen : list str) (m : gmap str str) (c : nat) : Prop :=
  c = S (length seen) ∧ NoDup seen ∧ size m = length seen ∧
  ∀ v p, m !! v = Some p ↔ ∃ n, seen !! n = Some v ∧ p = placeholder kind (S n).

(** What the first-seen numbering of the [tg] lines of a document means for
    the final identity map [m] and the output lines [out]: the distinct values
    [seen], in the order of their first occurrence, have the placeholders of
    the numbers 1, 2, ...; every [tg] line carries the placeholder of its value;
    two [tg] lines carry the same placeholder exactly when their values are
    the same; no placeholder is shared in the map. *)
Definition first_seen_numbering (kind tg : str) (m : gmap str str)
    (lines out : list str) : Prop :=
  let seen := first_seen (tag_values tg lines) in
  NoDup seen ∧
  (∀ v, v ∈ seen ↔ v ∈ tag_values tg lines) ∧
  (∀ n v, seen !! n = Some v → m !! v = Some (placeholder kind (S n))) ∧
  (∀ j raw d, lines !! j = Some raw → tagged_raw tg raw = Some d →
     ∃ n, seen !! n = Some (value d) ∧
          out !! j = Some (base_of d ++ py " " ++ placeholder kind (S n))) ∧
  (∀ i j ri rj di dj,
     lines !! i = Some ri → lines !! j = Some rj →
     tagged_raw tg ri = Some di → tagged_raw tg rj = Some dj →
     ∃ pi pj, out !! i = Some (base_of di ++ py " " ++ pi) ∧
              out !! j = Some (base_of dj ++ py " " ++ pj) ∧
              (pi = pj ↔ value di = value dj)) ∧
  (∀ v1 v2 p, m !! v1 = Some p → m !! v2 = Some p → v1 = v2).

(** The two identity maps are numbered, each by some list of values. *)
Definition engine_inv (self : Anonymizer) : Prop :=
  (∃ seen, numbered (py "Person ") seen (name_map self) (person_counter self)) ∧
  (∃ seen, numbered (py "Place ") seen (place_map self) (place_counter self)).

(** The code points of a table of ranges, and the length of the longest
    prefix of a string in a class. *)
Definition range_elems (r : N * N) : list N :=
  (λ k, (r.1 + N.of_nat k)%N) <$> seq 0 (S (N.to_nat (r.2 - r.1))).
Definition table_elems (table : list (N * N)) : list N := table ≫= range_elems.

Fixpoint run_len (p : char → bool) (s : str) : nat :=
  match s with
  | c :: s' => if p c then S (run_len p s') else O
  | [] => O
  end.

(** The capture groups of a pattern. *)
Fixpoint groups (r : regex) : list nat :=
  match r with
  | Seq r1 r2 | Alt r1 r2 => groups r1 ++ groups r2
  | Opt r => groups r
  | Grp n r => n :: groups r
  | _ => []
  end.

(** What the fields of a decomposed line look like. *)
Definition fields_ok (d : Decomposed) : Prop :=
  level d ≠ [] ∧ all isdecimal (level d) ∧
  (xref d = None ∨
   ∃ x w, xref d = Some (AT :: x ++ AT :: w) ∧
          x ≠ [] ∧ all not_at x ∧ w ≠ [] ∧ all isspace w) ∧
  tag d ≠ [] ∧ all isword (tag d) ∧
  all dot (value d) ∧ (∀ c v, value d = c :: v → isspace c = false).

(** The values [anonymize_date] can put in place of a date. *)
Definition DATE_RESULTS : list str :=
  py "1 JAN 1900" :: py "1900" :: ((λ q, q ++ py " 1900") <$> QUALIFIERS).

(** The tags whose value is replaced with a fixed text, and all the tags the
    dispatch names. *)
Definition REDACTED_TAGS : list str := NAME_PART_TAGS ++ ADDRESS_TAGS ++ CONTACT_TAGS.
Definition NAMED_TAGS : list str :=
  [py "NAME"; py "PLAC"; py "DATE"] ++ TEXT_TAGS ++ REDACTED_TAGS.

(** A decimal digit of Basic Latin, and a character that may stand in a
    substituted value: not a newline. *)
Definition ascii_digit (c : char) : bool := (48 <=? c)%N && (c <=? 57)%N.

(** A value that can follow the tag and one space in a rebuilt line. *)
Definition value_ok (v : str) : Prop :=
  all dot v ∧ ∀ c s, v = c :: s → isspace c = false.

(** [d] with another value. *)
Definition with_value (d : Decomposed) (v : str) : Decomposed :=
  MkDecomposed (level d) (xref d) (tag d) v.

(** A printable character of Basic Latin, and a value the engine writes
    itself: not empty, printable, not starting with a space. *)
Definition printable (c : char) : bool := (32 <=? c)%N && (c <=? 126)%N.
Definition literal_value (v : str) : Prop :=
  v ≠ [] ∧ all printable v ∧ ∀ c s, v = c :: s → c ≠ 32%N.

(** A line as [readlines()] gives it: no line break inside, at most one
    newline at its end. *)
Definition one_line (raw : str) : Prop :=
  ∃ body, (raw = body ∨ raw = body ++ [LF]) ∧ ∀ c, c ∈ body → is_newline c = false.

(** The warning the loop of [anonymize_file] prints for the line [raw] at
    index [j], if it prints one. *)
Definition warning_for (j : nat) (raw : str) : option message :=
  if (j <? 5)%nat && truthy (strip (strip_bom (content raw))) &&
     bool_decide (decompose (strip_bom (content raw)) = None)
  then Some (Warning (j + 1) (take 50 (strip_bom (content raw))))
  else None.

(** The identity map of a second run over the output of a first: every
    placeholder below the counter stands for itself, and nothing else is in
    the map. [replays self1 self2]: [self2] is such a state for [self1]. *)
Definition replayed (kind : str) (m : gmap str str) (c : nat) : Prop :=
  ∀ v p, m !! v = Some p ↔ ∃ k, (1 ≤ k < c)%nat ∧ v = placeholder kind k ∧ p = v.

Definition replays (self1 self2 : Anonymizer) : Prop :=
  keep_dates self2 = keep_dates self1 ∧ keep_places self2 = keep_places self1 ∧
  person_counter self2 = person_counter self1 ∧
  place_counter self2 = place_counter self1 ∧
  replayed (py "Person ") (name_map self2) (person_counter self1) ∧
  replayed (py "Place ") (place_map self2) (place_counter self1).

(** The body of the loop of [anonymize_file] for one line without its line
    ending. *)
Definition loop_body (line : str) (i : nat) : M str :=
  if truthy (strip line) then anonymize_line line i else mret line.

(** Unfolding one layer of the method monad. *)
Ltac unfold_M :=
  unfold getitem, item, as_str, pass, mbind, M_bind, mret, M_ret, get, raise,
    set_name_map, set_place_map, set_person_counter, set_place_counter, print in *.

(** * Properties *)

(** ** Strings and placeholders *)

Lemma py_inj (s t : string) : py s = py t → s = t.
Proof.
  unfold py. intros H.
  assert (Hl : list_ascii_of_string s = list_ascii_of_string t).
  { revert H. generalize (list_ascii_of_string s) (list_ascii_of_string t).
    induction l as [|a l IH]; intros [|b l'] H; simplify_eq/=; try done.
    f_equal; [|by apply IH].
    rewrite <- (ascii_N_embedding a), <- (ascii_N_embedding b). by f_equal. }
  rewrite <- (string_of_list_ascii_of_string s), <- (string_of_list_ascii_of_string t).
  by f_equal.
Qed.

Lemma str_of_int_inj (n m : nat) : str_of_int n = str_of_int m → n = m.
Proof.
  unfold str_of_int. intros H%py_inj.
  assert (Hu : Nat.to_uint n = Nat.to_uint m).
  { apply (inj Some). rewrite <- !NilEmpty.usu. by f_equal. }
  rewrite <- (DecimalNat.Unsigned.of_to n), <- (DecimalNat.Unsigned.of_to m).
  by f_equal.
Qed.

Lemma placeholder_inj (kind : str) (n m : nat) :
  placeholder kind n = placeholder kind m → n = m.
Proof. unfold placeholder. intros H%(inj (app kind)). by apply str_of_int_inj. Qed.

Lemma str_of_int_nonempty (n : nat) : str_of_int n ≠ [].
Proof.
  unfold str_of_int, py. intros H.
  apply fmap_nil_inv in H.
  assert (Hs : NilEmpty.string_of_uint (Nat.to_uint n) = EmptyString).
  { rewrite <- (string_of_list_ascii_of_string (NilEmpty.string_of_uint _)).
    by rewrite H. }
  pose proof (NilEmpty.usu (Nat.to_uint n)) as Hu. rewrite Hs in Hu.
  simpl in Hu. injection Hu as Hu.
  pose proof (DecimalNat.Unsigned.of_to n) as Hn. rewrite <- Hu in Hn.
  simpl in Hn. subst n. discriminate Hu.
Qed.

(** ** The matcher *)

Lemma all_nil (p : char → bool) : all p [].
Proof. done. Qed.

Lemma all_cons (p : char → bool) (c : char) (s : str) :
  all p (c :: s) ↔ p c = true ∧ all p s.
Proof. unfold all. simpl. by rewrite andb_true_iff. Qed.

Lemma all_app (p : char → bool) (s t : str) : all p (s ++ t) ↔ all p s ∧ all p t.
Proof. unfold all. by rewrite forallb_app, andb_true_iff. Qed.

(** The ways a greedy repetition matches: every split of the subject into a
    run of the class, of an allowed length, and the rest. *)
Lemma elem_of_rep p lo hi cs i (s : str) st' :
  st' ∈ rep p lo hi cs i s ↔
  ∃ u v, s = u ++ v ∧ all p u ∧ (lo ≤ length u)%nat ∧
         (∀ h, hi = Some h → (length u ≤ h)%nat) ∧
         st' = MState (i + length u) v cs.
Proof.
  assert (Hstop : ∀ lo i (s : str),
    st' ∈ (match lo with O => [MState i s cs] | S _ => [] end) ↔
    lo = O ∧ st' = MState i s cs).
  { intros [|lo'] j t.
    - rewrite list_elem_of_singleton. naive_solver.
    - rewrite elem_of_nil. naive_solver. }
  revert lo hi i. induction s as [|c s IH]; intros lo hi i; simpl.
  - rewrite Hstop. split.
    + intros [-> ->]. exists [], []. split_and!; simpl; try done; try lia.
      by rewrite Nat.add_0_r.
    + intros (u & v & Hs & _ & Hlo & _ & ->).
      symmetry in Hs. apply app_eq_nil in Hs as [-> ->]. simpl in *.
      rewrite Nat.add_0_r. split; [lia|done].
  - destruct (p c && may_repeat hi) eqn:E.
    + apply andb_true_iff in E as [Hp Hm].
      rewrite elem_of_app, IH, Hstop. split.
      * intros [(u & v & -> & Hall & Hlo & Hhi & ->) | [-> ->]].
        -- exists (c :: u), v. split_and!; simpl; try done.
           ++ by apply all_cons.
           ++ lia.
           ++ intros h ->. specialize (Hhi (Nat.pred h) eq_refl).
              destruct h; [done|simpl in *; lia].
           ++ f_equal. lia.
        -- exists [], (c :: s). split_and!; simpl; try done; try lia.
           by rewrite Nat.add_0_r.
      * intros (u & v & Hs & Hall & Hlo & Hhi & ->).
        destruct u as [|c' u]; simpl in *.
        -- right. subst v. rewrite Nat.add_0_r. split; [lia|done].
        -- left. injection Hs as -> ->. apply all_cons in Hall as [_ Hall].
           exists u, v. split_and!; try done.
           ++ lia.
           ++ intros h' Hh'. destruct hi as [h|]; simplify_eq/=.
              specialize (Hhi h eq_refl). lia.
           ++ f_equal. lia.
    + rewrite Hstop. split.
      * intros [-> ->]. exists [], (c :: s). split_and!; simpl; try done; try lia.
        by rewrite Nat.add_0_r.
      * intros (u & v & Hs & Hall & Hlo & Hhi & ->).
        destruct u as [|c' u]; simpl in *.
        -- subst v. rewrite Nat.add_0_r. split; [lia|done].
        -- injection Hs as -> ->. apply all_cons in Hall as [Hp _].
           rewrite Hp in E. simpl in E. destruct hi as [[|h]|]; try done.
           specialize (Hhi 0%nat eq_refl). lia.
Qed.

Lemma elem_of_run_seq r1 r2 st st' :
  st' ∈ run (Seq r1 r2) st ↔ ∃ st1, st1 ∈ run r1 st ∧ st' ∈ run r2 st1.
Proof. simpl. rewrite list_elem_of_bind. naive_solver. Qed.

Lemma is_prefix_spec (s t : str) : is_prefix s t = true ↔ ∃ v, t = s ++ v.
Proof.
  revert t. induction s as [|c s IH]; intros [|d t]; simpl.
  - naive_solver.
  - naive_solver.
  - split; [done|]. by intros [v ?].
  - rewrite andb_true_iff, N.eqb_eq, IH. naive_solver.
Qed.

Lemma elem_of_run_lit (l : str) st st' :
  st' ∈ run (Lit l) st ↔
  ∃ v, rest st = l ++ v ∧ st' = MState (pos st + length l) v (caps st).
Proof.
  simpl. destruct (is_prefix l (rest st)) eqn:E.
  - apply is_prefix_spec in E as [v Hv]. rewrite list_elem_of_singleton, Hv.
    rewrite drop_app_length. split.
    + intros ->. by exists v.
    + by intros (v' & ->%(inj (app l)) & ->).
  - rewrite elem_of_nil. split; [done|]. intros (v & Hv & _).
    assert (is_prefix l (rest st) = true) by (apply is_prefix_spec; eauto).
    congruence.
Qed.

Lemma re_match_is_Some r (s : str) :
  is_Some (re_match r s) ↔ ∃ st', st' ∈ run r (MState 0 s ∅).
Proof.
  unfold re_match. rewrite head_is_Some. split.
  - destruct (run r _) as [|x l]; [done|]. intros _. exists x. by left.
  - intros [st' H] E. rewrite E in H. by apply elem_of_nil in H.
Qed.

Lemma re_match_elem_of r (s : str) m :
  re_match r s = Some m → m ∈ run r (MState 0 s ∅).
Proof.
  unfold re_match. destruct (run r _) as [|x l]; [done|].
  intros [= ->]. by left.
Qed.

Lemma is_match_true r (s : str) :
  is_match (re_match r s) = true ↔ ∃ st', st' ∈ run r (MState 0 s ∅).
Proof. unfold is_match. by rewrite bool_decide_eq_true, re_match_is_Some. Qed.

(** A group that was set stays set, and a capture group sets its number. *)
Lemma rep_caps p lo hi cs i (s : str) st' : st' ∈ rep p lo hi cs i s → caps st' = cs.
Proof. rewrite elem_of_rep. by intros (u & v & _ & _ & _ & _ & ->). Qed.

Lemma run_caps_mono r st st' (n : nat) :
  st' ∈ run r st → is_Some (caps st !! n) → is_Some (caps st' !! n).
Proof.
  revert st st'. induction r as [p|l|p lo hi| |r1 IH1 r2 IH2|r1 IH1 r2 IH2|r IH|k r IH| |];
    intros st st'.
  - simpl. destruct (rest st) as [|c s]; [by intros ?%elem_of_nil|].
    destruct (p c); [|by intros ?%elem_of_nil]. by intros ->%list_elem_of_singleton.
  - rewrite elem_of_run_lit. by intros (v & _ & ->).
  - simpl. by intros ->%rep_caps.
  - simpl. by intros ->%list_elem_of_singleton.
  - rewrite elem_of_run_seq. intros (st1 & H1 & H2) Hn. eauto.
  - simpl. rewrite elem_of_app. intros [H|H]; eauto.
  - simpl. rewrite elem_of_app, list_elem_of_singleton. intros [H| ->]; eauto.
  - simpl. rewrite list_elem_of_fmap. intros (st1 & -> & H1) Hn. simpl.
    destruct (decide (k = n)) as [->|Hne].
    + rewrite lookup_insert_eq. eauto.
    + rewrite lookup_insert_ne by done. eauto.
  - simpl. destruct (pos st); [|by intros ?%elem_of_nil].
    by intros ->%list_elem_of_singleton.
  - simpl. destruct (rest st) as [|c [|c' s]]; try by intros ?%elem_of_nil.
    + by intros ->%list_elem_of_singleton.
    + destruct (c =? LF)%N; [|by intros ?%elem_of_nil].
      by intros ->%list_elem_of_singleton.
Qed.

Lemma run_grp_caps (n : nat) r st st' : st' ∈ run (Grp n r) st → is_Some (caps st' !! n).
Proof.
  simpl. rewrite list_elem_of_fmap. intros (st1 & -> & _). simpl.
  rewrite lookup_insert_eq. eauto.
Qed.

(** Groups 1 (the level) and 3 (the tag) take part in every match of the
    line pattern. *)
Lemma LINE_RE_groups (line : str) m :
  re_match LINE_RE line = Some m → is_Some (group m 1) ∧ is_Some (group m 3).
Proof.
  intros H%re_match_elem_of. unfold LINE_RE, cat in H. simpl foldr in H.
  apply elem_of_run_seq in H as (s1 & _ & H).
  apply elem_of_run_seq in H as (s2 & H2 & H).
  apply elem_of_run_seq in H as (s3 & H3 & H).
  apply elem_of_run_seq in H as (s4 & H4 & H).
  apply elem_of_run_seq in H as (s5 & H5 & H).
  apply elem_of_run_seq in H as (s6 & H6 & H).
  apply elem_of_run_seq in H as (s7 & H7 & H).
  pose proof (run_grp_caps _ _ _ _ H2) as G1.
  pose proof (run_grp_caps _ _ _ _ H5) as G3.
  unfold group. split.
  - apply (run_caps_mono _ _ _ _ H), (run_caps_mono _ _ _ _ H7),
      (run_caps_mono _ _ _ _ H6), (run_caps_mono _ _ _ _ H5),
      (run_caps_mono _ _ _ _ H4), (run_caps_mono _ _ _ _ H3), G1.
  - apply (run_caps_mono _ _ _ _ H), (run_caps_mono _ _ _ _ H7),
      (run_caps_mono _ _ _ _ H6), G3.
Qed.

Lemma decompose_None (line : str) : decompose line = None ↔ re_match LINE_RE line = None.
Proof.
  unfold decompose. destruct (re_match LINE_RE line) as [m|] eqn:E; simpl; [|done].
  destruct (LINE_RE_groups _ _ E) as [[lv ->] [tg ->]]. simpl. done.
Qed.

(** ** What a match of the line pattern says about the line *)

Lemma run_Rep p lo hi st : run (Rep p lo hi) st = rep p lo hi (caps st) (pos st) (rest st).
Proof. done. Qed.

Lemma elem_of_run_alt r1 r2 st st' :
  st' ∈ run (Alt r1 r2) st ↔ st' ∈ run r1 st ∨ st' ∈ run r2 st.
Proof. simpl. apply elem_of_app. Qed.

Lemma elem_of_run_grp (n : nat) r st st' :
  st' ∈ run (Grp n r) st ↔
  ∃ s0, s0 ∈ run r st ∧
        st' = MState (pos s0) (rest s0) (<[n := take (pos s0 - pos st) (rest st)]> (caps s0)).
Proof. simpl. rewrite list_elem_of_fmap. naive_solver. Qed.

Lemma elem_of_run_eps st st' : st' ∈ run Eps st ↔ st' = st.
Proof. simpl. apply list_elem_of_singleton. Qed.

Lemma elem_of_run_opt r st st' : st' ∈ run (Opt r) st ↔ st' ∈ run r st ∨ st' = st.
Proof. simpl. by rewrite elem_of_app, list_elem_of_singleton. Qed.

Lemma elem_of_run_bol st st' : st' ∈ run Bol st ↔ st' = st ∧ pos st = 0%nat.
Proof.
  simpl. destruct (pos st).
  - rewrite list_elem_of_singleton. naive_solver.
  - rewrite elem_of_nil. naive_solver.
Qed.

Lemma elem_of_run_eol st st' :
  st' ∈ run Eol st ↔ st' = st ∧ (rest st = [] ∨ rest st = [LF]).
Proof.
  simpl. destruct (rest st) as [|c [|c' s]].
  - rewrite list_elem_of_singleton. naive_solver.
  - destruct (c =? LF)%N eqn:E.
    + apply N.eqb_eq in E as ->. rewrite list_elem_of_singleton. naive_solver.
    + apply N.eqb_neq in E. rewrite elem_of_nil. naive_solver.
  - rewrite elem_of_nil. naive_solver.
Qed.

Lemma elem_of_run_chr (c : char) st st' :
  st' ∈ run (chr c) st ↔
  ∃ s, rest st = c :: s ∧ st' = MState (S (pos st)) s (caps st).
Proof.
  unfold chr. simpl. destruct (rest st) as [|d s].
  - rewrite elem_of_nil. naive_solver.
  - destruct (d =? c)%N eqn:E.
    + apply N.eqb_eq in E as ->. rewrite list_elem_of_singleton. naive_solver.
    + apply N.eqb_neq in E. rewrite elem_of_nil. naive_solver.
Qed.

Lemma elem_of_run_plus p st st' :
  st' ∈ run (plus p) st ↔
  ∃ u v, rest st = u ++ v ∧ u ≠ [] ∧ all p u ∧
         st' = MState (pos st + length u) v (caps st).
Proof.
  unfold plus. rewrite run_Rep, elem_of_rep. split.
  - intros (u & v & E & A & L & _ & ->). exists u, v. split_and!; try done.
    intros ->. simpl in L. lia.
  - intros (u & v & E & Hne & A & ->). exists u, v. split_and!; try done.
    destruct u; [done|simpl; lia].
Qed.

Lemma elem_of_run_star p st st' :
  st' ∈ run (star p) st ↔
  ∃ u v, rest st = u ++ v ∧ all p u ∧ st' = MState (pos st + length u) v (caps st).
Proof.
  unfold star. rewrite run_Rep, elem_of_rep. split.
  - intros (u & v & E & A & L & _ & ->). by exists u, v.
  - intros (u & v & E & A & ->). exists u, v. split_and!; try done. lia.
Qed.

(** A pattern consumes a prefix of what is left and advances the position by
    its length. *)
Lemma run_consumes r st st' :
  st' ∈ run r st → ∃ u, rest st = u ++ rest st' ∧ pos st' = (pos st + length u)%nat.
Proof.
  revert st st'. induction r as [p|l|p lo hi| |r1 IH1 r2 IH2|r1 IH1 r2 IH2|r IH|k r IH| |];
    intros st st'.
  - simpl. destruct (rest st) as [|c s]; [by intros ?%elem_of_nil|].
    destruct (p c); [|by intros ?%elem_of_nil]. intros ->%list_elem_of_singleton.
    exists [c]. simpl. split; [done|lia].
  - rewrite elem_of_run_lit. intros (v & E & ->). by exists l.
  - rewrite run_Rep, elem_of_rep. intros (u & v & E & _ & _ & _ & ->). by exists u.
  - rewrite elem_of_run_eps. intros ->. exists []. simpl. split; [done|lia].
  - rewrite elem_of_run_seq. intros (s1 & (u1 & E1 & P1)%IH1 & (u2 & E2 & P2)%IH2).
    exists (u1 ++ u2). rewrite E1, E2, length_app, <- app_assoc. split; [done|lia].
  - rewrite elem_of_run_alt. intros [H|H]; eauto.
  - rewrite elem_of_run_opt. intros [H| ->]; [eauto|].
    exists []. simpl. split; [done|lia].
  - rewrite elem_of_run_grp. intros (s0 & (u & E & P)%IH & ->). by exists u.
  - rewrite elem_of_run_bol. intros [-> _]. exists []. simpl. split; [done|lia].
  - rewrite elem_of_run_eol. intros [-> _]. exists []. simpl. split; [done|lia].
Qed.

(** A capture group records the text its body consumed. *)
Lemma elem_of_run_grp_text (n : nat) r st st' :
  st' ∈ run (Grp n r) st ↔
  ∃ s0 u, s0 ∈ run r st ∧ rest st = u ++ rest s0 ∧
          st' = MState (pos s0) (rest s0) (<[n := u]> (caps s0)).
Proof.
  rewrite elem_of_run_grp. split.
  - intros (s0 & H0 & ->). destruct (run_consumes _ _ _ H0) as (u & E & P).
    exists s0, u. split_and!; try done. rewrite E at 1. rewrite P.
    replace (pos st + length u - pos st)%nat with (length u) by lia.
    by rewrite take_app_length.
  - intros (s0 & u & H0 & E & ->). exists s0. split; [done|].
    destruct (run_consumes _ _ _ H0) as (u' & E' & P).
    rewrite E' at 1. rewrite P.
    replace (pos st + length u' - pos st)%nat with (length u') by lia.
    rewrite take_app_length. rewrite E in E'. by apply (inj (λ x, x ++ rest s0)) in E' as ->.
Qed.

(** The fields of a decomposed line are pieces of the line, in order: the
    level (digits), whitespace, the cross-reference if there is one (an
    at-sign, characters other than it, an at-sign, whitespace), the tag (word
    characters), and then nothing, or whitespace and the value; a newline may
    end the line. *)
Lemma decompose_shape (line : str) d :
  decompose line = Some d →
  ∃ w1 tail,
    line = level d ++ w1 ++ default [] (xref d) ++ tag d ++ tail ∧
    level d ≠ [] ∧ all isdecimal (level d) ∧
    w1 ≠ [] ∧ all isspace w1 ∧
    (xref d = None ∨
     ∃ x w, xref d = Some (AT :: x ++ AT :: w) ∧
            x ≠ [] ∧ all not_at x ∧ w ≠ [] ∧ all isspace w) ∧
    tag d ≠ [] ∧ all isword (tag d) ∧
    ((value d = [] ∧ (tail = [] ∨ tail = [LF])) ∨
     ∃ w2, w2 ≠ [] ∧ all isspace w2 ∧ all dot (value d) ∧
           (tail = w2 ++ value d ∨ tail = w2 ++ value d ++ [LF])).
Proof.
  unfold decompose. destruct (re_match LINE_RE line) as [m|] eqn:E; [|done].
  apply re_match_elem_of in E. unfold LINE_RE, cat in E. simpl foldr in E.
  apply elem_of_run_seq in E as (s1 & H1 & E).
  apply elem_of_run_seq in E as (s2 & H2 & E).
  apply elem_of_run_seq in E as (s3 & H3 & E).
  apply elem_of_run_seq in E as (s4 & H4 & E).
  apply elem_of_run_seq in E as (s5 & H5 & E).
  apply elem_of_run_seq in E as (s6 & H6 & E).
  apply elem_of_run_seq in E as (s7 & H7 & E).
  apply elem_of_run_eps in E as ->.
  apply elem_of_run_bol in H1 as [-> _].
  apply elem_of_run_grp_text in H2 as (a & lv & Ha & E1 & ->).
  apply elem_of_run_plus in Ha as (lv' & v1 & E1' & N1 & A1 & ->).
  cbn [rest pos caps] in *. rewrite E1' in E1.
  apply (inj (λ x, x ++ v1)) in E1 as ->. subst line.
  apply elem_of_run_plus in H3 as (w1 & v3 & E3 & N3 & A3 & ->).
  cbn [rest pos caps] in *. subst v1.
  apply elem_of_run_eol in H7 as [-> Hend].
  (* the cross-reference *)
  assert (∃ xr v4 c4,
    v3 = default [] xr ++ v4 ∧ rest s4 = v4 ∧ caps s4 = c4 ∧
    c4 !! 1%nat = Some lv ∧ c4 !! 2%nat = xr ∧ c4 !! 3%nat = None ∧
    c4 !! 5%nat = None ∧
    (xr = None ∨ ∃ x w, xr = Some (AT :: x ++ AT :: w) ∧
                        x ≠ [] ∧ all not_at x ∧ w ≠ [] ∧ all isspace w))
    as (xr & v4 & c4 & E4 & R4 & C4 & G1 & G2 & G3 & G5 & Hx).
  { apply elem_of_run_opt in H4 as [H4| ->].
    - apply elem_of_run_grp_text in H4 as (b & ux & Hb & Ex & ->).
      apply elem_of_run_seq in Hb as (b1 & B1 & Hb).
      apply elem_of_run_seq in Hb as (b2 & B2 & Hb).
      apply elem_of_run_seq in Hb as (b3 & B3 & Hb).
      apply elem_of_run_seq in Hb as (b4 & B4 & Hb).
      apply elem_of_run_eps in Hb as ->.
      apply elem_of_run_chr in B1 as (t1 & T1 & ->). cbn [rest pos caps] in *.
      apply elem_of_run_plus in B2 as (x & t2 & T2 & Nx & Ax & ->).
      cbn [rest pos caps] in *.
      apply elem_of_run_chr in B3 as (t3 & T3 & ->). cbn [rest pos caps] in *.
      apply elem_of_run_plus in B4 as (w & t4 & T4 & Nw & Aw & ->).
      cbn [rest pos caps] in *. subst.
      assert (ux = AT :: x ++ AT :: w) as ->.
      { apply (inj (λ y, y ++ t4)). rewrite <- Ex. simpl.
        by rewrite <- !app_assoc. }
      exists (Some (AT :: x ++ AT :: w)), t4, (<[2%nat := AT :: x ++ AT :: w]> (<[1%nat := lv]> ∅)).
      split_and!; try done. right. by exists x, w.
    - exists None, v3, (<[1%nat := lv]> ∅). cbn [rest pos caps]. split_and!; try done.
      by left. }
  (* the tag *)
  apply elem_of_run_grp_text in H5 as (b & tg & Hb & E5 & ->).
  apply elem_of_run_plus in Hb as (tg' & v5 & E5' & N5 & A5 & ->).
  cbn [rest pos caps] in *.
  rewrite E5' in E5. apply (inj (λ x, x ++ v5)) in E5 as ->.
  rewrite R4 in E5'. subst v4. rewrite C4 in *.
  (* the value *)
  assert (∃ vl, group s6 1 = Some lv ∧ group s6 2 = xr ∧ group s6 3 = Some tg ∧
                default [] (group s6 5) = vl ∧
                ((vl = [] ∧ v5 = rest s6) ∨
                 ∃ w2, w2 ≠ [] ∧ all isspace w2 ∧ all dot vl ∧ v5 = w2 ++ vl ++ rest s6))
    as (vl & F1 & F2 & F3 & F5 & Hv).
  { unfold group. apply elem_of_run_opt in H6 as [H6| ->].
    - apply elem_of_run_grp_text in H6 as (b & u4 & Hb & E6 & ->).
      apply elem_of_run_seq in Hb as (b1 & B1 & Hb).
      apply elem_of_run_seq in Hb as (b2 & B2 & Hb).
      apply elem_of_run_eps in Hb as ->.
      apply elem_of_run_plus in B1 as (w2 & t1 & T1 & Nw & Aw & ->).
      cbn [rest pos caps] in *.
      apply elem_of_run_grp_text in B2 as (b3 & vl & B3 & E7 & ->).
      apply elem_of_run_star in B3 as (vl' & t2 & T2 & Av & ->).
      cbn [rest pos caps] in *. subst. apply (inj (λ x, x ++ t2)) in E7 as ->.
      eexists. rewrite !lookup_insert_ne by done. rewrite lookup_insert_eq.
      rewrite !lookup_insert_ne by done. rewrite lookup_insert_eq.
      split_and!; try done. right. exists w2. split_and!; done.
    - cbn [rest pos caps]. exists []. rewrite lookup_insert_eq.
      rewrite !lookup_insert_ne by done. rewrite G5.
      split_and!; try done. by left. }
  cbn [mbind option_bind]. rewrite F1. cbn [mbind option_bind]. rewrite F3.
  cbn [mbind option_bind]. rewrite F2, F5. intros [= <-].
  cbn [level xref tag value].
  exists w1, v5. split_and!; try done.
  - rewrite E4. by rewrite <- ?app_assoc.
  - destruct Hv as [[-> ->]|(w2 & Nw & Aw & Av & ->)]; [by left|].
    right. exists w2. split_and!; try done.
    destruct Hend as [->| ->]; [left|right]; by rewrite ?app_nil_r.
Qed.

(** ** The date patterns and the shapes they recognise *)

Lemma FULL_DATE_RE_dmy : FULL_DATE_RE = dmy_re isword.
Proof. done. Qed.

Lemma dmy_re_spec (token : char → bool) (s : str) :
  is_match (re_match (dmy_re token) s) = true ↔ dmy_shape token s.
Proof.
  rewrite is_match_true. unfold dmy_re, cat, plus, times. simpl foldr. split.
  - intros (st' & H).
    apply elem_of_run_seq in H as (s1 & H1 & H).
    apply elem_of_run_seq in H as (s2 & H2 & H).
    apply elem_of_run_seq in H as (s3 & H3 & H).
    apply elem_of_run_seq in H as (s4 & H4 & H).
    apply elem_of_run_seq in H as (s5 & H5 & H).
    rewrite run_Rep in H1, H2, H3, H4, H5.
    apply elem_of_rep in H1 as (d & v1 & E1 & A1 & L1 & U1 & ->).
    apply elem_of_rep in H2 as (w1 & v2 & E2 & A2 & L2 & U2 & ->).
    apply elem_of_rep in H3 as (t & v3 & E3 & A3 & L3 & U3 & ->).
    apply elem_of_rep in H4 as (w2 & v4 & E4 & A4 & L4 & U4 & ->).
    apply elem_of_rep in H5 as (y & v5 & E5 & A5 & L5 & U5 & ->).
    simpl in *. subst.
    specialize (U1 _ eq_refl). specialize (U3 _ eq_refl). specialize (U5 _ eq_refl).
    exists d, w1, t, w2, y, v5. split_and!; try done; lia.
  - intros (d & w1 & t & w2 & y & tail & -> & A1 & [L1 U1] & A2 & L2 & A3 & L3 & A4 & L4
            & A5 & L5).
    eexists. apply elem_of_run_seq. eexists. split.
    { rewrite run_Rep. apply elem_of_rep. exists d, (w1 ++ t ++ w2 ++ y ++ tail).
      split_and!; try done. by intros h [= <-]. }
    apply elem_of_run_seq. eexists. split.
    { rewrite run_Rep. apply elem_of_rep. exists w1, (t ++ w2 ++ y ++ tail).
      split_and!; done. }
    apply elem_of_run_seq. eexists. split.
    { rewrite run_Rep. apply elem_of_rep. exists t, (w2 ++ y ++ tail).
      split_and!; try done; [lia|]. intros h [= <-]. lia. }
    apply elem_of_run_seq. eexists. split.
    { rewrite run_Rep. apply elem_of_rep. exists w2, (y ++ tail).
      split_and!; done. }
    apply elem_of_run_seq. eexists. split.
    { rewrite run_Rep. apply elem_of_rep. exists y, tail.
      split_and!; try done; [lia|]. intros h [= <-]. lia. }
    simpl. by left.
Qed.

Lemma FULL_DATE_RE_spec (s : str) :
  is_match (re_match FULL_DATE_RE s) = true ↔ dmy_shape isword s.
Proof. rewrite FULL_DATE_RE_dmy. apply dmy_re_spec. Qed.

Lemma YEAR_RE_spec (s : str) : is_match (re_match YEAR_RE s) = true ↔ year_shape s.
Proof.
  rewrite is_match_true. unfold YEAR_RE, times. split.
  - intros (st' & H). rewrite run_Rep in H.
    apply elem_of_rep in H as (y & v & E & A & L & U & ->). simpl in *. subst.
    specialize (U _ eq_refl). exists y, v. split_and!; try done; lia.
  - intros (y & tail & -> & A & L). eexists. rewrite run_Rep. apply elem_of_rep.
    exists y, tail. split_and!; try done; [lia|]. intros h [= <-]. lia.
Qed.

Lemma QUALIFIED_DATE_RE_spec (s : str) :
  is_match (re_match QUALIFIED_DATE_RE s) = true ↔
  ∃ q, q ∈ QUALIFIERS ∧ qualified_shape q s.
Proof.
  rewrite is_match_true. unfold QUALIFIED_DATE_RE, cat, plus, times. simpl foldr. split.
  - intros (st' & H).
    apply elem_of_run_seq in H as (s1 & H1 & H).
    apply elem_of_run_seq in H as (s2 & H2 & H).
    apply elem_of_run_seq in H as (s3 & H3 & H).
    rewrite run_Rep in H2, H3.
    apply elem_of_rep in H2 as (w & v2 & E2 & A2 & L2 & U2 & ->).
    apply elem_of_rep in H3 as (y & v3 & E3 & A3 & L3 & U3 & ->).
    cbn [rest pos caps] in E3. specialize (U3 _ eq_refl).
    assert (∃ q, q ∈ QUALIFIERS ∧ s = q ++ rest s1) as (q & Hq & Es).
    { apply elem_of_run_grp in H1 as (s0 & H0 & ->). simpl rest.
      rewrite !elem_of_run_alt in H0. unfold QUALIFIERS.
      destruct H0 as [H0|[H0|[H0|[H0|H0]]]];
        apply elem_of_run_lit in H0 as (v & E & ->); cbn [rest pos caps] in *; subst s;
        eexists; (split; [|reflexivity]); repeat constructor. }
    exists q. split; [done|]. exists w, y, v3. rewrite Es, E2, E3.
    split_and!; try done; lia.
  - intros (q & Hq & w & y & tail & -> & A2 & L2 & A3 & L3).
    assert (∃ s1, s1 ∈ run (Grp 1 (Alt (Lit (py "ABT")) (Alt (Lit (py "BEF"))
                     (Alt (Lit (py "AFT")) (Alt (Lit (py "CAL")) (Lit (py "EST")))))))
                     (MState 0 (q ++ w ++ y ++ tail) ∅) ∧
                  rest s1 = w ++ y ++ tail) as (s1 & H1 & E1).
    { assert (∃ s0, s0 ∈ run (Alt (Lit (py "ABT")) (Alt (Lit (py "BEF"))
                     (Alt (Lit (py "AFT")) (Alt (Lit (py "CAL")) (Lit (py "EST"))))))
                     (MState 0 (q ++ w ++ y ++ tail) ∅) ∧
                    rest s0 = w ++ y ++ tail) as (s0 & H0 & E0).
      { eexists (MState (length q) (w ++ y ++ tail) ∅). split; [|done].
        rewrite !elem_of_run_alt. unfold QUALIFIERS in Hq.
        rewrite !elem_of_cons, elem_of_nil in Hq.
        destruct Hq as [->|[->|[->|[->|[->|[]]]]]];
          [left|right;left|right;right;left|right;right;right;left|right;right;right;right];
          apply elem_of_run_lit; exists (w ++ y ++ tail); done. }
      eexists. split; [apply elem_of_run_grp; eexists; split; [exact H0|reflexivity]|].
      done. }
    eexists. apply elem_of_run_seq. exists s1. split; [done|].
    apply elem_of_run_seq. eexists. split.
    { rewrite run_Rep, E1. apply elem_of_rep. exists w, (y ++ tail).
      split_and!; done. }
    apply elem_of_run_seq. eexists. split.
    { rewrite run_Rep. apply elem_of_rep. exists y, tail.
      split_and!; try done; [lia|]. intros h [= <-]. lia. }
    simpl. by left.
Qed.

(** [split] returns a leading run of non-whitespace characters that is
    followed by whitespace as its first element. *)
Lemma split_from_token (u : str) (c : char) (v : str) (cur : option str) :
  all (λ c, negb (isspace c)) u → isspace c = true → is_Some cur ∨ u ≠ [] →
  split_from cur (u ++ c :: v) = (default [] cur ++ u) :: split_from None v.
Proof.
  revert cur. induction u as [|a u IH]; intros cur Hu Hc Hne.
  - destruct Hne as [[w ->]|]; [|done]. simpl. rewrite Hc. by rewrite app_nil_r.
  - apply all_cons in Hu as [Ha Hu]. apply negb_true_iff in Ha.
    simpl. rewrite Ha. rewrite IH; eauto. simpl. by rewrite <- app_assoc.
Qed.

Lemma qualifier_no_space (q : str) : q ∈ QUALIFIERS → all (λ c, negb (isspace c)) q ∧ q ≠ [].
Proof.
  unfold QUALIFIERS. rewrite !elem_of_cons, elem_of_nil.
  intros [->|[->|[->|[->|[->|[]]]]]]; split; try done; vm_compute; done.
Qed.

Lemma split_qualified (q s : str) :
  q ∈ QUALIFIERS → qualified_shape q s → split s !! 0%nat = Some q.
Proof.
  intros Hq (w & y & tail & -> & A & L & _).
  destruct (qualifier_no_space q Hq) as [Hns Hne].
  destruct w as [|c w]; [simpl in L; lia|]. apply all_cons in A as [Hc _].
  unfold split. simpl app. rewrite split_from_token; eauto.
Qed.

(** ** The methods *)

Lemma with_names_id self : with_names (name_map self) (person_counter self) self = self.
Proof. by destruct self. Qed.

Lemma with_places_id self : with_places (place_map self) (place_counter self) self = self.
Proof. by destruct self. Qed.

Lemma anonymize_name_resolve (name : str) self :
  anonymize_name name self =
  let '(p, m, c) := resolve (py "Person ") (name_map self) (person_counter self) name in
  Return p (with_names m c self).
Proof.
  unfold anonymize_name, resolve, contains. unfold_M.
  destruct (name_map self !! name) as [p|] eqn:E; simpl.
  - rewrite E. by rewrite with_names_id.
  - rewrite lookup_insert_eq. unfold with_names, placeholder.
    by rewrite Nat.add_1_r.
Qed.

Lemma anonymize_place_keep (place : str) self :
  keep_places self = true → anonymize_place place self = Return place self.
Proof. intros H. unfold anonymize_place. unfold_M. by rewrite H. Qed.

Lemma anonymize_place_resolve (place : str) self :
  keep_places self = false →
  anonymize_place place self =
  let '(p, m, c) := resolve (py "Place ") (place_map self) (place_counter self) place in
  Return p (with_places m c self).
Proof.
  intros H. unfold anonymize_place, resolve, contains. unfold_M. rewrite H.
  destruct (place_map self !! place) as [p|] eqn:E; simpl.
  - rewrite E. by rewrite with_places_id.
  - rewrite lookup_insert_eq. unfold with_places, placeholder.
    by rewrite Nat.add_1_r.
Qed.

Lemma anonymize_date_keep (date : str) self :
  keep_dates self = true → anonymize_date date self = Return date self.
Proof. intros H. unfold anonymize_date. unfold_M. by rewrite H. Qed.

Lemma anonymize_date_full (date : str) self :
  keep_dates self = false → dmy_shape isword date →
  anonymize_date date self = Return (py "1 JAN 1900") self.
Proof.
  intros H Hs%FULL_DATE_RE_spec. unfold anonymize_date. unfold_M.
  by rewrite H, Hs.
Qed.

Lemma anonymize_date_qualified (q date : str) self :
  keep_dates self = false → ¬ dmy_shape isword date →
  q ∈ QUALIFIERS → qualified_shape q date →
  anonymize_date date self = Return (q ++ py " 1900") self.
Proof.
  intros H Hn Hq Hs. unfold anonymize_date. unfold_M. rewrite H.
  destruct (is_match (re_match FULL_DATE_RE date)) eqn:E1.
  { by apply FULL_DATE_RE_spec in E1. }
  assert (is_match (re_match QUALIFIED_DATE_RE date) = true) as ->.
  { apply QUALIFIED_DATE_RE_spec. eauto. }
  by rewrite (split_qualified q date Hq Hs).
Qed.

Lemma anonymize_date_year (date : str) self :
  keep_dates self = false → ¬ dmy_shape isword date →
  (∀ q, q ∈ QUALIFIERS → ¬ qualified_shape q date) → year_shape date →
  anonymize_date date self = Return (py "1900") self.
Proof.
  intros H Hn Hq Hs%YEAR_RE_spec. unfold anonymize_date. unfold_M. rewrite H.
  destruct (is_match (re_match FULL_DATE_RE date)) eqn:E1.
  { by apply FULL_DATE_RE_spec in E1. }
  destruct (is_match (re_match QUALIFIED_DATE_RE date)) eqn:E2.
  { apply QUALIFIED_DATE_RE_spec in E2 as (q & ? & ?). by destruct (Hq q). }
  by rewrite Hs.
Qed.

Lemma anonymize_date_other (date : str) self :
  keep_dates self = false → ¬ dmy_shape isword date →
  (∀ q, q ∈ QUALIFIERS → ¬ qualified_shape q date) → ¬ year_shape date →
  anonymize_date date self = Return date self.
Proof.
  intros H Hn Hq Hy. unfold anonymize_date. unfold_M. rewrite H.
  destruct (is_match (re_match FULL_DATE_RE date)) eqn:E1.
  { by apply FULL_DATE_RE_spec in E1. }
  destruct (is_match (re_match QUALIFIED_DATE_RE date)) eqn:E2.
  { apply QUALIFIED_DATE_RE_spec in E2 as (q & ? & ?). by destruct (Hq q). }
  destruct (is_match (re_match YEAR_RE date)) eqn:E3.
  { by apply YEAR_RE_spec in E3. }
  done.
Qed.

(** [anonymize_date] always returns, and leaves the object as it was. *)
Lemma anonymize_date_total (date : str) self :
  ∃ v, anonymize_date date self = Return v self.
Proof.
  destruct (keep_dates self) eqn:H.
  { eexists. by apply anonymize_date_keep. }
  unfold anonymize_date. unfold_M. rewrite H.
  destruct (is_match (re_match FULL_DATE_RE date)) eqn:E1; [by eexists|].
  destruct (is_match (re_match QUALIFIED_DATE_RE date)) eqn:E2.
  { apply QUALIFIED_DATE_RE_spec in E2 as (q & Hq & Hs).
    rewrite (split_qualified q date Hq Hs). by eexists. }
  destruct (is_match (re_match YEAR_RE date)); by eexists.
Qed.

Lemma fixed_text_total (base value text : str) self :
  ∃ out, fixed_text base value text self = Return out self.
Proof. unfold fixed_text. unfold_M. destruct (truthy (strip value)); by eexists. Qed.

(** A line that does not match is returned as it is after the byte-order
    mark was removed; at most a warning is printed. *)
Lemma anonymize_line_None (line : str) (n : nat) self :
  decompose (strip_bom line) = None →
  anonymize_line line n self =
  Return (strip_bom line)
    (if (n <? 5)%nat && truthy (strip (strip_bom line))
     then with_printed (printed self ++ [Warning (n + 1) (take 50 (strip_bom line))]) self
     else self).
Proof.
  intros H%decompose_None. unfold anonymize_line. rewrite H. unfold_M.
  by destruct ((n <? 5)%nat && truthy (strip (strip_bom line))).
Qed.

(** A line that matches goes through the dispatch with its fields. *)
Lemma anonymize_line_Some (line : str) (n : nat) self d :
  decompose (strip_bom line) = Some d →
  anonymize_line line n self = dispatch (Some (level d)) (base_of d) (tag d) (value d) self.
Proof.
  unfold decompose, anonymize_line. intros H.
  destruct (re_match LINE_RE (strip_bom line)) as [m|]; [|done]. simpl in H.
  destruct (group m 1) as [lv|]; [|done]. simpl in H.
  destruct (group m 3) as [tg|]; [|done]. simpl in H.
  injection H as <-. unfold_M. unfold base_of, format.
  cbn [level xref tag value].
  change (default (py "None") (Some lv)) with lv.
  generalize (default [] (group m 2)). intros x.
  assert ((if truthy x then (lv ++ py " ") ++ x else lv ++ py " ")
          = (lv ++ py " ") ++ x) as ->.
  { destruct x; [by rewrite app_nil_r|done]. }
  by rewrite <- !app_assoc.
Qed.

Lemma dispatch_NAME lv (base value : str) self :
  dispatch lv base (py "NAME") value self =
  (anon_value ← anonymize_name value; mret (base ++ py " " ++ anon_value)) self.
Proof. unfold dispatch. by rewrite (bool_decide_eq_true_2 _ eq_refl). Qed.

Lemma dispatch_PLAC lv (base value : str) self :
  dispatch lv base (py "PLAC") value self =
  (anon_value ← anonymize_place value; mret (base ++ py " " ++ anon_value)) self.
Proof.
  unfold dispatch. rewrite bool_decide_eq_false_2 by (intros ?%py_inj; discriminate).
  by rewrite (bool_decide_eq_true_2 _ eq_refl).
Qed.

Lemma dispatch_DATE lv (base value : str) self :
  dispatch lv base (py "DATE") value self =
  (anon_value ← anonymize_date value; mret (base ++ py " " ++ anon_value)) self.
Proof.
  unfold dispatch. rewrite !bool_decide_eq_false_2 by (intros ?%py_inj; discriminate).
  by rewrite (bool_decide_eq_true_2 _ eq_refl).
Qed.

(** Every tag but NAME and PLAC leaves the object as it was. *)
Lemma dispatch_frame lv (base tg value : str) self :
  tg ≠ py "NAME" → tg ≠ py "PLAC" →
  ∃ out, dispatch lv base tg value self = Return out self.
Proof.
  intros H1 H2. unfold dispatch. rewrite !bool_decide_eq_false_2 by done.
  case_bool_decide.
  { destruct (anonymize_date_total value self) as [v Hv]. unfold_M. rewrite Hv. eauto. }
  repeat (case_bool_decide; [apply fixed_text_total|]).
  destruct (_ && _); [apply fixed_text_total|].
  unfold_M. destruct (truthy value); eauto.
Qed.

Lemma tagged_Some (tg line : str) d :
  tagged tg line = Some d ↔ decompose (strip_bom line) = Some d ∧ tag d = tg.
Proof.
  unfold tagged. destruct (decompose (strip_bom line)) as [d'|]; simpl.
  - case_bool_decide; naive_solver.
  - naive_solver.
Qed.

Lemma tagged_None_ne (tg line : str) d :
  decompose (strip_bom line) = Some d → tag d ≠ tg → tagged tg line = None.
Proof. intros E H. unfold tagged. rewrite E. simpl. by rewrite bool_decide_eq_false_2. Qed.

Lemma tagged_None_malformed (tg line : str) :
  decompose (strip_bom line) = None → tagged tg line = None.
Proof. intros E. unfold tagged. by rewrite E. Qed.

(** What one call of [anonymize_line] does: it returns, keeps the
    configuration, and touches the two identity maps as [name_effect] and
    [place_effect] say. *)
Lemma anonymize_line_spec (line : str) (n : nat) self :
  ∃ out self',
    anonymize_line line n self = Return out self' ∧
    keep_dates self' = keep_dates self ∧ keep_places self' = keep_places self ∧
    name_effect line self self' out ∧ place_effect line self self' out.
Proof.
  unfold name_effect, place_effect.
  destruct (decompose (strip_bom line)) as [d|] eqn:E.
  - rewrite (anonymize_line_Some _ _ _ _ E).
    destruct (decide (tag d = py "NAME")) as [Hn|Hn];
      [|destruct (decide (tag d = py "PLAC")) as [Hp|Hp]].
    + rewrite (proj2 (tagged_Some _ _ _) (conj E Hn)).
      rewrite (tagged_None_ne (py "PLAC") _ _ E)
        by (rewrite Hn; intros ?%py_inj; discriminate).
      rewrite Hn, dispatch_NAME. unfold_M. rewrite anonymize_name_resolve.
      destruct (resolve _ _ _ _) as [[p m] c]. eexists _, _. split; [reflexivity|].
      done.
    + rewrite (proj2 (tagged_Some _ _ _) (conj E Hp)).
      rewrite (tagged_None_ne (py "NAME") _ _ E) by done.
      rewrite Hp, dispatch_PLAC. unfold_M.
      destruct (keep_places self) eqn:K.
      * rewrite anonymize_place_keep by done. eexists _, _. split; [reflexivity|].
        done.
      * rewrite anonymize_place_resolve by done.
        destruct (resolve _ _ _ _) as [[p m] c]. eexists _, _. split; [reflexivity|].
        done.
    + rewrite (tagged_None_ne (py "NAME") _ _ E) by done.
      rewrite (tagged_None_ne (py "PLAC") _ _ E) by done.
      destruct (dispatch_frame (Some (level d)) (base_of d) (tag d) (value d) self Hn Hp)
        as [out ->].
      eexists _, _. split; [reflexivity|]. done.
  - rewrite (anonymize_line_None _ _ _ E), !tagged_None_malformed by done.
    eexists _, _. split; [reflexivity|].
    by destruct (_ && _).
Qed.

(** ** Identity maps *)

Lemma numbered_init (kind : str) : numbered kind [] ∅ 1.
Proof.
  split_and!; try done; [constructor|].
  intros v p. rewrite lookup_empty. split; [done|]. by intros (n & ? & _).
Qed.

Lemma note_spec (seen : list str) (v : str) :
  (v ∈ seen ∧ note seen v = seen) ∨ (v ∉ seen ∧ note seen v = seen ++ [v]).
Proof. unfold note. case_bool_decide; eauto. Qed.

Lemma numbered_lookup_None (kind : str) seen m c (v : str) :
  numbered kind seen m c → m !! v = None ↔ v ∉ seen.
Proof.
  intros (_ & _ & _ & Hm). rewrite list_elem_of_lookup. split.
  - intros Hv [n Hn]. assert (m !! v = Some (placeholder kind (S n))) as E.
    { apply Hm. eauto. }
    congruence.
  - intros Hv. destruct (m !! v) as [p|] eqn:E; [|done].
    apply Hm in E as (n & Hn & _). destruct Hv. eauto.
Qed.

(** One lookup-or-insert keeps the numbering, notes the value, and returns
    the placeholder of the value's position. *)
Lemma numbered_resolve (kind : str) seen m c (v : str) p m' c' :
  numbered kind seen m c → resolve kind m c v = (p, m', c') →
  numbered kind (note seen v) m' c' ∧
  ∃ n, note seen v !! n = Some v ∧ p = placeholder kind (S n).
Proof.
  intros Hnum Hr. pose proof Hnum as (Hc & Hnd & Hsz & Hm).
  unfold resolve in Hr. destruct (m !! v) as [q|] eqn:E.
  - injection Hr as <- <- <-.
    destruct (note_spec seen v) as [[Hin ->]|[Hout _]].
    + split; [done|]. by apply Hm.
    + apply (numbered_lookup_None _ _ _ _ v Hnum) in Hout. congruence.
  - injection Hr as <- <- <-.
    destruct (note_spec seen v) as [[Hin _]|[Hout ->]].
    { apply (numbered_lookup_None _ _ _ _ v Hnum) in E. done. }
    split.
    + split_and!.
      * rewrite length_app. simpl. lia.
      * apply NoDup_app. split_and!; [done| |apply NoDup_singleton].
        intros x Hx ->%list_elem_of_singleton. done.
      * rewrite map_size_insert_None by done. rewrite length_app. simpl. lia.
      * intros v' p'. destruct (decide (v' = v)) as [->|Hne].
        -- rewrite lookup_insert_eq. split.
           ++ intros [= <-]. exists (length seen). split; [|by rewrite Hc].
              by rewrite lookup_app_r, Nat.sub_diag.
           ++ intros (n & Hn & ->). f_equal. rewrite Hc. f_equal. f_equal.
              destruct (decide (n < length seen)%nat) as [Hlt|Hge].
              ** rewrite lookup_app_l in Hn by done.
                 destruct Hout. apply list_elem_of_lookup. eauto.
              ** rewrite lookup_app_r in Hn by lia.
                 destruct (n - length seen)%nat eqn:D; simpl in Hn; [lia|].
                 by rewrite lookup_nil in Hn.
        -- rewrite lookup_insert_ne by done. rewrite Hm. split.
           ++ intros (n & Hn & ->). exists n. split; [|done].
              apply lookup_app_l_Some. done.
           ++ intros (n & Hn & ->). exists n. split; [|done].
              apply lookup_app_Some in Hn as [Hn|[_ Hn]]; [done|].
              destruct (n - length seen)%nat; simpl in Hn; [congruence|].
              by rewrite lookup_nil in Hn.
    + exists (length seen). split; [|by rewrite Hc].
      by rewrite lookup_app_r, Nat.sub_diag.
Qed.

Lemma note_extends (seen : list str) (v : str) : ∃ k, note seen v = seen ++ k.
Proof.
  destruct (note_spec seen v) as [[_ ->]|[_ ->]]; [exists []|exists [v]]; [|done].
  by rewrite app_nil_r.
Qed.

Lemma first_seen_from_cons (seen : list str) (v : str) vs :
  first_seen_from seen (v :: vs) = first_seen_from (note seen v) vs.
Proof. unfold note. simpl. by case_bool_decide. Qed.

Lemma first_seen_from_extends (seen vs : list str) : ∃ k, first_seen_from seen vs = seen ++ k.
Proof.
  revert seen. induction vs as [|v vs IH]; intros seen.
  - exists []. simpl. by rewrite app_nil_r.
  - rewrite first_seen_from_cons. destruct (IH (note seen v)) as [k ->].
    destruct (note_extends seen v) as [k' ->]. exists (k' ++ k). by rewrite app_assoc.
Qed.

Lemma first_seen_from_lookup (seen vs : list str) (n : nat) (v : str) :
  seen !! n = Some v → first_seen_from seen vs !! n = Some v.
Proof.
  intros H. destruct (first_seen_from_extends seen vs) as [k ->].
  by apply lookup_app_l_Some.
Qed.

(** In a numbered map distinct values have distinct placeholders, and the
    placeholders are those of the numbers 1 to the size of the map. *)
Lemma numbered_inj (kind : str) seen m c (v1 v2 p : str) :
  numbered kind seen m c → m !! v1 = Some p → m !! v2 = Some p → v1 = v2.
Proof.
  intros (_ & _ & _ & Hm) (n1 & H1 & E1)%Hm (n2 & H2 & E2)%Hm.
  rewrite E1 in E2. apply placeholder_inj in E2. simplify_eq. congruence.
Qed.

Lemma numbered_values (kind : str) seen m c (p : str) :
  numbered kind seen m c →
  (∃ v, m !! v = Some p) ↔ ∃ k, (1 ≤ k ≤ size m)%nat ∧ p = placeholder kind k.
Proof.
  intros (_ & _ & Hsz & Hm). rewrite Hsz. split.
  - intros (v & (n & Hn & ->)%Hm). exists (S n). split; [|done].
    apply lookup_lt_Some in Hn. lia.
  - intros (k & Hk & ->). destruct k as [|n]; [lia|].
    destruct (lookup_lt_is_Some_2 seen n) as [v Hv]; [lia|].
    exists v. apply Hm. eauto.
Qed.

(** ** The line loop *)

Lemma anonymize_lines_cons (i : nat) (raw : str) (lines : list str) self :
  anonymize_lines i (raw :: lines) self =
  match (if truthy (strip (content raw)) then anonymize_line (content raw) i
         else mret (content raw)) self with
  | Return o self1 =>
      match anonymize_lines (S i) lines self1 with
      | Return os self2 => Return (o :: os) self2
      | Raise e self2 => Raise e self2
      end
  | Raise e self1 => Raise e self1
  end.
Proof. done. Qed.

(** The loop returns, for every list of lines and from every state, with one
    output line per input line, and keeps the configuration. *)
Lemma anonymize_lines_total (lines : list str) (i : nat) self :
  ∃ out self',
    anonymize_lines i lines self = Return out self' ∧
    length out = length lines ∧
    keep_dates self' = keep_dates self ∧ keep_places self' = keep_places self.
Proof.
  revert i self. induction lines as [|raw lines IH]; intros i self.
  - by exists [], self.
  - rewrite anonymize_lines_cons.
    assert (∃ o self1,
      (if truthy (strip (content raw)) then anonymize_line (content raw) i
       else mret (content raw)) self = Return o self1 ∧
      keep_dates self1 = keep_dates self ∧ keep_places self1 = keep_places self)
      as (o & self1 & -> & Kd & Kp).
    { destruct (truthy (strip (content raw))).
      - destruct (anonymize_line_spec (content raw) i self)
          as (o & self1 & E & Kd & Kp & _). eauto.
      - by eexists _, _. }
    destruct (IH (S i) self1) as (os & self2 & -> & Hlen & Kd' & Kp').
    exists (o :: os), self2. split_and!; [done|simpl; lia|congruence|congruence].
Qed.

Lemma tag_values_cons (tg raw : str) (lines : list str) :
  tag_values tg (raw :: lines) =
  match tagged_raw tg raw with
  | Some d => value d :: tag_values tg lines
  | None => tag_values tg lines
  end.
Proof. unfold tag_values. cbn [omap list_omap]. by destruct (tagged_raw tg raw). Qed.

Lemma tagged_raw_eq (tg raw : str) :
  tagged_raw tg raw = if truthy (strip (content raw)) then tagged tg (content raw) else None.
Proof. unfold tagged_raw, is_blank. by destruct (truthy _). Qed.

Section identity_map.
(** One of the two identity maps: its placeholder kind, the tag it serves,
    its map and counter, and the states in which it is in use. *)
Variables (kind tg : str).
Variables (the_map : Anonymizer → gmap str str) (the_counter : Anonymizer → nat).
Variable in_use : Anonymizer → Prop.

Hypothesis line_effect : ∀ (line : str) (n : nat) self out self',
  in_use self → anonymize_line line n self = Return out self' →
  in_use self' ∧
  match tagged tg line with
  | Some d =>
      ∃ p, resolve kind (the_map self) (the_counter self) (value d)
             = (p, the_map self', the_counter self') ∧
           out = base_of d ++ py " " ++ p
  | None => the_map self' = the_map self ∧ the_counter self' = the_counter self
  end.

(** The loop numbers the values of the [tg] lines in the order of their
    first occurrence, and every [tg] line carries the placeholder of its
    value. *)
Lemma anonymize_lines_numbered (lines : list str) (i : nat) self seen out self' :
  in_use self → numbered kind seen (the_map self) (the_counter self) →
  anonymize_lines i lines self = Return out self' →
  numbered kind (first_seen_from seen (tag_values tg lines))
    (the_map self') (the_counter self') ∧
  ∀ (j : nat) (raw : str) d,
    lines !! j = Some raw → tagged_raw tg raw = Some d →
    ∃ n, first_seen_from seen (tag_values tg lines) !! n = Some (value d) ∧
         out !! j = Some (base_of d ++ py " " ++ placeholder kind (S n)).
Proof.
  revert i self seen out self'.
  induction lines as [|raw lines IH]; intros i self seen out self' Hu Hnum Hrun.
  - injection Hrun as <- <-. split; [done|]. intros j raw d Hj. by destruct j.
  - rewrite anonymize_lines_cons in Hrun. rewrite tag_values_cons.
    pose proof (tagged_raw_eq tg raw) as Htr.
    destruct (truthy (strip (content raw))) eqn:Hb.
    + destruct (anonymize_line (content raw) i self) as [o self1|] eqn:E1; [|done].
      destruct (anonymize_lines (S i) lines self1) as [os self2|] eqn:E2; [|done].
      injection Hrun as <- <-.
      destruct (line_effect _ _ _ _ _ Hu E1) as [Hu1 Heff].
      rewrite Htr. destruct (tagged tg (content raw)) as [d0|] eqn:Ht.
      * destruct Heff as (p & Hres & ->).
        destruct (numbered_resolve _ _ _ _ _ _ _ _ Hnum Hres) as (Hnum1 & n0 & Hn0 & ->).
        rewrite first_seen_from_cons.
        destruct (IH _ _ _ _ _ Hu1 Hnum1 E2) as [Hfin Hout]. split; [done|].
        intros [|j] raw' d Hj Hd.
        -- injection Hj as <-. rewrite Htr in Hd. injection Hd as <-.
           exists n0. split; [|done]. by apply first_seen_from_lookup.
        -- by apply Hout with raw'.
      * destruct Heff as [Em Ec]. rewrite <- Em, <- Ec in Hnum.
        destruct (IH _ _ _ _ _ Hu1 Hnum E2) as [Hfin Hout]. split; [done|].
        intros [|j] raw' d Hj Hd.
        -- injection Hj as <-. rewrite Htr in Hd. done.
        -- by apply Hout with raw'.
    + unfold mret, M_ret in Hrun.
      destruct (anonymize_lines (S i) lines self) as [os self2|] eqn:E2; [|done].
      injection Hrun as <- <-. rewrite Htr.
      destruct (IH _ _ _ _ _ Hu Hnum E2) as [Hfin Hout]. split; [done|].
      intros [|j] raw' d Hj Hd.
      * injection Hj as <-. rewrite Htr in Hd. done.
      * by apply Hout with raw'.
Qed.
End identity_map.

Lemma name_line_effect (line : str) (n : nat) self out self' :
  True → anonymize_line line n self = Return out self' →
  True ∧
  match tagged (py "NAME") line with
  | Some d =>
      ∃ p, resolve (py "Person ") (name_map self) (person_counter self) (value d)
             = (p, name_map self', person_counter self') ∧
           out = base_of d ++ py " " ++ p
  | None => name_map self' = name_map self ∧ person_counter self' = person_counter self
  end.
Proof.
  intros _ E. split; [done|].
  destruct (anonymize_line_spec line n self) as (o & s1 & E' & _ & _ & Hn & _).
  rewrite E in E'. injection E' as <- <-. unfold name_effect in Hn.
  destruct (tagged (py "NAME") line); [|done].
  destruct (resolve _ _ _ _) as [[p m] c]. destruct Hn as (-> & -> & ->). eauto.
Qed.

Lemma place_line_effect (line : str) (n : nat) self out self' :
  keep_places self = false → anonymize_line line n self = Return out self' →
  keep_places self' = false ∧
  match tagged (py "PLAC") line with
  | Some d =>
      ∃ p, resolve (py "Place ") (place_map self) (place_counter self) (value d)
             = (p, place_map self', place_counter self') ∧
           out = base_of d ++ py " " ++ p
  | None => place_map self' = place_map self ∧ place_counter self' = place_counter self
  end.
Proof.
  intros K E.
  destruct (anonymize_line_spec line n self) as (o & s1 & E' & _ & Kp & _ & Hp).
  rewrite E in E'. injection E' as <- <-. split; [congruence|].
  unfold place_effect in Hp. rewrite K in Hp.
  destruct (tagged (py "PLAC") line); [|done].
  destruct (resolve _ _ _ _) as [[p m] c]. destruct Hp as (-> & -> & ->). eauto.
Qed.

Lemma elem_of_first_seen_from (seen vs : list str) (v : str) :
  v ∈ first_seen_from seen vs ↔ v ∈ seen ∨ v ∈ vs.
Proof.
  revert seen. induction vs as [|w vs IH]; intros seen.
  - simpl. rewrite elem_of_nil. naive_solver.
  - rewrite first_seen_from_cons, IH, elem_of_cons.
    destruct (note_spec seen w) as [[Hin ->]|[_ ->]].
    + naive_solver.
    + rewrite elem_of_app, list_elem_of_singleton. naive_solver.
Qed.

Lemma numbered_first_seen_numbering (kind tg : str) (m : gmap str str) (c : nat)
    (lines out : list str) :
  numbered kind (first_seen (tag_values tg lines)) m c →
  (∀ j raw d, lines !! j = Some raw → tagged_raw tg raw = Some d →
     ∃ n, first_seen (tag_values tg lines) !! n = Some (value d) ∧
          out !! j = Some (base_of d ++ py " " ++ placeholder kind (S n))) →
  first_seen_numbering kind tg m lines out.
Proof.
  intros Hnum Hout. pose proof Hnum as (_ & Hnd & _ & Hm).
  unfold first_seen_numbering. split_and!; try done.
  - intros v. unfold first_seen. rewrite elem_of_first_seen_from, elem_of_nil.
    naive_solver.
  - intros n v Hn. apply Hm. eauto.
  - intros i j ri rj di dj Hi Hj Ti Tj.
    destruct (Hout _ _ _ Hi Ti) as (ni & Si & Oi).
    destruct (Hout _ _ _ Hj Tj) as (nj & Sj & Oj).
    exists (placeholder kind (S ni)), (placeholder kind (S nj)).
    split_and!; try done. split.
    + intros Hp%placeholder_inj. injection Hp as ->. congruence.
    + intros Hv. rewrite Hv in Si. by rewrite (NoDup_lookup _ _ _ _ Hnd Si Sj).
  - intros v1 v2 p. by apply numbered_inj with kind (first_seen (tag_values tg lines)) c.
Qed.

(** The loop on a document split in two. *)
Lemma anonymize_lines_app (l1 l2 : list str) (i : nat) self :
  anonymize_lines i (l1 ++ l2) self =
  match anonymize_lines i l1 self with
  | Return o1 self1 =>
      match anonymize_lines (i + length l1) l2 self1 with
      | Return o2 self2 => Return (o1 ++ o2) self2
      | Raise e self2 => Raise e self2
      end
  | Raise e self1 => Raise e self1
  end.
Proof.
  revert i self. induction l1 as [|raw l1 IH]; intros i self.
  - cbn [app length anonymize_lines]. unfold mret, M_ret. rewrite Nat.add_0_r.
    by destruct (anonymize_lines i l2 self).
  - rewrite <- app_comm_cons, !anonymize_lines_cons.
    destruct ((if truthy (strip (content raw)) then anonymize_line (content raw) i
               else mret (content raw)) self) as [o self1|]; [|done].
    rewrite IH. cbn [length]. rewrite Nat.add_succ_r.
    destruct (anonymize_lines (S i) l1 self1) as [o1 self2|]; [|done].
    change (S i + length l1)%nat with (S (i + length l1)).
    by destruct (anonymize_lines (S (i + length l1)) l2 self2).
Qed.

(** ** The state across calls *)

Lemma after_calls_ind (P : Anonymizer → Prop) (calls : list (str * nat)) self :
  P self →
  (∀ s (line : str) (n : nat), P s → P (state_of (anonymize_line line n s))) →
  P (after_calls calls self).
Proof.
  intros H0 Hstep. revert self H0. unfold after_calls.
  induction calls as [|[line n] calls IH]; intros self H0; [done|].
  cbn [foldl]. apply IH. by apply Hstep.
Qed.

Lemma engine_inv_init (kd kp : bool) : engine_inv (init kd kp).
Proof. split; exists []; apply numbered_init. Qed.

Lemma resolve_counter (kind : str) (m : gmap str str) (c : nat) (v p : str) m' c' :
  resolve kind m c v = (p, m', c') → (c ≤ c')%nat.
Proof. unfold resolve. destruct (m !! v); intros [= <- <- <-]; lia. Qed.

Lemma numbered_size_le (kind : str) seen m c (v p : str) m' c' :
  numbered kind seen m c → resolve kind m c v = (p, m', c') → (size m ≤ size m')%nat.
Proof.
  intros Hnum Hr. destruct (numbered_resolve _ _ _ _ _ _ _ _ Hnum Hr) as [Hnum' _].
  destruct Hnum as (_ & _ & -> & _), Hnum' as (_ & _ & -> & _).
  destruct (note_extends seen v) as [k ->]. rewrite length_app. lia.
Qed.

(** One call keeps the invariant and lets no counter or map shrink. *)
Lemma engine_inv_step (line : str) (n : nat) self :
  engine_inv self →
  engine_inv (state_of (anonymize_line line n self)) ∧
  (person_counter self ≤ person_counter (state_of (anonymize_line line n self)))%nat ∧
  (place_counter self ≤ place_counter (state_of (anonymize_line line n self)))%nat ∧
  (size (name_map self) ≤ size (name_map (state_of (anonymize_line line n self))))%nat ∧
  (size (place_map self) ≤ size (place_map (state_of (anonymize_line line n self))))%nat.
Proof.
  intros [[sn Hn] [sp Hp]].
  destruct (anonymize_line_spec line n self) as (out & self' & -> & _ & _ & En & Ep).
  cbn [state_of]. unfold name_effect in En. unfold place_effect in Ep.
  assert ((∃ seen, numbered (py "Person ") seen (name_map self') (person_counter self')) ∧
          (person_counter self ≤ person_counter self')%nat ∧
          (size (name_map self) ≤ size (name_map self'))%nat) as (In & Cn & Sn).
  { destruct (tagged (py "NAME") line) as [d|].
    - destruct (resolve _ _ _ _) as [[p m] c] eqn:R. destruct En as (-> & -> & _).
      split_and!.
      + eexists. eapply numbered_resolve; eauto.
      + eapply resolve_counter; eauto.
      + eapply numbered_size_le; eauto.
    - destruct En as [-> ->]. eauto. }
  assert ((∃ seen, numbered (py "Place ") seen (place_map self') (place_counter self')) ∧
          (place_counter self ≤ place_counter self')%nat ∧
          (size (place_map self) ≤ size (place_map self'))%nat) as (Ip & Cp & Sp).
  { destruct (tagged (py "PLAC") line) as [d|]; [destruct (keep_places self)|].
    - destruct Ep as (-> & -> & _). eauto.
    - destruct (resolve _ _ _ _) as [[p m] c] eqn:R. destruct Ep as (-> & -> & _).
      split_and!.
      + eexists. eapply numbered_resolve; eauto.
      + eapply resolve_counter; eauto.
      + eapply numbered_size_le; eauto.
    - destruct Ep as [-> ->]. eauto. }
  done.
Qed.

Lemma engine_inv_after_calls (kd kp : bool) (calls : list (str * nat)) :
  engine_inv (after_calls calls (init kd kp)).
Proof.
  apply after_calls_ind; [apply engine_inv_init|].
  intros s line n Hs. by apply engine_inv_step.
Qed.

(** With [keep_places] set no call touches the place map. *)
Lemma keep_places_frame (line : str) (n : nat) self :
  keep_places self = true →
  keep_places (state_of (anonymize_line line n self)) = true ∧
  place_map (state_of (anonymize_line line n self)) = place_map self.
Proof.
  intros K.
  destruct (anonymize_line_spec line n self) as (out & self' & -> & _ & Kp & _ & Ep).
  cbn [state_of]. split; [congruence|]. unfold place_effect in Ep. rewrite K in Ep.
  destruct (tagged (py "PLAC") line); by destruct Ep as [-> _].
Qed.

(** ** Worked examples *)

Example first_seen_example :
  first_seen [py "a"; py "b"; py "a"; py "c"; py "b"] = [py "a"; py "b"; py "c"].
Proof. vm_compute. reflexivity. Qed.

Example decompose_example :
  decompose (py "0 @I1@ INDI") = Some (MkDecomposed (py "0") (Some (py "@I1@ ")) (py "INDI") []) ∧
  decompose (py "2   PLAC  Boston, Massachusetts ")
    = Some (MkDecomposed (py "2") None (py "PLAC") (py "Boston, Massachusetts ")) ∧
  decompose (py "1 NAME") = Some (MkDecomposed (py "1") None (py "NAME") []) ∧
  decompose (py "NAME John") = None ∧
  decompose (py "1 @I1@") = None.
Proof. vm_compute. done. Qed.

(** The scenario of the specification, on the lines [readlines()] gives. *)
Example end_to_end_scenario :
  ∃ self',
    anonymize_file
      [py "0 @I1@ INDI" ++ [LF]; py "1 NAME John /Smith/" ++ [LF]; py "1 BIRT" ++ [LF];
       py "2 DATE 4 JUL 1776" ++ [LF]; py "2 PLAC Boston, Massachusetts" ++ [LF];
       py "1 NAME John /Smith/" ++ [LF]]
      (init false false)
    = Return
        [py "0 @I1@ INDI"; py "1 NAME Person 1"; py "1 BIRT"; py "2 DATE 1 JAN 1900";
         py "2 PLAC Place 1"; py "1 NAME Person 1"]
        self' ∧
    size (name_map self') = 1%nat ∧ size (place_map self') = 1%nat ∧
    printed self' = [].
Proof. eexists. vm_compute. done. Qed.

(** The first lines of a document that do not match are reported. *)
Example warning_example :
  printed (state_of (anonymize_line (py "John /Smith/") 2 (init false false)))
    = [Warning 3 (py "John /Smith/")] ∧
  printed (state_of (anonymize_line (py "John /Smith/") 5 (init false false))) = [].
Proof. vm_compute. done. Qed.

(** * The properties of the specification *)

(** C1: in a document processed by a fresh engine, the Nth distinct NAME
    value in document order gets the placeholder "Person N" (counting from
    1), every NAME line carries the placeholder of its value, so that later
    occurrences of a value get the placeholder of the first, and no two values
    share a placeholder; the same holds for the PLAC values and "Place N" when
    [keep_places] is false. *)
Theorem C1_first_seen_numbering (kd kp : bool) (lines : list str) :
  ∃ out self',
    anonymize_file lines (init kd kp) = Return out self' ∧
    first_seen_numbering (py "Person ") (py "NAME") (name_map self') lines out ∧
    (kp = false →
     first_seen_numbering (py "Place ") (py "PLAC") (place_map self') lines out).
Proof.
  destruct (anonymize_lines_total lines 0 (init kd kp)) as (out & self' & E & _).
  exists out, self'. split; [done|]. split.
  - destruct (anonymize_lines_numbered (py "Person ") (py "NAME") name_map person_counter
                (λ _, True) name_line_effect lines 0 (init kd kp) [] out self' I
                (numbered_init _) E) as [Hnum Hout].
    by eapply numbered_first_seen_numbering.
  - intros ->.
    destruct (anonymize_lines_numbered (py "Place ") (py "PLAC") place_map place_counter
                (λ s, keep_places s = false) place_line_effect lines 0 (init kd false)
                [] out self' eq_refl (numbered_init _) E) as [Hnum Hout].
    by eapply numbered_first_seen_numbering.
Qed.

(** C2: for every list of input lines, blank and malformed ones included,
    the loop of [anonymize_file] returns one output line per input line, in
    the same order: the output at position [j] is the input line [j] itself
    (without its line ending) when that line is blank, so that what is written
    for it equals the input line, and otherwise what [anonymize_line] returns
    for line [j] in the state the lines before it left. *)
Theorem C2_one_output_line_per_input_line (self : Anonymizer) (lines : list str) :
  ∃ out self',
    anonymize_file lines self = Return out self' ∧
    length out = length lines ∧
    ∀ (j : nat) (raw : str), lines !! j = Some raw →
      if is_blank (content raw)
      then out !! j = Some (content raw) ∧
           (raw = content raw ++ [LF] → written (content raw) = raw)
      else ∃ o s,
             anonymize_line (content raw) j
               (state_of (anonymize_file (take j lines) self)) = Return o s ∧
             out !! j = Some o.
Proof.
  destruct (anonymize_lines_total lines 0 self) as (out & self' & E & Hlen & _).
  exists out, self'. split_and!; [done..|].
  intros j raw Hj. pose proof E as E'.
  rewrite <- (take_drop_middle lines j raw Hj), anonymize_lines_app in E'.
  unfold anonymize_file.
  destruct (anonymize_lines_total (take j lines) 0 self) as (o1 & s1 & E1 & Hl1 & _).
  rewrite E1 in E'. rewrite E1. cbn [state_of].
  assert (length (take j lines) = j) as Hj'.
  { apply length_take_le. apply lookup_lt_Some in Hj. lia. }
  rewrite Hj' in E', Hl1. rewrite Nat.add_0_l, anonymize_lines_cons in E'.
  unfold is_blank. destruct (truthy (strip (content raw))); cbn [negb];
    cbv beta iota in E'.
  - destruct (anonymize_line (content raw) j s1) as [o s|]; [|done].
    destruct (anonymize_lines (S j) (drop (S j) lines) s) as [os s2|]; [|done].
    injection E' as <- <-. exists o, s. split; [done|].
    by rewrite lookup_app_r, Hl1, Nat.sub_diag by lia.
  - unfold mret, M_ret in E'.
    destruct (anonymize_lines (S j) (drop (S j) lines) s1) as [os s2|]; [|done].
    injection E' as <- <-. split.
    + by rewrite lookup_app_r, Hl1, Nat.sub_diag by lia.
    + intros Hr. unfold written. symmetry. exact Hr.
Qed.

(** C3: with [keep_dates] false, [anonymize_date] applies the first rule
    that matches a prefix of the original value: a day-month-year prefix gives
    "1 JAN 1900"; else a qualifier ABT, BEF, AFT, CAL or EST followed by
    whitespace and four digits gives the qualifier and " 1900"; else four
    digits give "1900"; else the value is returned as it is. So "1 JAN 1900"
    stays, "ABT 1850" becomes "ABT 1900", "1923" becomes "1900" and "Unknown"
    stays. *)
Theorem C3_date_rules (self : Anonymizer) (date : str) :
  keep_dates self = false →
  (dmy_shape isword date →
   anonymize_date date self = Return (py "1 JAN 1900") self) ∧
  (∀ q, ¬ dmy_shape isword date → q ∈ QUALIFIERS → qualified_shape q date →
   anonymize_date date self = Return (q ++ py " 1900") self) ∧
  (¬ dmy_shape isword date → (∀ q, q ∈ QUALIFIERS → ¬ qualified_shape q date) →
   year_shape date →
   anonymize_date date self = Return (py "1900") self) ∧
  (¬ dmy_shape isword date → (∀ q, q ∈ QUALIFIERS → ¬ qualified_shape q date) →
   ¬ year_shape date →
   anonymize_date date self = Return date self) ∧
  anonymize_date (py "1 JAN 1900") self = Return (py "1 JAN 1900") self ∧
  anonymize_date (py "ABT 1850") self = Return (py "ABT 1900") self ∧
  anonymize_date (py "1923") self = Return (py "1900") self ∧
  anonymize_date (py "Unknown") self = Return (py "Unknown") self.
Proof.
  intros H. split_and!.
  - by apply anonymize_date_full.
  - intros q. by apply anonymize_date_qualified.
  - by apply anonymize_date_year.
  - by apply anonymize_date_other.
  - unfold anonymize_date. unfold_M. rewrite H. vm_compute. reflexivity.
  - unfold anonymize_date. unfold_M. rewrite H. vm_compute. reflexivity.
  - unfold anonymize_date. unfold_M. rewrite H. vm_compute. reflexivity.
  - unfold anonymize_date. unfold_M. rewrite H. vm_compute. reflexivity.
Qed.

Lemma C3_date_rules_witness :
  keep_dates (init false false) = false ∧
  ¬ dmy_shape isword (py "BEF  1850 or so") ∧
  qualified_shape (py "BEF") (py "BEF  1850 or so") ∧
  anonymize_date (py "BEF  1850 or so") (init false false)
    = Return (py "BEF 1900") (init false false).
Proof.
  assert (¬ dmy_shape isword (py "BEF  1850 or so")) as Hn.
  { intros H%FULL_DATE_RE_spec. vm_compute in H. discriminate H. }
  assert (qualified_shape (py "BEF") (py "BEF  1850 or so")) as Hq.
  { exists (py "  "), (py "1850"), (py " or so"). split_and!; try reflexivity.
    vm_compute. lia. }
  split_and!; [reflexivity|exact Hn|exact Hq|].
  destruct (C3_date_rules (init false false) (py "BEF  1850 or so") eq_refl)
    as (_ & H2 & _).
  apply (H2 (py "BEF") Hn); [|exact Hq]. unfold QUALIFIERS. repeat constructor.
Defined.

(** C8, as the code has it: rule 1 fires exactly on the values that start
    with one or two digits, whitespace, three word characters (letters,
    digits or underscores), whitespace and four digits; the day is not
    checked ("99 ZZZ 1900" has the shape), and every value of this shape
    becomes "1 JAN 1900". *)
Theorem C8_full_date_rule (self : Anonymizer) (date : str) :
  keep_dates self = false →
  (is_match (re_match FULL_DATE_RE date) = true ↔ dmy_shape isword date) ∧
  (anonymize_date date self = Return (py "1 JAN 1900") self ↔ dmy_shape isword date) ∧
  dmy_shape isword (py "99 ZZZ 1900").
Proof.
  intros H. split_and!.
  - apply FULL_DATE_RE_spec.
  - split; [|by apply anonymize_date_full].
    rewrite <- FULL_DATE_RE_spec. unfold anonymize_date. unfold_M. rewrite H.
    destruct (is_match (re_match FULL_DATE_RE date)) eqn:E1; [done|].
    destruct (is_match (re_match QUALIFIED_DATE_RE date)) eqn:E2.
    { apply QUALIFIED_DATE_RE_spec in E2 as (q & Hq & Hs).
      rewrite (split_qualified q date Hq Hs). intros [= Hr]. exfalso.
      unfold QUALIFIERS in Hq. rewrite !elem_of_cons, elem_of_nil in Hq.
      destruct Hq as [->|[->|[->|[->|[->|[]]]]]]; vm_compute in Hr; discriminate Hr. }
    destruct (is_match (re_match YEAR_RE date)) eqn:E3.
    { intros [= Hr]; vm_compute in Hr; discriminate Hr. }
    intros [= ->]. vm_compute in E1. discriminate E1.
  - apply FULL_DATE_RE_spec. vm_compute. reflexivity.
Qed.

Lemma C8_full_date_rule_witness :
  keep_dates (init false false) = false ∧
  dmy_shape isword (py "4 JUL 1776") ∧
  anonymize_date (py "4 JUL 1776") (init false false)
    = Return (py "1 JAN 1900") (init false false).
Proof.
  destruct (C8_full_date_rule (init false false) (py "4 JUL 1776") eq_refl)
    as (H1 & H2 & _).
  assert (dmy_shape isword (py "4 JUL 1776")) as Hs.
  { apply H1. vm_compute. reflexivity. }
  split_and!; [reflexivity|exact Hs|]. apply H2. exact Hs.
Defined.

(** C8 as stated fails: "1 123 1900" has no three-letter token after the
    day, and rule 1 fires on it all the same. *)
Lemma C8_counterexample :
  anonymize_date (py "1 123 1900") (init false false)
    = Return (py "1 JAN 1900") (init false false) ∧
  ¬ dmy_shape isletter (py "1 123 1900").
Proof.
  split; [vm_compute; reflexivity|].
  intros H%dmy_re_spec. vm_compute in H. discriminate H.
Qed.

Lemma anonymize_lines_keep_places (lines : list str) (i : nat) self :
  keep_places self = true →
  place_map (state_of (anonymize_lines i lines self)) = place_map self.
Proof.
  revert i self. induction lines as [|raw lines IH]; intros i self K; [done|].
  rewrite anonymize_lines_cons.
  destruct (truthy (strip (content raw))).
  - destruct (keep_places_frame (content raw) i self K) as [K1 E1].
    destruct (anonymize_line_spec (content raw) i self) as (o & self1 & E & _).
    rewrite E in *. cbn [state_of] in K1, E1. specialize (IH (S i) self1 K1).
    destruct (anonymize_lines (S i) lines self1); cbn [state_of] in *; congruence.
  - unfold mret, M_ret. specialize (IH (S i) self K).
    by destruct (anonymize_lines (S i) lines self).
Qed.

(** The value of a decomposed line is the end of the line, up to a newline
    that ends it. *)
Lemma value_is_suffix (line : str) d :
  decompose line = Some d →
  ∃ front, line = front ++ value d ∨ line = front ++ value d ++ [LF].
Proof.
  intros (w1 & tail & -> & _ & _ & _ & _ & _ & _ & _ & Hv)%decompose_shape.
  destruct Hv as [[Hv [->| ->]]|(w2 & _ & _ & _ & [->| ->])].
  - exists (level d ++ w1 ++ default [] (xref d) ++ tag d). left.
    by rewrite Hv, <- !app_assoc.
  - exists (level d ++ w1 ++ default [] (xref d) ++ tag d). right.
    by rewrite Hv, <- !app_assoc.
  - exists (level d ++ w1 ++ default [] (xref d) ++ tag d ++ w2). left.
    by rewrite <- !app_assoc.
  - exists (level d ++ w1 ++ default [] (xref d) ++ tag d ++ w2). right.
    by rewrite <- !app_assoc.
Qed.

(** C4: with [keep_dates] true the value of a well-formed DATE line, the
    end of the input line, is put into the output line as it is, character for
    character; with [keep_places] true so is the value of a well-formed PLAC
    line, and the place map of a fresh engine is empty after every sequence of
    calls and after the loop over any document. *)
Theorem C4_keep_switches (self : Anonymizer) (line : str) (n : nat) (d : Decomposed)
    (kd : bool) (lines : list str) (calls : list (str * nat)) :
  (keep_dates self = true → tagged (py "DATE") line = Some d →
   anonymize_line line n self = Return (base_of d ++ py " " ++ value d) self ∧
   ∃ front, strip_bom line = front ++ value d ∨
            strip_bom line = front ++ value d ++ [LF]) ∧
  (keep_places self = true → tagged (py "PLAC") line = Some d →
   anonymize_line line n self = Return (base_of d ++ py " " ++ value d) self ∧
   ∃ front, strip_bom line = front ++ value d ∨
            strip_bom line = front ++ value d ++ [LF]) ∧
  place_map (after_calls calls (init kd true)) = ∅ ∧
  size (place_map (after_calls calls (init kd true))) = 0%nat ∧
  place_map (state_of (anonymize_file lines (init kd true))) = ∅ ∧
  size (place_map (state_of (anonymize_file lines (init kd true)))) = 0%nat.
Proof.
  assert (place_map (after_calls calls (init kd true)) = ∅) as Hc.
  { apply (after_calls_ind (λ s, keep_places s = true ∧ place_map s = ∅)); [done|].
    intros s l m [K E]. destruct (keep_places_frame l m s K) as [K' E'].
    split; congruence. }
  assert (place_map (state_of (anonymize_file lines (init kd true))) = ∅) as Hf.
  { unfold anonymize_file. by rewrite anonymize_lines_keep_places. }
  split_and!.
  - intros K [E Ht]%tagged_Some. split; [|by apply value_is_suffix].
    rewrite (anonymize_line_Some _ _ _ _ E), Ht, dispatch_DATE.
    unfold_M. by rewrite anonymize_date_keep.
  - intros K [E Ht]%tagged_Some. split; [|by apply value_is_suffix].
    rewrite (anonymize_line_Some _ _ _ _ E), Ht, dispatch_PLAC.
    unfold_M. by rewrite anonymize_place_keep.
  - exact Hc.
  - by rewrite Hc.
  - exact Hf.
  - by rewrite Hf.
Qed.

Lemma C4_keep_switches_witness :
  keep_dates (init true true) = true ∧
  tagged (py "DATE") (py "2 DATE 4 JUL 1776")
    = Some (MkDecomposed (py "2") None (py "DATE") (py "4 JUL 1776")) ∧
  anonymize_line (py "2 DATE 4 JUL 1776") 3 (init true true)
    = Return (py "2 DATE 4 JUL 1776") (init true true).
Proof.
  assert (tagged (py "DATE") (py "2 DATE 4 JUL 1776")
          = Some (MkDecomposed (py "2") None (py "DATE") (py "4 JUL 1776"))) as Ht.
  { vm_compute. reflexivity. }
  split_and!; [reflexivity|exact Ht|].
  destruct (C4_keep_switches (init true true) (py "2 DATE 4 JUL 1776") 3
              (MkDecomposed (py "2") None (py "DATE") (py "4 JUL 1776")) true [] [])
    as (H1 & _).
  exact (proj1 (H1 eq_refl Ht)).
Defined.

Lemma truthy_strip (s : str) : truthy (strip s) = true → truthy s = true.
Proof. by destruct s. Qed.

(** C5, as the code has it: a well-formed TITL line with a value that is
    not blank gets "[anonymized]" exactly when its level field is the text
    "1"; with any other level field its value is passed through as it is. *)
Theorem C5_title_level_one (self : Anonymizer) (line : str) (n : nat) (d : Decomposed) :
  tagged (py "TITL") line = Some d → truthy (strip (value d)) = true →
  anonymize_line line n self =
  Return (base_of d ++ py " " ++
          (if bool_decide (level d = py "1") then py "[anonymized]" else value d)) self.
Proof.
  intros [E Ht]%tagged_Some Hv. rewrite (anonymize_line_Some _ _ _ _ E), Ht.
  unfold dispatch.
  rewrite !(bool_decide_eq_false_2 (py "TITL" = _)) by (intros ?%py_inj; discriminate).
  assert (bool_decide (py "TITL" ∈ TEXT_TAGS) = false) as -> by (vm_compute; reflexivity).
  assert (bool_decide (py "TITL" ∈ NAME_PART_TAGS) = false) as ->
    by (vm_compute; reflexivity).
  assert (bool_decide (py "TITL" ∈ ADDRESS_TAGS) = false) as -> by (vm_compute; reflexivity).
  assert (bool_decide (py "TITL" ∈ CONTACT_TAGS) = false) as -> by (vm_compute; reflexivity).
  rewrite (bool_decide_eq_true_2 _ (eq_refl (py "TITL"))). cbn [andb].
  destruct (decide (level d = py "1")) as [Hl|Hl].
  - rewrite !bool_decide_eq_true_2 by congruence. unfold fixed_text. by rewrite Hv.
  - rewrite !bool_decide_eq_false_2 by congruence.
    by rewrite (truthy_strip _ Hv).
Qed.

Lemma C5_title_level_one_witness :
  tagged (py "TITL") (py "1 TITL Parish register")
    = Some (MkDecomposed (py "1") None (py "TITL") (py "Parish register")) ∧
  anonymize_line (py "1 TITL Parish register") 0 (init false false)
    = Return (py "1 TITL [anonymized]") (init false false) ∧
  tagged (py "TITL") (py "3 TITL Parish register")
    = Some (MkDecomposed (py "3") None (py "TITL") (py "Parish register")) ∧
  anonymize_line (py "3 TITL Parish register") 0 (init false false)
    = Return (py "3 TITL Parish register") (init false false).
Proof.
  assert (tagged (py "TITL") (py "1 TITL Parish register")
          = Some (MkDecomposed (py "1") None (py "TITL") (py "Parish register"))) as H1.
  { vm_compute. reflexivity. }
  assert (tagged (py "TITL") (py "3 TITL Parish register")
          = Some (MkDecomposed (py "3") None (py "TITL") (py "Parish register"))) as H3.
  { vm_compute. reflexivity. }
  split_and!; [exact H1| |exact H3|].
  - exact (C5_title_level_one (init false false) _ 0 _ H1 eq_refl).
  - exact (C5_title_level_one (init false false) _ 0 _ H3 eq_refl).
Defined.

(** C5 as stated fails: the level of "01 TITL Sir" is the number 1, and the
    title is passed through. *)
Lemma C5_counterexample :
  tagged (py "TITL") (py "01 TITL Sir")
    = Some (MkDecomposed (py "01") None (py "TITL") (py "Sir")) ∧
  int_of (py "01") = 1%N ∧
  truthy (strip (py "Sir")) = true ∧
  anonymize_line (py "01 TITL Sir") 0 (init false false)
    = Return (py "01 TITL Sir") (init false false).
Proof. vm_compute. done. Qed.

(** C6 fails on the code: a DATE line with no value, and with [keep_places]
    a PLAC line with no value, is rebuilt with a space after the tag. *)
Lemma C6_empty_value_trailing_space :
  tagged (py "DATE") (py "2 DATE") = Some (MkDecomposed (py "2") None (py "DATE") []) ∧
  anonymize_line (py "2 DATE") 0 (init false false)
    = Return (py "2 DATE ") (init false false) ∧
  anonymize_line (py "2 DATE") 0 (init true false)
    = Return (py "2 DATE ") (init true false) ∧
  tagged (py "PLAC") (py "2 PLAC") = Some (MkDecomposed (py "2") None (py "PLAC") []) ∧
  anonymize_line (py "2 PLAC") 0 (init false true)
    = Return (py "2 PLAC ") (init false true).
Proof. vm_compute. done. Qed.

(** C7, as the code has it: a line that, once a leading byte-order mark is
    removed, does not match the line pattern makes [anonymize_line] return
    (it never raises) that line without the mark and otherwise unchanged; no
    identity map, counter or switch is touched, so the dispatch is bypassed.
    Without a leading mark the line returned is the line given. *)
Theorem C7_malformed_line_passes_through (self : Anonymizer) (line : str) (n : nat) :
  re_match LINE_RE (strip_bom line) = None →
  ∃ self',
    anonymize_line line n self = Return (strip_bom line) self' ∧
    name_map self' = name_map self ∧ place_map self' = place_map self ∧
    person_counter self' = person_counter self ∧
    place_counter self' = place_counter self ∧
    keep_dates self' = keep_dates self ∧ keep_places self' = keep_places self ∧
    (startswith line BOM = false → strip_bom line = line) ∧
    (startswith line BOM = true → line = BOM :: strip_bom line).
Proof.
  intros H%decompose_None. rewrite (anonymize_line_None _ _ _ H).
  eexists. split; [reflexivity|]. split_and!; try by destruct (_ && _).
  - unfold strip_bom. by intros ->.
  - unfold strip_bom, startswith. destruct line as [|c s]; [done|].
    intros Hc. rewrite Hc. apply N.eqb_eq in Hc. by subst c.
Qed.

Lemma C7_malformed_line_passes_through_witness :
  re_match LINE_RE (strip_bom (py "John /Smith/")) = None ∧
  ∃ self',
    anonymize_line (py "John /Smith/") 2 (init false false)
      = Return (py "John /Smith/") self' ∧
    name_map self' = ∅ ∧ person_counter self' = 1%nat.
Proof.
  assert (re_match LINE_RE (strip_bom (py "John /Smith/")) = None) as H.
  { vm_compute. reflexivity. }
  split; [exact H|].
  destruct (C7_malformed_line_passes_through (init false false) (py "John /Smith/") 2 H)
    as (self' & E & Hn & _ & Hc & _).
  exists self'. split_and!; [exact E|exact Hn|exact Hc].
Defined.

(** C7 as stated fails: a malformed line that starts with the byte-order
    mark is returned without it. *)
Lemma C7_counterexample :
  re_match LINE_RE (BOM :: py "John /Smith/") = None ∧
  re_match LINE_RE (strip_bom (BOM :: py "John /Smith/")) = None ∧
  anonymize_line (BOM :: py "John /Smith/") 9 (init false false)
    = Return (py "John /Smith/") (init false false) ∧
  py "John /Smith/" ≠ BOM :: py "John /Smith/".
Proof. split_and!; try (vm_compute; reflexivity). intros H. vm_compute in H. discriminate H. Qed.

(** C9, as the code has it: on a well-formed NAME line with an empty
    value, in every state a fresh engine can reach and whatever the
    configuration, [anonymize_line] returns the line with a placeholder
    "Person k" as its value, never the bare tag, and the empty string is in
    the name map with that placeholder. It is inserted with the next person
    counter number, which is then consumed, when it was not yet a key; when it
    was, its placeholder is reused and the state is left as it was. *)
Theorem C9_empty_name_gets_placeholder (kd kp : bool) (calls : list (str * nat))
    (line : str) (n : nat) (d : Decomposed) :
  tagged (py "NAME") line = Some d → value d = [] →
  ∃ k self',
    (1 ≤ k)%nat ∧
    anonymize_line line n (after_calls calls (init kd kp))
      = Return (base_of d ++ py " " ++ placeholder (py "Person ") k) self' ∧
    base_of d ++ py " " ++ placeholder (py "Person ") k ≠ base_of d ∧
    name_map self' !! [] = Some (placeholder (py "Person ") k) ∧
    match name_map (after_calls calls (init kd kp)) !! [] with
    | None =>
        k = person_counter (after_calls calls (init kd kp)) ∧
        person_counter self' = S (person_counter (after_calls calls (init kd kp))) ∧
        name_map self'
          = <[[] := placeholder (py "Person ") k]>
              (name_map (after_calls calls (init kd kp)))
    | Some _ => self' = after_calls calls (init kd kp)
    end.
Proof.
  intros [E Ht]%tagged_Some Hv.
  destruct (engine_inv_after_calls kd kp calls) as [[seen Hnum] _].
  set (self := after_calls calls (init kd kp)) in *.
  rewrite (anonymize_line_Some _ _ _ _ E), Ht, dispatch_NAME, Hv. unfold_M.
  rewrite anonymize_name_resolve. unfold resolve.
  assert (∀ k, base_of d ++ py " " ++ placeholder (py "Person ") k ≠ base_of d) as Hne.
  { intros k H. rewrite <- (app_nil_r (base_of d)) in H at 2.
    apply (inj (app _)) in H. discriminate H. }
  destruct (name_map self !! []) as [p|] eqn:Em.
  - pose proof Hnum as (_ & _ & _ & Hm). apply Hm in Em as (i & Hi & ->).
    exists (S i), self. rewrite with_names_id. split_and!; try done; [lia|].
    apply Hm. eauto.
  - pose proof Hnum as (Hc & _).
    exists (person_counter self), (with_names
      (<[[] := placeholder (py "Person ") (person_counter self)]> (name_map self))
      (S (person_counter self)) self).
    split_and!; try done; [lia|]. cbn [with_names name_map]. apply lookup_insert_eq.
Qed.

Lemma C9_empty_name_gets_placeholder_witness :
  tagged (py "NAME") (py "1 NAME") = Some (MkDecomposed (py "1") None (py "NAME") []) ∧
  ∃ k self',
    anonymize_line (py "1 NAME") 1
        (after_calls [(py "1 NAME John /Smith/", 0%nat)] (init false false))
      = Return (py "1 NAME" ++ py " " ++ placeholder (py "Person ") k) self' ∧
    name_map self' !! [] = Some (placeholder (py "Person ") k).
Proof.
  assert (tagged (py "NAME") (py "1 NAME")
          = Some (MkDecomposed (py "1") None (py "NAME") [])) as Ht.
  { vm_compute. reflexivity. }
  split; [exact Ht|].
  destruct (C9_empty_name_gets_placeholder false false
              [(py "1 NAME John /Smith/", 0%nat)] (py "1 NAME") 1 _ Ht eq_refl)
    as (k & self' & _ & E & _ & Hm & _).
  exists k, self'. split; [exact E|exact Hm].
Defined.

(** C9 as stated fails: the second NAME line with an empty value consumes
    no person counter number; the state is the one the first left. *)
Lemma C9_counterexample :
  person_counter (after_calls [(py "1 NAME", 0%nat)] (init false false)) = 2%nat ∧
  anonymize_line (py "1 NAME") 1 (after_calls [(py "1 NAME", 0%nat)] (init false false))
    = Return (py "1 NAME Person 1") (after_calls [(py "1 NAME", 0%nat)] (init false false)).
Proof. vm_compute. done. Qed.

(** C10: after every call of [anonymize_line] on an engine that started
    fresh, the name map has [person_counter - 1] entries and its values are
    exactly "Person 1" to "Person k" for k its size; the place map has
    [place_counter - 1] entries and its values are exactly "Place 1" to
    "Place m" for m its size; and the call let neither counter and neither
    map size decrease. *)
Theorem C10_identity_map_invariant (kd kp : bool) (calls : list (str * nat))
    (line : str) (n : nat) :
  let before := after_calls calls (init kd kp) in
  let after := state_of (anonymize_line line n before) in
  size (name_map after) = (person_counter after - 1)%nat ∧
  (∀ p, (∃ v, name_map after !! v = Some p) ↔
        ∃ k, (1 ≤ k ≤ size (name_map after))%nat ∧ p = py "Person " ++ str_of_int k) ∧
  size (place_map after) = (place_counter after - 1)%nat ∧
  (∀ p, (∃ v, place_map after !! v = Some p) ↔
        ∃ k, (1 ≤ k ≤ size (place_map after))%nat ∧ p = py "Place " ++ str_of_int k) ∧
  (person_counter before ≤ person_counter after)%nat ∧
  (place_counter before ≤ place_counter after)%nat ∧
  (size (name_map before) ≤ size (name_map after))%nat ∧
  (size (place_map before) ≤ size (place_map after))%nat.
Proof.
  intros before after.
  destruct (engine_inv_step line n before (engine_inv_after_calls kd kp calls))
    as ([[sn Hn] [sp Hp]] & Hmono).
  fold after in Hn, Hp, Hmono.
  split_and!; try apply Hmono.
  - destruct Hn as (-> & _ & -> & _). lia.
  - intros p. apply (numbered_values _ _ _ _ p Hn).
  - destruct Hp as (-> & _ & -> & _). lia.
  - intros p. apply (numbered_values _ _ _ _ p Hp).
Qed.

(** * The first match and rebuilt lines *)

(** ** The character classes *)

Lemma in_ranges_elems (c : char) (table : list (N * N)) :
  in_ranges c table = true → c ∈ table_elems table.
Proof.
  unfold in_ranges, table_elems. induction table as [|r table IH]; [done|].
  cbn [existsb]. rewrite orb_true_iff, andb_true_iff, !N.leb_le.
  intros [[Hlo Hhi]|H].
  - apply list_elem_of_bind. exists r. split; [|by left].
    unfold range_elems. apply list_elem_of_fmap. exists (N.to_nat (c - r.1)).
    split; [lia|]. apply elem_of_seq. lia.
  - apply list_elem_of_bind. apply IH in H. apply list_elem_of_bind in H as (r' & ? & ?).
    exists r'. split; [done|]. by right.
Qed.

Lemma table_forall (P : char → bool) (table : list (N * N)) (c : char) :
  forallb P (table_elems table) = true → in_ranges c table = true → P c = true.
Proof.
  intros HP Hc%in_ranges_elems. rewrite forallb_forall in HP.
  apply HP. by apply list_elem_of_In.
Qed.

Lemma space_not_decimal (c : char) : isspace c = true → isdecimal c = false.
Proof.
  intros H. apply negb_true_iff.
  apply (table_forall (λ c, negb (isdecimal c)) space_table); [|done].
  vm_compute. reflexivity.
Qed.

Lemma space_not_word (c : char) : isspace c = true → isword c = false.
Proof.
  intros H. apply negb_true_iff.
  apply (table_forall (λ c, negb (isword c)) space_table); [|done].
  vm_compute. reflexivity.
Qed.

Lemma decimal_is_word (c : char) : isdecimal c = true → isword c = true.
Proof.
  intros H. apply (table_forall isword decimal_table); [|done].
  vm_compute. reflexivity.
Qed.

Lemma newline_is_space (c : char) : is_newline c = true → isspace c = true.
Proof.
  unfold is_newline. rewrite orb_true_iff, !N.eqb_eq. by intros [->| ->].
Qed.

(** ** Greedy repetition *)

Lemma run_len_all (p : char → bool) (u v : str) : all p u → (length u ≤ run_len p (u ++ v))%nat.
Proof.
  induction u as [|c u IH]; [simpl; lia|].
  intros [Hc Hu]%all_cons. simpl. rewrite Hc. specialize (IH Hu). lia.
Qed.

Lemma run_len_take (p : char → bool) (s : str) : all p (take (run_len p s) s).
Proof.
  induction s as [|c s IH]; [done|]. simpl. destruct (p c) eqn:E; [|done].
  simpl. by apply all_cons.
Qed.

Lemma run_len_drop (p : char → bool) (s : str) (c : char) (t : str) :
  drop (run_len p s) s = c :: t → p c = false.
Proof.
  induction s as [|d s IH]; [done|]. simpl. destruct (p d) eqn:E.
  - simpl. apply IH.
  - simpl. by intros [= <- _].
Qed.

Lemma run_len_exact (p : char → bool) (u v : str) :
  all p u → (∀ c t, v = c :: t → p c = false) → run_len p (u ++ v) = length u.
Proof.
  intros Hu Hv. induction u as [|c u IH].
  - destruct v as [|c t]; [done|]. simpl. by rewrite (Hv c t).
  - apply all_cons in Hu as [Hc Hu]. simpl. rewrite Hc. by rewrite IH.
Qed.

(** The first way a greedy repetition matches takes the longest run. *)
Lemma rep_head p (lo : nat) cs (i : nat) (s : str) :
  (lo ≤ run_len p s)%nat →
  head (rep p lo None cs i s) = Some (MState (i + run_len p s) (drop (run_len p s) s) cs).
Proof.
  revert lo i. induction s as [|c s IH]; intros lo i Hlo; simpl in *.
  - destruct lo; [|lia]. simpl. by rewrite Nat.add_0_r.
  - destruct (p c) eqn:E; simpl.
    + specialize (IH (Nat.pred lo) (S i) ltac:(lia)).
      destruct (rep p (Nat.pred lo) None cs (S i) s) as [|x l]; [done|].
      simpl in *. rewrite IH. f_equal. f_equal. lia.
    + destruct lo; [|lia]. simpl. by rewrite Nat.add_0_r.
Qed.

Lemma rep_nil p (lo : nat) hi cs (i : nat) (s : str) :
  (run_len p s < lo)%nat → rep p lo hi cs i s = [].
Proof.
  intros Hlt. apply elem_of_nil_inv. intros x Hx.
  apply elem_of_rep in Hx as (u & v & -> & Hu & Hlo & _).
  pose proof (run_len_all p u v Hu). lia.
Qed.

Lemma head_app_nonempty {A} (l k : list A) : l ≠ [] → head (l ++ k) = head l.
Proof. by destruct l. Qed.

Lemma head_elem_of {A} (l : list A) (x : A) : head l = Some x → x ∈ l.
Proof. destruct l; [done|]. intros [= ->]. by left. Qed.

Lemma head_bind_Some {A B} (l : list A) (f : A → list B) (y : B) :
  head (l ≫= f) = Some y → ∃ x, x ∈ l ∧ head (f x) = Some y.
Proof.
  induction l as [|a l IH]; [done|]. cbn [mbind list_bind].
  destruct (f a) as [|b k] eqn:E.
  - intros H. destruct (IH H) as (x & ? & ?). exists x. split; [by right|done].
  - intros [= <-]. exists a. split; [by left|]. by rewrite E.
Qed.

Lemma head_run_seq r1 r2 st y :
  head (run (Seq r1 r2) st) = Some y → ∃ x, x ∈ run r1 st ∧ head (run r2 x) = Some y.
Proof. apply head_bind_Some. Qed.

(** A pattern leaves the groups it does not contain as they were. *)
Lemma run_caps_frame r st st' (n : nat) :
  st' ∈ run r st → n ∉ groups r → caps st' !! n = caps st !! n.
Proof.
  revert st st'. induction r as [p|l|p lo hi| |r1 IH1 r2 IH2|r1 IH1 r2 IH2|r IH|k r IH| |];
    intros st st'; cbn [groups].
  - simpl. destruct (rest st) as [|c s]; [by intros ?%elem_of_nil|].
    destruct (p c); [|by intros ?%elem_of_nil]. by intros ->%list_elem_of_singleton.
  - rewrite elem_of_run_lit. by intros (v & _ & ->).
  - rewrite run_Rep. by intros ->%rep_caps.
  - rewrite elem_of_run_eps. by intros ->.
  - rewrite elem_of_run_seq, elem_of_app. intros (s1 & H1 & H2) Hn.
    rewrite (IH2 _ _ H2) by (intros ?; apply Hn; by right).
    apply (IH1 _ _ H1). intros ?. apply Hn. by left.
  - rewrite elem_of_run_alt, elem_of_app. intros [H|H] Hn.
    + apply IH1; [done|]. intros ?. apply Hn. by left.
    + apply IH2; [done|]. intros ?. apply Hn. by right.
  - rewrite elem_of_run_opt. intros [H| ->] Hn; [by apply IH|done].
  - rewrite elem_of_run_grp, elem_of_cons. intros (s0 & H0 & ->) Hn. cbn [caps].
    rewrite lookup_insert_ne by (intros ->; apply Hn; by left).
    apply IH; [done|]. intros ?. apply Hn. by right.
  - rewrite elem_of_run_bol. by intros [-> _].
  - rewrite elem_of_run_eol. by intros [-> _].
Qed.

(** ** The value of a decomposed line is the greedy one *)

Lemma drop_dot_tail (v0 e : str) (j : nat) :
  all dot v0 → e = [] ∨ e = [LF] →
  ∃ v' e', drop j (v0 ++ e) = v' ++ e' ∧ all dot v' ∧ (e' = [] ∨ e' = [LF]).
Proof.
  revert j. induction v0 as [|c v0 IH]; intros j Hv He.
  - destruct j as [|j]; [by exists [], e|].
    exists [], []. split_and!; [|done|by left].
    destruct He as [->| ->]; [done|]. simpl. by rewrite drop_nil.
  - apply all_cons in Hv as [Hc Hv]. destruct j as [|j].
    + exists (c :: v0), e. split_and!; [done| |done]. by apply all_cons.
    + simpl. by apply IH.
Qed.

(** Where the optional value part of the line pattern is tried at [st]: if
    the first match sets group 5 to a non-empty text, that text does not
    start with whitespace. *)
Lemma value_part_greedy st m :
  head (run (Seq (Opt (Grp 4 (cat [plus isspace; Grp 5 (star dot)]))) (Seq Eol Eps)) st)
    = Some m →
  caps st !! 5%nat = None →
  ∀ c v, caps m !! 5%nat = Some (c :: v) → isspace c = false.
Proof.
  intros Hm H5 c v Hc. unfold cat in Hm. simpl foldr in Hm.
  pose proof (head_elem_of _ _ Hm) as Hin.
  apply elem_of_run_seq in Hin as (z & Hz & HF).
  apply elem_of_run_seq in HF as (z' & [-> He]%elem_of_run_eol & ->%elem_of_run_eps).
  apply elem_of_run_opt in Hz as [Hz| ->]; [|congruence].
  (* a match through group 4: its split of what is left *)
  apply elem_of_run_grp_text in Hz as (b & u4 & Hb & _ & ->).
  apply elem_of_run_seq in Hb as (a' & Ha' & Hb).
  apply elem_of_run_seq in Hb as (b' & Hb' & ->%elem_of_run_eps).
  apply elem_of_run_plus in Ha' as (w2 & T1 & ET & Nw & Aw & ->).
  apply elem_of_run_grp_text in Hb' as (b0 & v0 & Hb0 & E0 & ->).
  apply elem_of_run_star in Hb0 as (v0' & T2 & E0' & Av & ->).
  cbn [rest pos caps] in *. rewrite E0' in E0.
  apply (inj (λ x, x ++ T2)) in E0 as ->. subst T1.
  rewrite (lookup_insert_ne _ 4%nat 5%nat), lookup_insert_eq in Hc by done.
  injection Hc as ->.
  (* the longest run of whitespace, and a match that starts with it *)
  set (r := run_len isspace (rest st)).
  assert (1 ≤ r)%nat as Hr.
  { unfold r. rewrite ET. pose proof (run_len_all isspace w2 ((c :: v) ++ T2) Aw).
    destruct w2; [done|simpl in *; lia]. }
  pose proof (rep_head isspace 1 (caps st) (pos st) (rest st) Hr) as Hhead.
  fold r in Hhead.
  set (a := MState (pos st + r) (drop r (rest st)) (caps st)) in *.
  assert (∃ v' e', drop r (rest st) = v' ++ e' ∧ all dot v' ∧ (e' = [] ∨ e' = [LF]))
    as (v' & e' & EV & Av' & He').
  { assert (length w2 ≤ r)%nat as Hle.
    { unfold r. rewrite ET. apply run_len_all. done. }
    rewrite ET. replace r with (length w2 + (r - length w2))%nat by lia.
    rewrite <- drop_drop, drop_app_length. by apply drop_dot_tail. }
  set (g := λ st' : mstate, MState (pos st') (rest st')
              (<[4%nat := take (pos st' - pos st) (rest st)]> (caps st'))).
  set (h := run (Seq (Grp 5 (star dot)) Eps)).
  set (F := run (Seq Eol Eps)).
  assert (∃ l', run (plus isspace) st = a :: l') as [l' El].
  { unfold plus. rewrite run_Rep. destruct (rep isspace 1 None _ _ _) as [|x l]; [done|].
    injection Hhead as ->. by exists l. }
  assert (run (Seq (Opt (Grp 4 (Seq (plus isspace) (Seq (Grp 5 (star dot)) Eps))))
                 (Seq Eol Eps)) st
          = ((g <$> h a) ≫= F) ++ ((g <$> (l' ≫= h)) ≫= F) ++ F st) as Ewhole.
  { change (run (Seq ?r1 ?r2) st) with (run r1 st ≫= run r2).
    change (run (Opt ?r) st) with (run r st ++ [st]).
    change (run (Grp 4 ?r) st) with (g <$> run r st).
    change (run (Seq (plus isspace) ?r2) st) with (run (plus isspace) st ≫= run r2).
    rewrite El. cbn [mbind list_bind]. fold h.
    fold F. rewrite bind_app, fmap_app, bind_app, <- app_assoc. f_equal. f_equal.
    cbn [mbind list_bind]. apply app_nil_r. }
  assert ((g <$> h a) ≫= F ≠ []) as Hne.
  { intros Hnil.
    set (y0 := g (MState (pos a + length v') e' (<[5%nat := v']> (caps a)))).
    apply (elem_of_nil y0). rewrite <- Hnil. apply list_elem_of_bind.
    exists y0. split.
    - unfold F. apply elem_of_run_seq. exists y0. split.
      + apply elem_of_run_eol. split; [reflexivity|]. exact He'.
      + by apply elem_of_run_eps.
    - apply list_elem_of_fmap. eexists. split; [reflexivity|].
      unfold h. apply elem_of_run_seq. eexists. split; [|by apply elem_of_run_eps].
      apply elem_of_run_grp_text. exists (MState (pos a + length v') e' (caps a)), v'.
      split_and!; [|done|done].
      apply elem_of_run_star. by exists v', e'. }
  rewrite Ewhole, head_app_nonempty in Hm by done.
  apply head_elem_of in Hm. apply list_elem_of_bind in Hm as (y & Hy & Hgy).
  unfold F in Hy. apply elem_of_run_seq in Hy as (y' & [-> _]%elem_of_run_eol & Hy).
  apply elem_of_run_eps in Hy. apply list_elem_of_fmap in Hgy as (b1 & -> & Hb1).
  unfold h in Hb1. apply elem_of_run_seq in Hb1 as (b2 & Hb2 & ->%elem_of_run_eps).
  apply elem_of_run_grp_text in Hb2 as (b3 & v3 & Hb3 & E3 & ->).
  unfold g in Hy. cbn [rest pos caps] in *.
  assert (c :: v = v3) as <-.
  { apply (f_equal (λ s, caps s !! 5%nat)) in Hy. cbn [caps] in Hy.
    rewrite !(lookup_insert_ne _ 4%nat 5%nat) in Hy by done.
    rewrite !lookup_insert_eq in Hy. by injection Hy. }
  by apply (run_len_drop isspace (rest st) c (v ++ rest b3)).
Qed.

Lemma value_no_leading_space (line : str) d :
  decompose line = Some d → ∀ c v, value d = c :: v → isspace c = false.
Proof.
  unfold decompose. destruct (re_match LINE_RE line) as [m|] eqn:E; [|done].
  unfold re_match, LINE_RE, cat in E. simpl foldr in E.
  apply head_run_seq in E as (s1 & H1 & E).
  apply head_run_seq in E as (s2 & H2 & E).
  apply head_run_seq in E as (s3 & H3 & E).
  apply head_run_seq in E as (s4 & H4 & E).
  apply head_run_seq in E as (s5 & H5 & E).
  assert (caps s5 !! 5%nat = None) as Hc.
  { rewrite (run_caps_frame _ _ _ 5 H5) by (vm_compute; set_solver).
    rewrite (run_caps_frame _ _ _ 5 H4) by (vm_compute; set_solver).
    rewrite (run_caps_frame _ _ _ 5 H3) by (vm_compute; set_solver).
    rewrite (run_caps_frame _ _ _ 5 H2) by (vm_compute; set_solver).
    rewrite (run_caps_frame _ _ _ 5 H1) by (vm_compute; set_solver).
    done. }
  pose proof (value_part_greedy s5 m E Hc) as Hg.
  cbn [mbind option_bind]. destruct (group m 1) as [lv|]; [|done].
  cbn [mbind option_bind]. destruct (group m 3) as [tg|]; [|done].
  cbn [mbind option_bind]. intros [= <-] c v. cbn [value]. unfold group.
  destruct (caps m !! 5%nat) as [v5|] eqn:E5; [|done]. cbn [default from_option].
  unfold id. intros ->. by apply (Hg c v).
Qed.

Lemma lstrip_chars_nonempty (p : char → bool) (s : str) (c : char) :
  c ∈ s → p c = false → lstrip_chars p s ≠ [].
Proof.
  induction s as [|d s IH]; [by intros ?%elem_of_nil|].
  intros [->|Hin]%elem_of_cons Hc; simpl.
  - by rewrite Hc.
  - destruct (p d); [by apply IH|done].
Qed.

Lemma strip_nonempty (c : char) (v : str) : isspace c = false → strip (c :: v) ≠ [].
Proof.
  intros Hc. unfold strip, rstrip_chars. cbn [lstrip_chars]. rewrite Hc.
  intros H. apply (f_equal length) in H. rewrite length_reverse in H.
  apply length_zero_iff_nil in H. revert H.
  apply (lstrip_chars_nonempty _ _ c); [|done].
  apply elem_of_reverse. by left.
Qed.

(** A value is blank only when it is empty. *)
Lemma truthy_strip_value (line : str) d :
  decompose line = Some d → truthy (strip (value d)) = truthy (value d).
Proof.
  intros H. destruct (value d) as [|c v] eqn:E; [done|].
  pose proof (value_no_leading_space line d H c v E) as Hc.
  pose proof (strip_nonempty c v Hc). by destruct (strip (c :: v)).
Qed.

(** ** The first match, built front to back *)

Lemma head_seq r1 r2 st x y :
  head (run r1 st) = Some x → head (run r2 x) = Some y →
  head (run (Seq r1 r2) st) = Some y.
Proof.
  change (run (Seq r1 r2) st) with (run r1 st ≫= run r2).
  destruct (run r1 st) as [|x' l]; [done|]. intros [= ->] Hy.
  cbn [mbind list_bind]. by destruct (run r2 x).
Qed.

Lemma head_rep p (lo : nat) st :
  (lo ≤ run_len p (rest st))%nat →
  head (run (Rep p lo None) st)
  = Some (MState (pos st + run_len p (rest st)) (drop (run_len p (rest st)) (rest st))
            (caps st)).
Proof. intros H. rewrite run_Rep. by apply rep_head. Qed.

Lemma head_grp (n : nat) r st x :
  head (run r st) = Some x →
  head (run (Grp n r) st)
  = Some (MState (pos x) (rest x) (<[n := take (pos x - pos st) (rest st)]> (caps x))).
Proof.
  change (run (Grp n r) st) with
    ((λ st', MState (pos st') (rest st')
               (<[n := take (pos st' - pos st) (rest st)]> (caps st'))) <$> run r st).
  destruct (run r st) as [|x' l]; [done|]. by intros [= ->].
Qed.

Lemma head_grp_rep (n : nat) p (lo : nat) st :
  (lo ≤ run_len p (rest st))%nat →
  head (run (Grp n (Rep p lo None)) st)
  = Some (MState (pos st + run_len p (rest st)) (drop (run_len p (rest st)) (rest st))
            (<[n := take (run_len p (rest st)) (rest st)]> (caps st))).
Proof.
  intros H. rewrite (head_grp n _ st _ (head_rep p lo st H)). cbn [pos rest caps].
  do 4 f_equal. lia.
Qed.

Lemma head_opt_Some r st x : head (run r st) = Some x → head (run (Opt r) st) = Some x.
Proof.
  change (run (Opt r) st) with (run r st ++ [st]). by destruct (run r st).
Qed.

Lemma head_opt_None r st : run r st = [] → head (run (Opt r) st) = Some st.
Proof. change (run (Opt r) st) with (run r st ++ [st]). by intros ->. Qed.

Lemma head_chr (c : char) st (s : str) :
  rest st = c :: s → head (run (chr c) st) = Some (MState (S (pos st)) s (caps st)).
Proof. intros E. unfold chr. simpl. by rewrite E, N.eqb_refl. Qed.

Lemma run_chr_nil (c : char) st : (∀ s, rest st ≠ c :: s) → run (chr c) st = [].
Proof.
  intros H. apply elem_of_nil_inv. intros x (s & E & _)%elem_of_run_chr. by apply (H s).
Qed.

Lemma head_rep_split p (lo i : nat) (u v : str) cs :
  all p u → (lo ≤ length u)%nat → (∀ c t, v = c :: t → p c = false) →
  head (run (Rep p lo None) (MState i (u ++ v) cs)) = Some (MState (i + length u) v cs).
Proof.
  intros Hu Hlo Hv. rewrite head_rep; cbn [rest pos caps]; rewrite run_len_exact by done.
  - by rewrite drop_app_length.
  - done.
Qed.

Lemma head_grp_text (n : nat) r st x (u : str) :
  head (run r st) = Some x → rest st = u ++ rest x →
  head (run (Grp n r) st) = Some (MState (pos x) (rest x) (<[n := u]> (caps x))).
Proof.
  intros Hx E. rewrite (head_grp n r st x Hx).
  destruct (run_consumes r st x (head_elem_of _ _ Hx)) as (u' & E' & P).
  rewrite E in E'. apply (inj (λ y, y ++ rest x)) in E' as <-.
  rewrite E, P. replace (pos st + length u - pos st)%nat with (length u) by lia.
  by rewrite take_app_length.
Qed.

Lemma decompose_fields_ok (line : str) d : decompose line = Some d → fields_ok d.
Proof.
  intros H. pose proof (value_no_leading_space line d H) as Hg.
  apply decompose_shape in H
    as (w1 & tail & _ & Hl & Al & _ & _ & Hx & Ht & At & Hv).
  unfold fields_ok. split_and!; try done.
  destruct Hv as [[-> _]|(w2 & _ & _ & Av & _)]; done.
Qed.

Lemma word_head_not_space (tg t : str) :
  tg ≠ [] → all isword tg → ∀ c s, tg ++ t = c :: s → isspace c = false.
Proof.
  intros Hne Ha c s E. destruct tg as [|c' tg]; [done|]. injection E as -> _.
  apply all_cons in Ha as [Hc _]. destruct (isspace c) eqn:Es; [|done].
  apply space_not_word in Es. congruence.
Qed.

(** The cross-reference group on a cross-reference followed by something
    that does not start with whitespace. *)
Lemma head_xref (i : nat) (x w t : str) cs :
  x ≠ [] → all not_at x → w ≠ [] → all isspace w →
  (∀ c s, t = c :: s → isspace c = false) →
  ∃ j, head (run (Grp 2 (cat [chr AT; plus not_at; chr AT; plus isspace]))
               (MState i (AT :: x ++ AT :: w ++ t) cs))
       = Some (MState j t (<[2%nat := AT :: x ++ AT :: w]> cs)).
Proof.
  intros Nx Ax Nw Aw Ht. eexists.
  assert (head (run (cat [chr AT; plus not_at; chr AT; plus isspace])
                  (MState i (AT :: x ++ AT :: w ++ t) cs))
          = Some (MState (S (S i + length x) + length w) t cs)) as Hh.
  { cbn [cat foldr]. eapply head_seq; [by apply head_chr|]. cbn [pos rest caps].
    eapply head_seq.
    { apply head_rep_split; [done|destruct x; [done|simpl; lia]|].
      intros c s [= <- _]. unfold not_at. by rewrite N.eqb_refl. }
    eapply head_seq; [by apply head_chr|]. cbn [pos rest caps].
    eapply head_seq.
    { apply head_rep_split; [done|destruct w; [done|simpl; lia]|done]. }
    done. }
  rewrite (head_grp_text 2 _ _ _ (AT :: x ++ AT :: w) Hh); [done|].
  cbn [rest app]. by rewrite <- ?app_assoc.
Qed.

(** The value group on whitespace and a value. *)
Lemma head_value (i : nat) (w2 v : str) cs :
  w2 ≠ [] → all isspace w2 → all dot v → (∀ c s, v = c :: s → isspace c = false) →
  ∃ j, head (run (Grp 4 (cat [plus isspace; Grp 5 (star dot)])) (MState i (w2 ++ v) cs))
       = Some (MState j [] (<[4%nat := w2 ++ v]> (<[5%nat := v]> cs))).
Proof.
  intros Nw Aw Av Hv. eexists.
  assert (head (run (cat [plus isspace; Grp 5 (star dot)]) (MState i (w2 ++ v) cs))
          = Some (MState (i + length w2 + length v) [] (<[5%nat := v]> cs))) as Hh.
  { cbn [cat foldr]. eapply head_seq.
    { apply head_rep_split; [done|destruct w2; [done|simpl; lia]|done]. }
    eapply head_seq; [|done].
    pose proof (head_rep_split dot 0 (i + length w2) v [] cs Av ltac:(lia) ltac:(done))
      as Hs.
    rewrite app_nil_r in Hs. unfold star.
    rewrite (head_grp_text 5 _ _ _ v Hs); [done|]. cbn [rest]. by rewrite app_nil_r. }
  rewrite (head_grp_text 4 _ _ _ (w2 ++ v) Hh); [done|]. cbn [rest]. by rewrite app_nil_r.
Qed.

(** Decomposing a rebuilt line gives back the fields it was built from:
    with a value after one space, and without a value. *)
Lemma decompose_rebuilt (d : Decomposed) :
  fields_ok d →
  decompose (base_of d ++ py " " ++ value d) = Some d ∧
  (value d = [] → decompose (base_of d) = Some d).
Proof.
  destruct d as [lv xr tg v]. unfold fields_ok, base_of. cbn [level xref tag value].
  intros (Nl & Al & Hx & Nt & At & Av & Hv).
  (* both lines at once: what follows the tag is empty or a space and the value *)
  assert (∀ tail : str,
    (tail = [] ∧ v = []) ∨ tail = py " " ++ v →
    decompose (lv ++ py " " ++ default [] xr ++ tg ++ tail) = Some (MkDecomposed lv xr tg v))
    as Hmain.
  { intros tail Htail.
    assert (∀ c s, tail = c :: s → isword c = false) as Htw.
    { intros c s E. destruct Htail as [[-> _]| ->]; [done|]. by injection E as <- _. }
    assert (∃ m, head (run LINE_RE (MState 0 (lv ++ py " " ++ default [] xr ++ tg ++ tail) ∅))
                 = Some m ∧
                 caps m !! 1%nat = Some lv ∧ caps m !! 2%nat = xr ∧
                 caps m !! 3%nat = Some tg ∧ default [] (caps m !! 5%nat) = v)
      as (m & Hm & G1 & G2 & G3 & G5).
    { unfold LINE_RE. cbn [cat foldr].
      (* the cross-reference *)
      assert (∃ j, head (run (Opt (Grp 2 (Seq (chr AT) (Seq (plus not_at)
                            (Seq (chr AT) (Seq (plus isspace) Eps))))))
                          (MState (0 + length lv + length (py " "))
                             (default [] xr ++ tg ++ tail) (<[1%nat := lv]> ∅)))
                   = Some (MState j (tg ++ tail)
                             (match xr with
                              | Some x => <[2%nat := x]> (<[1%nat := lv]> ∅)
                              | None => <[1%nat := lv]> ∅
                              end))) as [j2 H2].
      { destruct Hx as [->|(x & w & -> & Nx & Ax & Nw & Aw)].
        - eexists. cbn [default from_option app]. apply head_opt_None.
          change (run (Grp 2 ?r) ?st) with
            ((λ st', MState (pos st') (rest st')
                       (<[2%nat := take (pos st' - pos st) (rest st)]> (caps st')))
               <$> run r st).
          change (run (Seq (chr AT) ?r2) ?st) with (run (chr AT) st ≫= run r2).
          rewrite run_chr_nil; [done|]. cbn [rest]. intros s E.
          destruct tg as [|c tg]; [done|]. injection E as -> _.
          apply all_cons in At as [Hc _]. vm_compute in Hc. discriminate Hc.
        - destruct (head_xref (0 + length lv + length (py " ")) x w (tg ++ tail)
                      (<[1%nat := lv]> ∅) Nx Ax Nw Aw
                      (word_head_not_space tg tail Nt At)) as [j Hj].
          exists j. apply head_opt_Some. cbn [default from_option id].
          unfold id. cbn [cat foldr] in Hj. rewrite <- Hj. do 3 f_equal.
          cbn [app]. by rewrite <- !app_assoc. }
      (* the value *)
      assert (∀ j cs, ∃ j', head (run (Opt (Grp 4 (Seq (plus isspace)
                                      (Seq (Grp 5 (star dot)) Eps))))
                                    (MState j tail cs))
                = Some (MState j' []
                          (if decide (tail = []) then cs
                           else <[4%nat := tail]> (<[5%nat := v]> cs)))) as H4.
      { intros j cs. destruct Htail as [[-> ->]| ->].
        - exists j. rewrite decide_True by done. apply head_opt_None.
          change (run (Grp 4 ?r) ?st) with
            ((λ st', MState (pos st') (rest st')
                       (<[4%nat := take (pos st' - pos st) (rest st)]> (caps st')))
               <$> run r st).
          change (run (Seq (plus isspace) ?r2) ?st) with (run (plus isspace) st ≫= run r2).
          unfold plus. rewrite run_Rep. rewrite rep_nil; [done|]. simpl. lia.
        - destruct (head_value j (py " ") v cs ltac:(done) ltac:(done) Av Hv) as [j' Hj].
          exists j'. rewrite decide_False by done. apply head_opt_Some. exact Hj. }
      destruct (H4 (j2 + length tg)%nat
                  (<[3%nat := tg]> (match xr with
                                    | Some x => <[2%nat := x]> (<[1%nat := lv]> ∅)
                                    | None => <[1%nat := lv]> ∅
                                    end))) as [j4 H4'].
      eexists. split.
      - eapply head_seq; [done|].
        eapply head_seq.
        { eapply head_grp_text.
          - apply head_rep_split; [done|destruct lv; [done|simpl; lia]|].
            intros c s [= <- _]. vm_compute. reflexivity.
          - done. }
        cbn [pos rest caps]. eapply head_seq.
        { apply head_rep_split; [done|simpl; lia|].
          intros c s E. destruct Hx as [->|(x & w & -> & _)].
          - by apply (word_head_not_space tg tail Nt At c s).
          - injection E as <- _. vm_compute. reflexivity. }
        eapply head_seq; [exact H2|].
        eapply head_seq.
        { eapply head_grp_text.
          - apply head_rep_split; [done|destruct tg; [done|simpl; lia]|done].
          - done. }
        cbn [pos rest caps]. eapply head_seq; [exact H4'|].
        eapply head_seq; [|done]. done.
      - cbn [caps]. destruct Htail as [[-> ->]| ->].
        + rewrite decide_True by done.
          destruct xr as [x|]; rewrite ?lookup_insert_eq;
            rewrite ?(lookup_insert_ne _ 3%nat) by done;
            rewrite ?lookup_insert_eq; rewrite ?(lookup_insert_ne _ 2%nat) by done;
            rewrite ?lookup_insert_eq; rewrite ?(lookup_insert_ne _ 1%nat) by done;
            done.
        + rewrite decide_False by done.
          rewrite !(lookup_insert_ne _ 4%nat) by done.
          rewrite lookup_insert_eq. rewrite !(lookup_insert_ne _ 5%nat) by done.
          destruct xr as [x|]; rewrite ?lookup_insert_eq;
            rewrite ?(lookup_insert_ne _ 3%nat) by done;
            rewrite ?lookup_insert_eq; rewrite ?(lookup_insert_ne _ 2%nat) by done;
            rewrite ?lookup_insert_eq; done. }
    unfold decompose, re_match. rewrite Hm. cbn [mbind option_bind]. unfold group.
    rewrite G1. cbn [mbind option_bind]. rewrite G3. cbn [mbind option_bind].
    by rewrite G2, G5. }
  split.
  - rewrite <- !app_assoc. apply Hmain. by right.
  - intros ->. rewrite <- (app_nil_r tg) at 1. apply Hmain. by left.
Qed.

(** ** The values the engine substitutes *)

Lemma str_of_int_digits (n : nat) : all ascii_digit (str_of_int n).
Proof.
  unfold str_of_int. generalize (Nat.to_uint n). intros d.
  induction d as [|d IH|d IH|d IH|d IH|d IH|d IH|d IH|d IH|d IH|d IH];
    [done|apply all_cons; split; [done|exact IH]..].
Qed.

Lemma all_impl (p q : char → bool) (s : str) :
  (∀ c, p c = true → q c = true) → all p s → all q s.
Proof.
  intros H. induction s as [|c s IH]; [done|].
  intros [Hc Hs]%all_cons. apply all_cons. auto.
Qed.

Lemma ascii_digit_dot (c : char) : ascii_digit c = true → dot c = true.
Proof.
  unfold ascii_digit, dot, LF. rewrite andb_true_iff, !N.leb_le, negb_true_iff, N.eqb_neq.
  lia.
Qed.

Lemma placeholder_ok (kind : str) (n : nat) :
  value_ok kind → kind ≠ [] → value_ok (placeholder kind n).
Proof.
  intros [Hk Hh] Hne. unfold placeholder. split.
  - apply all_app. split; [done|].
    apply (all_impl ascii_digit); [apply ascii_digit_dot|apply str_of_int_digits].
  - intros c s E. destruct kind as [|k kind]; [done|]. injection E as -> _. by eapply Hh.
Qed.

Lemma value_ok_literal (v : str) :
  forallb dot v && match v with c :: _ => negb (isspace c) | [] => true end = true →
  value_ok v.
Proof.
  intros [Hd Hh]%andb_true_iff. split; [done|].
  intros c s ->. by apply negb_true_iff.
Qed.

Lemma value_ok_nil : value_ok [].
Proof. by apply value_ok_literal. Qed.

Lemma decompose_value_ok (line : str) d : decompose line = Some d → value_ok (value d).
Proof. intros (_ & _ & _ & _ & _ & Hd & Hh)%decompose_fields_ok. by split. Qed.

Lemma fields_ok_with_value (d : Decomposed) (v : str) :
  fields_ok d → value_ok v → fields_ok (with_value d v).
Proof.
  intros (? & ? & ? & ? & ? & _ & _) [? ?]. unfold fields_ok, with_value.
  cbn [level xref tag value]. done.
Qed.

Lemma printable_space (c : char) : printable c = true → isspace c = true → c = 32%N.
Proof.
  intros Hp Hs. apply N.eqb_eq.
  apply (table_forall (λ c, negb (printable c) || (c =? 32)%N) space_table c) in Hs;
    [|vm_compute; reflexivity].
  rewrite Hp in Hs. exact Hs.
Qed.

Lemma printable_dot (c : char) : printable c = true → dot c = true.
Proof.
  unfold printable, dot, LF. rewrite andb_true_iff, !N.leb_le, negb_true_iff, N.eqb_neq.
  lia.
Qed.

Lemma literal_value_ok (v : str) : literal_value v → value_ok v.
Proof.
  intros (Hne & Hp & Hh). split.
  - by apply (all_impl printable); [apply printable_dot|].
  - intros c s ->. apply all_cons in Hp as [Hc _].
    destruct (isspace c) eqn:Es; [|done]. destruct (Hh c s eq_refl).
    by apply printable_space.
Qed.

Lemma literal_by_compute (v : str) :
  forallb printable v &&
  match v with c :: _ => negb (c =? 32)%N | [] => false end = true →
  literal_value v.
Proof.
  intros [Hp Hh]%andb_true_iff. destruct v as [|c v]; [done|].
  split_and!; [done|done|]. intros c' s [= <- _].
  by apply N.eqb_neq, negb_true_iff.
Qed.

Lemma placeholder_literal (kind : str) (n : nat) :
  literal_value kind → literal_value (placeholder kind n).
Proof.
  intros (Hne & Hp & Hh). unfold placeholder. split_and!.
  - destruct kind; [done|]. done.
  - apply all_app. split; [done|].
    apply (all_impl ascii_digit); [|apply str_of_int_digits].
    intros c. unfold ascii_digit, printable. rewrite !andb_true_iff, !N.leb_le. lia.
  - intros c s E. destruct kind as [|k kind]; [done|]. injection E as -> _. by eapply Hh.
Qed.

(** [anonymize_date] returns its argument or one of seven fixed values. *)
Lemma anonymize_date_range (date : str) self :
  ∃ v, anonymize_date date self = Return v self ∧ (v = date ∨ v ∈ DATE_RESULTS).
Proof.
  unfold anonymize_date. unfold_M. destruct (keep_dates self); [by eauto|].
  destruct (is_match (re_match FULL_DATE_RE date)).
  { eexists. split; [done|]. right. by left. }
  destruct (is_match (re_match QUALIFIED_DATE_RE date)) eqn:E2.
  { apply QUALIFIED_DATE_RE_spec in E2 as (q & Hq & Hs).
    rewrite (split_qualified q date Hq Hs). eexists. split; [done|]. right.
    unfold DATE_RESULTS. do 2 right. apply list_elem_of_fmap. eauto. }
  destruct (is_match (re_match YEAR_RE date)).
  { eexists. split; [done|]. right. right. by left. }
  eauto.
Qed.

Lemma DATE_RESULTS_literal (v : str) : v ∈ DATE_RESULTS → literal_value v.
Proof.
  unfold DATE_RESULTS, QUALIFIERS. cbn [fmap list_fmap].
  rewrite !elem_of_cons, elem_of_nil.
  intros [->|[->|[->|[->|[->|[->|[->|[]]]]]]]]; apply literal_by_compute;
    vm_compute; reflexivity.
Qed.

(** The line [anonymize_line] returns for a line with fields [d]: the
    rebuilt start, then nothing (only when there is no value to show) or a
    space and a value that can stand there. The state is one a fresh engine
    can reach. *)
Lemma anonymize_line_form (line : str) (n : nat) self d :
  engine_inv self → decompose (strip_bom line) = Some d →
  ∃ v self',
    anonymize_line line n self = Return (base_of d ++ (if decide (v = []) then
                                                        if bool_decide (tag d ∈ [py "NAME"; py "PLAC"; py "DATE"]) then py " " else []
                                                      else py " " ++ v)) self' ∧
    (v = value d ∨ literal_value v).
Proof.
  intros Hinv E.
  rewrite (anonymize_line_Some _ _ _ _ E).
  destruct (decide (tag d = py "NAME")) as [Hn|Hn];
    [|destruct (decide (tag d = py "PLAC")) as [Hp|Hp];
      [|destruct (decide (tag d = py "DATE")) as [Hd|Hd]]].
  - rewrite Hn, dispatch_NAME. unfold_M. rewrite anonymize_name_resolve.
    destruct (resolve _ _ _ _) as [[p m] c] eqn:R.
    destruct Hinv as [[seen Hnum] _].
    destruct (numbered_resolve _ _ _ _ _ _ _ _ Hnum R) as (_ & k & _ & ->).
    exists (placeholder (py "Person ") (S k)). eexists. split.
    + rewrite decide_False; [done|]. unfold placeholder. done.
    + right. apply placeholder_literal. apply literal_by_compute. vm_compute. reflexivity.
  - rewrite Hp, dispatch_PLAC. unfold_M. destruct (keep_places self) eqn:K.
    + rewrite anonymize_place_keep by done. exists (value d), self. split; [|by left].
      destruct (decide (value d = [])) as [->|]; [|done].
      by rewrite bool_decide_eq_true_2 by (do 1 right; by left).
    + rewrite anonymize_place_resolve by done.
      destruct (resolve _ _ _ _) as [[p m] c] eqn:R.
      destruct Hinv as [_ [seen Hnum]].
      destruct (numbered_resolve _ _ _ _ _ _ _ _ Hnum R) as (_ & k & _ & ->).
      exists (placeholder (py "Place ") (S k)). eexists. split.
      * rewrite decide_False; [done|]. unfold placeholder. done.
      * right. apply placeholder_literal. apply literal_by_compute. vm_compute. reflexivity.
  - rewrite Hd, dispatch_DATE. unfold_M.
    destruct (anonymize_date_range (value d) self) as (v & -> & Hv).
    exists v, self. split.
    + destruct (decide (v = [])) as [->|]; [|done].
      by rewrite bool_decide_eq_true_2 by (do 2 right; by left).
    + destruct Hv as [->|Hv]; [by left|right; by apply DATE_RESULTS_literal].
  - assert (bool_decide (tag d ∈ [py "NAME"; py "PLAC"; py "DATE"]) = false) as Hb.
    { apply bool_decide_eq_false_2. rewrite !elem_of_cons, elem_of_nil. tauto. }
    rewrite Hb. unfold dispatch. rewrite !bool_decide_eq_false_2 by done.
    assert (∀ text, literal_value text →
      ∃ v self',
        fixed_text (base_of d) (value d) text self
          = Return (base_of d ++ (if decide (v = []) then [] else py " " ++ v)) self' ∧
        (v = value d ∨ literal_value v)) as Hfixed.
    { intros text Hok. unfold fixed_text. unfold_M.
      rewrite (truthy_strip_value _ _ E).
      destruct (value d) as [|c0 v0] eqn:Ev; cbn [truthy].
      - exists [], self. rewrite decide_True, app_nil_r by done. split; [done|by left].
      - exists text, self. rewrite decide_False by apply Hok. split; [done|by right]. }
    destruct (bool_decide (tag d ∈ TEXT_TAGS));
      [apply Hfixed; apply literal_by_compute; vm_compute; reflexivity|].
    destruct (bool_decide (tag d ∈ NAME_PART_TAGS));
      [apply Hfixed; apply literal_by_compute; vm_compute; reflexivity|].
    destruct (bool_decide (tag d ∈ ADDRESS_TAGS));
      [apply Hfixed; apply literal_by_compute; vm_compute; reflexivity|].
    destruct (bool_decide (tag d ∈ CONTACT_TAGS));
      [apply Hfixed; apply literal_by_compute; vm_compute; reflexivity|].
    destruct (bool_decide (tag d = py "TITL") && bool_decide (Some (level d) = Some (py "1")));
      [apply Hfixed; apply literal_by_compute; vm_compute; reflexivity|].
    unfold_M. exists (value d), self. split; [|by left].
    destruct (value d) as [|c v]; [|done]. cbn [truthy]. rewrite decide_True by done.
    by rewrite app_nil_r.
Qed.

Lemma anonymize_line_form_ok (line : str) (d : Decomposed) (v : str) :
  decompose (strip_bom line) = Some d → v = value d ∨ literal_value v → value_ok v.
Proof.
  intros E [->|H]; [by apply (decompose_value_ok (strip_bom line))|by apply literal_value_ok].
Qed.

(** ** The branches of the dispatch *)

Lemma not_in_by_compute (l1 l2 : list str) (t : str) :
  forallb (λ t, negb (bool_decide (t ∈ l2))) l1 = true → t ∈ l1 → t ∉ l2.
Proof.
  rewrite forallb_forall. intros H Hin%list_elem_of_In. specialize (H t Hin).
  apply negb_true_iff in H. by apply bool_decide_eq_false in H.
Qed.

Lemma dispatch_TEXT lv (base tg value : str) self :
  tg ∈ TEXT_TAGS →
  dispatch lv base tg value self = fixed_text base value (py "[anonymized text]") self.
Proof.
  intros H. unfold dispatch.
  assert (tg ∉ [py "NAME"; py "PLAC"; py "DATE"]) as Hn.
  { apply (not_in_by_compute TEXT_TAGS); [vm_compute; reflexivity|done]. }
  rewrite !elem_of_cons, elem_of_nil in Hn.
  rewrite !bool_decide_eq_false_2 by tauto. by rewrite bool_decide_eq_true_2.
Qed.

Lemma dispatch_REDACTED lv (base tg value : str) self :
  tg ∈ REDACTED_TAGS →
  dispatch lv base tg value self = fixed_text base value (py "[anonymized]") self.
Proof.
  intros H. unfold dispatch.
  assert (tg ∉ [py "NAME"; py "PLAC"; py "DATE"] ++ TEXT_TAGS) as Hn.
  { apply (not_in_by_compute REDACTED_TAGS); [vm_compute; reflexivity|done]. }
  rewrite elem_of_app, !elem_of_cons, elem_of_nil in Hn.
  rewrite !(bool_decide_eq_false_2 (tg = _)) by tauto.
  rewrite (bool_decide_eq_false_2 (tg ∈ TEXT_TAGS)) by tauto.
  unfold REDACTED_TAGS in H. rewrite !elem_of_app in H.
  destruct (bool_decide (tg ∈ NAME_PART_TAGS)) eqn:E1; [done|].
  destruct (bool_decide (tg ∈ ADDRESS_TAGS)) eqn:E2; [done|].
  apply bool_decide_eq_false in E1, E2.
  rewrite bool_decide_eq_true_2 by tauto. done.
Qed.

Lemma dispatch_other lv (base tg value : str) self :
  tg ∉ NAMED_TAGS → ¬ (tg = py "TITL" ∧ lv = Some (py "1")) →
  dispatch lv base tg value self
  = Return (base ++ (if truthy value then py " " ++ value else [])) self.
Proof.
  intros Hn Ht. unfold dispatch, NAMED_TAGS, REDACTED_TAGS in *.
  rewrite !elem_of_app, !elem_of_cons, elem_of_nil in Hn.
  rewrite !(bool_decide_eq_false_2 (tg = py "NAME")) by tauto.
  rewrite !(bool_decide_eq_false_2 (tg = py "PLAC")) by tauto.
  rewrite !(bool_decide_eq_false_2 (tg = py "DATE")) by tauto.
  rewrite !(bool_decide_eq_false_2 (tg ∈ _)) by tauto.
  assert (bool_decide (tg = py "TITL") && bool_decide (lv = Some (py "1")) = false) as ->.
  { apply andb_false_iff. destruct (decide (tg = py "TITL")) as [->|].
    - right. apply bool_decide_eq_false_2. tauto.
    - left. by apply bool_decide_eq_false_2. }
  unfold_M. destruct (truthy value); [done|]. by rewrite app_nil_r.
Qed.

Lemma dispatch_TITL_1 (base value : str) self :
  dispatch (Some (py "1")) base (py "TITL") value self
  = fixed_text base value (py "[anonymized]") self.
Proof.
  unfold dispatch.
  rewrite !(bool_decide_eq_false_2 (py "TITL" = _)) by (intros ?%py_inj; discriminate).
  assert (bool_decide (py "TITL" ∈ TEXT_TAGS) = false) as -> by (vm_compute; reflexivity).
  assert (bool_decide (py "TITL" ∈ NAME_PART_TAGS) = false) as ->
    by (vm_compute; reflexivity).
  assert (bool_decide (py "TITL" ∈ ADDRESS_TAGS) = false) as -> by (vm_compute; reflexivity).
  assert (bool_decide (py "TITL" ∈ CONTACT_TAGS) = false) as -> by (vm_compute; reflexivity).
  by rewrite !(bool_decide_eq_true_2 _ eq_refl).
Qed.

Lemma strip_bom_digit_line (d : Decomposed) (t : str) :
  fields_ok d → strip_bom (base_of d ++ t) = base_of d ++ t.
Proof.
  intros (Hl & Al & _). unfold base_of, strip_bom, startswith.
  destruct (level d) as [|c lv]; [done|]. cbn [app].
  apply all_cons in Al as [Hc _].
  destruct (c =? BOM)%N eqn:E; [|done]. apply N.eqb_eq in E as ->.
  vm_compute in Hc. discriminate Hc.
Qed.

(** ** Dates, identity maps, warnings and counts *)

(** The seven fixed values are fixed points of [anonymize_date]. *)
Lemma anonymize_date_fixed (v : str) self :
  v ∈ DATE_RESULTS → anonymize_date v self = Return v self.
Proof.
  intros Hv. destruct (keep_dates self) eqn:K; [by apply anonymize_date_keep|].
  revert Hv. unfold DATE_RESULTS, QUALIFIERS. cbn [fmap list_fmap].
  rewrite !elem_of_cons, elem_of_nil.
  intros [->|[->|[->|[->|[->|[->|[->|[]]]]]]]];
    unfold anonymize_date; unfold_M; rewrite K; vm_compute; reflexivity.
Qed.

Lemma resolve_lookup (kind : str) (m : gmap str str) (c : nat) (v p : str) m' c' :
  resolve kind m c v = (p, m', c') →
  m' !! v = Some p ∧ resolve kind m' c' v = (p, m', c') ∧
  (∀ w q, m !! w = Some q → m' !! w = Some q) ∧
  (∀ w, w ≠ v → m' !! w = m !! w).
Proof.
  unfold resolve. destruct (m !! v) as [q|] eqn:E; intros [= <- <- <-].
  - rewrite E. done.
  - rewrite lookup_insert_eq. split_and!; [done|done| |].
    + intros w q Hw. rewrite lookup_insert_ne; [done|]. intros <-. congruence.
    + intros w Hw. by rewrite lookup_insert_ne.
Qed.

(** A call of [anonymize_line] keeps what the identity maps hold. *)
Lemma anonymize_line_maps_grow (line : str) (n : nat) self :
  (∀ v p, name_map self !! v = Some p →
          name_map (state_of (anonymize_line line n self)) !! v = Some p) ∧
  (∀ v p, place_map self !! v = Some p →
          place_map (state_of (anonymize_line line n self)) !! v = Some p).
Proof.
  destruct (anonymize_line_spec line n self) as (out & self' & -> & _ & _ & Hn & Hp).
  cbn [state_of]. unfold name_effect, place_effect in *. split.
  - destruct (tagged (py "NAME") line) as [d|].
    + destruct (resolve _ _ _ _) as [[p m] c] eqn:R. destruct Hn as (-> & _ & _).
      intros v q. by apply (resolve_lookup _ _ _ _ _ _ _ R).
    + destruct Hn as [-> _]. done.
  - destruct (tagged (py "PLAC") line) as [d|].
    + destruct (keep_places self).
      * destruct Hp as (-> & _ & _). done.
      * destruct (resolve _ _ _ _) as [[p m] c] eqn:R. destruct Hp as (-> & _ & _).
        intros v q. by apply (resolve_lookup _ _ _ _ _ _ _ R).
    + destruct Hp as [-> _]. done.
Qed.

(** Only a malformed line makes [anonymize_line] print. *)
Lemma dispatch_printed lv (base tg value : str) self :
  printed (state_of (dispatch lv base tg value self)) = printed self.
Proof.
  destruct (decide (tg = py "NAME")) as [->|H1].
  { rewrite dispatch_NAME. unfold mbind, M_bind. rewrite anonymize_name_resolve.
    by destruct (resolve _ _ _ _) as [[p m] c]. }
  destruct (decide (tg = py "PLAC")) as [->|H2].
  { rewrite dispatch_PLAC. unfold mbind, M_bind. destruct (keep_places self) eqn:K.
    - by rewrite anonymize_place_keep.
    - rewrite anonymize_place_resolve by done. by destruct (resolve _ _ _ _) as [[p m] c]. }
  by destruct (dispatch_frame lv base tg value self H1 H2) as [out ->].
Qed.

Lemma anonymize_line_printed (line : str) (n : nat) self :
  printed (state_of (anonymize_line line n self))
  = printed self ++
    (if (n <? 5)%nat && truthy (strip (strip_bom line)) &&
        bool_decide (decompose (strip_bom line) = None)
     then [Warning (n + 1) (take 50 (strip_bom line))] else []).
Proof.
  destruct (decompose (strip_bom line)) as [d|] eqn:E.
  - rewrite (anonymize_line_Some _ _ _ _ E), dispatch_printed.
    rewrite bool_decide_eq_false_2 by done. by rewrite andb_false_r, app_nil_r.
  - rewrite (anonymize_line_None _ _ _ E). rewrite bool_decide_eq_true_2 by done.
    rewrite andb_true_r. destruct (_ && _); [done|]. by rewrite app_nil_r.
Qed.

(** A line that is blank is so without a leading byte-order mark. *)
Lemma strip_bom_blank (line : str) :
  truthy (strip line) = false → truthy (strip (strip_bom line)) = false.
Proof.
  unfold strip_bom, startswith. destruct line as [|c line]; [done|].
  destruct (c =? BOM)%N eqn:Ec; [|done]. apply N.eqb_eq in Ec as ->.
  intros H. destruct (strip (BOM :: line)) eqn:Es; [|done].
  by apply strip_nonempty in Es.
Qed.

Lemma anonymize_lines_printed (lines : list str) (i : nat) self :
  printed (state_of (anonymize_lines i lines self))
  = printed self ++ omap id (imap (λ k raw, warning_for (i + k) raw) lines).
Proof.
  revert i self. induction lines as [|raw lines IH]; intros i self.
  - cbn. by rewrite app_nil_r.
  - rewrite anonymize_lines_cons, imap_cons. cbn [omap list_omap].
    rewrite Nat.add_0_r.
    assert (imap ((λ k raw0, warning_for (i + k) raw0) ∘ S) lines
            = imap (λ k raw0, warning_for (S i + k) raw0) lines) as ->.
    { apply imap_ext. intros k x _. cbn. f_equal. lia. }
    destruct (truthy (strip (content raw))) eqn:Hb.
    + pose proof (anonymize_line_printed (content raw) i self) as Hp.
      destruct (anonymize_line_spec (content raw) i self) as (o & self1 & E1 & _).
      rewrite E1 in *. cbn [state_of] in Hp.
      destruct (anonymize_lines_total lines (S i) self1) as (os & self2 & E2 & _).
      pose proof (IH (S i) self1) as IH1. rewrite E2 in *. cbn [state_of] in *.
      rewrite IH1, Hp, <- app_assoc. f_equal. unfold warning_for.
      by destruct (_ && _).
    + unfold mret, M_ret.
      destruct (anonymize_lines_total lines (S i) self) as (os & self2 & E2 & _).
      pose proof (IH (S i) self) as IH1. rewrite E2 in *. cbn [state_of] in *.
      rewrite IH1. f_equal. unfold warning_for.
      by rewrite (strip_bom_blank _ Hb), andb_false_r.
Qed.

Lemma warnings_length (lines : list str) (i : nat) :
  (length (omap id (imap (λ k raw, warning_for (i + k) raw) lines)) ≤ 5 - i)%nat.
Proof.
  revert i. induction lines as [|raw lines IH]; intros i; [cbn; lia|].
  rewrite imap_cons. cbn [omap list_omap].
  assert (imap ((λ k raw0, warning_for (i + k) raw0) ∘ S) lines
          = imap (λ k raw0, warning_for (S i + k) raw0) lines) as ->.
  { apply imap_ext. intros k x _. cbn. f_equal. lia. }
  specialize (IH (S i)). rewrite Nat.add_0_r. unfold warning_for at 1.
  destruct (i <? 5)%nat eqn:Hi.
  - apply Nat.ltb_lt in Hi. cbn [id]. destruct (_ && _); cbn [length]; lia.
  - cbn [andb id]. apply Nat.ltb_ge in Hi. lia.
Qed.

(** The loop keeps the invariant of the identity maps. *)
Lemma engine_inv_anonymize_lines (lines : list str) (i : nat) self :
  engine_inv self → engine_inv (state_of (anonymize_lines i lines self)).
Proof.
  revert i self. induction lines as [|raw lines IH]; intros i self Hinv; [done|].
  rewrite anonymize_lines_cons. destruct (truthy (strip (content raw))).
  - pose proof (engine_inv_step (content raw) i self Hinv) as [H1 _].
    destruct (anonymize_line_spec (content raw) i self) as (o & self1 & E1 & _).
    rewrite E1 in *. cbn [state_of] in H1. specialize (IH (S i) self1 H1).
    by destruct (anonymize_lines (S i) lines self1).
  - unfold mret, M_ret. specialize (IH (S i) self Hinv).
    by destruct (anonymize_lines (S i) lines self).
Qed.

(** The keys of a numbered map are the numbered values. *)
Lemma numbered_dom (kind : str) seen m c :
  numbered kind seen m c → dom m = (list_to_set seen : gset str).
Proof.
  intros (_ & _ & _ & H). apply set_eq. intros v.
  rewrite elem_of_dom, elem_of_list_to_set, list_elem_of_lookup. split.
  - intros [p Hp]. apply H in Hp as (n & Hn & _). eauto.
  - intros [n Hn]. exists (placeholder kind (S n)). apply H. eauto.
Qed.

Lemma first_seen_set (vs : list str) :
  (list_to_set (first_seen vs) : gset str) = list_to_set vs.
Proof.
  apply set_eq. intros v. rewrite !elem_of_list_to_set. unfold first_seen.
  rewrite elem_of_first_seen_from. rewrite elem_of_nil. tauto.
Qed.

Lemma tag_values_length (tg : str) (lines : list str) :
  (length (tag_values tg lines) ≤ length lines)%nat.
Proof.
  induction lines as [|raw l IH]; [done|]. rewrite tag_values_cons.
  destruct (tagged_raw tg raw); cbn [length]; lia.
Qed.

(** ** Characters of the output *)

Lemma all_elem_of (p : char → bool) (s : str) (c : char) : all p s → c ∈ s → p c = true.
Proof.
  unfold all. rewrite forallb_forall. intros H Hc. apply H. by apply list_elem_of_In.
Qed.

Lemma all_lookup (p : char → bool) (s : str) (i : nat) (c : char) :
  all p s → s !! i = Some c → p c = true.
Proof. intros H Hi. apply (all_elem_of p s); [done|]. by eapply list_elem_of_lookup_2. Qed.

Lemma elem_of_lstrip_chars (p : char → bool) (s : str) (c : char) :
  c ∈ lstrip_chars p s → c ∈ s.
Proof.
  induction s as [|a s IH]; [done|]. cbn. destruct (p a); [|done].
  intros H. right. by apply IH.
Qed.

Lemma elem_of_rstrip_chars (p : char → bool) (s : str) (c : char) :
  c ∈ rstrip_chars p s → c ∈ s.
Proof.
  unfold rstrip_chars. rewrite elem_of_reverse. intros H%elem_of_lstrip_chars.
  by rewrite elem_of_reverse in H.
Qed.

Lemma rstrip_chars_snoc (p : char → bool) (s : str) (c : char) :
  p c = true → rstrip_chars p (s ++ [c]) = rstrip_chars p s.
Proof. intros H. unfold rstrip_chars. rewrite reverse_snoc. cbn. by rewrite H. Qed.

Lemma lstrip_chars_id (p : char → bool) (s : str) :
  (∀ c t, s = c :: t → p c = false) → lstrip_chars p s = s.
Proof. destruct s as [|c t]; [done|]. intros H. cbn. by rewrite (H c t). Qed.

Lemma rstrip_chars_id (p : char → bool) (s : str) :
  (∀ c t, s = t ++ [c] → p c = false) → rstrip_chars p s = s.
Proof.
  intros H. unfold rstrip_chars. rewrite lstrip_chars_id; [apply reverse_involutive|].
  intros c t E. apply (H c (reverse t)).
  rewrite <- (reverse_involutive s), E, reverse_cons. done.
Qed.

Lemma rstrip_chars_clean (p : char → bool) (s : str) :
  (∀ c, c ∈ s → p c = false) → rstrip_chars p s = s.
Proof.
  intros H. apply rstrip_chars_id. intros c t ->. apply H.
  rewrite elem_of_app. right. by left.
Qed.

Lemma content_one_line (raw : str) :
  one_line raw → ∀ c, c ∈ content raw → is_newline c = false.
Proof.
  intros (body & [->| ->] & Hb) c Hc; unfold content in Hc.
  - apply Hb. by apply elem_of_rstrip_chars in Hc.
  - rewrite rstrip_chars_snoc in Hc by done. apply Hb. by eapply elem_of_rstrip_chars.
Qed.

Lemma content_written (o : str) :
  (∀ c, c ∈ o → is_newline c = false) → content (written o) = o.
Proof.
  intros H. unfold content, written. rewrite rstrip_chars_snoc by done.
  by apply rstrip_chars_clean.
Qed.

Lemma elem_of_strip_bom (c : char) (line : str) : c ∈ strip_bom line → c ∈ line.
Proof.
  unfold strip_bom. destruct (startswith line BOM); [|done].
  destruct line; [done|]. cbn. by right.
Qed.

Lemma printable_not_newline (c : char) : printable c = true → is_newline c = false.
Proof.
  unfold printable, is_newline, LF, CR.
  rewrite andb_true_iff, orb_false_iff, !N.leb_le, !N.eqb_neq. lia.
Qed.

Lemma anonymize_line_chars (line : str) (n : nat) self :
  engine_inv self →
  ∃ out self',
    anonymize_line line n self = Return out self' ∧
    ∀ c, c ∈ out → c ∈ line ∨ printable c = true.
Proof.
  intros Hinv. destruct (decompose (strip_bom line)) as [d|] eqn:E.
  - destruct (anonymize_line_form line n self d Hinv E) as (v & self' & -> & Hv).
    eexists _, _. split; [done|].
    apply decompose_shape in E as (w1 & tail & El & _ & _ & _ & _ & _ & _ & _ & Ht).
    assert (∀ c, c ∈ value d → c ∈ strip_bom line) as Hval.
    { intros c Hc. rewrite El. rewrite !elem_of_app. do 4 right.
      destruct Ht as [[Ev _]|(w2 & _ & _ & _ & [->| ->])].
      - rewrite Ev in Hc. by apply elem_of_nil in Hc.
      - rewrite elem_of_app; by right.
      - rewrite !elem_of_app; right; by left. }
    assert (∀ c, c ∈ v → c ∈ line ∨ printable c = true) as Hv'.
    { intros c Hc. destruct Hv as [->|(_ & Hp & _)].
      - left. by apply elem_of_strip_bom, Hval.
      - right. by apply (all_elem_of printable v). }
    assert (∀ c, c ∈ py " " → printable c = true) as Hsp.
    { intros c Hc. change (py " ") with [32%N] in Hc.
      by apply list_elem_of_singleton in Hc as ->. }
    intros c. unfold base_of. rewrite !elem_of_app.
    intros [[Hc|[Hc|[Hc|Hc]]]|Hc].
    + left. apply elem_of_strip_bom. rewrite El, !elem_of_app. by left.
    + right. by apply Hsp.
    + left. apply elem_of_strip_bom. rewrite El, !elem_of_app. do 2 right. by left.
    + left. apply elem_of_strip_bom. rewrite El, !elem_of_app. do 3 right. by left.
    + destruct (decide (v = [])).
      * destruct (bool_decide _); [right; by apply Hsp|by apply elem_of_nil in Hc].
      * apply elem_of_app in Hc as [Hc|Hc]; [right; by apply Hsp|by apply Hv'].
  - rewrite (anonymize_line_None _ _ _ E). eexists _, _. split; [done|].
    intros c Hc. left. by apply elem_of_strip_bom.
Qed.

Lemma anonymize_lines_no_newline (lines : list str) (i : nat) self :
  engine_inv self → Forall one_line lines →
  ∃ out self',
    anonymize_lines i lines self = Return out self' ∧
    Forall (λ o : str, ∀ c, c ∈ o → is_newline c = false) out.
Proof.
  revert i self. induction lines as [|raw lines IH]; intros i self Hinv Hl.
  - exists [], self. done.
  - apply Forall_cons in Hl as [Hraw Hl]. rewrite anonymize_lines_cons.
    pose proof (content_one_line raw Hraw) as Hc.
    destruct (truthy (strip (content raw))).
    + destruct (anonymize_line_chars (content raw) i self Hinv) as (o & self1 & E1 & Ho).
      pose proof (engine_inv_step (content raw) i self Hinv) as [H1 _].
      rewrite E1 in *. cbn [state_of] in H1.
      destruct (IH (S i) self1 H1 Hl) as (os & self2 & -> & Hos).
      eexists _, _. split; [done|]. apply Forall_cons. split; [|done].
      intros c Hco. destruct (Ho c Hco) as [H|H]; [by apply Hc|].
      by apply printable_not_newline.
    + unfold mret, M_ret. destruct (IH (S i) self Hinv Hl) as (os & self2 & -> & Hos).
      eexists _, _. split; [done|]. by apply Forall_cons.
Qed.

(** ** The date patterns exclude each other *)

Lemma dmy_not_year (token : char → bool) (s : str) : dmy_shape token s → ¬ year_shape s.
Proof.
  intros (d & w1 & t & w2 & y & tail & -> & Hd & Hld & Hw1 & Hlw1 & _)
         (y' & tail' & E & Hy & Hly).
  destruct w1 as [|c w1]; [cbn in Hlw1; lia|].
  assert ((d ++ (c :: w1) ++ t ++ w2 ++ y ++ tail) !! length d = Some c) as H1.
  { rewrite lookup_app_r by lia. by rewrite Nat.sub_diag. }
  rewrite E in H1. rewrite lookup_app_l in H1 by lia.
  apply (all_lookup _ _ _ _ Hy) in H1. apply all_cons in Hw1 as [Hc _].
  apply space_not_decimal in Hc. congruence.
Qed.

Lemma qualifier_head (q : str) :
  q ∈ QUALIFIERS → ∃ c t, q = c :: t ∧ isdecimal c = false.
Proof.
  unfold QUALIFIERS. rewrite !elem_of_cons, elem_of_nil.
  intros [->|[->|[->|[->|[->|[]]]]]]; eexists _, _;
    (split; [vm_compute; reflexivity|vm_compute; reflexivity]).
Qed.

Lemma qualified_not_decimal_head (q s : str) :
  q ∈ QUALIFIERS → qualified_shape q s → ∃ c t, s = c :: t ∧ isdecimal c = false.
Proof.
  intros (c & t & -> & Hc)%qualifier_head (w & y & tail & -> & _). eauto.
Qed.

Lemma qualified_not_year (q s : str) :
  q ∈ QUALIFIERS → qualified_shape q s → ¬ year_shape s.
Proof.
  intros Hq Hs (y & tail & E & Hy & Hly).
  destruct (qualified_not_decimal_head q s Hq Hs) as (c & t & -> & Hc).
  destruct y as [|c' y]; [done|]. injection E as <- _.
  apply all_cons in Hy as [Hy _]. congruence.
Qed.

Lemma qualified_not_dmy (token : char → bool) (q s : str) :
  q ∈ QUALIFIERS → qualified_shape q s → ¬ dmy_shape token s.
Proof.
  intros Hq Hs (d & w1 & t' & w2 & y & tail & E & Hd & Hld & _).
  destruct (qualified_not_decimal_head q s Hq Hs) as (c & t & -> & Hc).
  destruct d as [|c' d]; [cbn in Hld; lia|]. injection E as <- _.
  apply all_cons in Hd as [Hd _]. congruence.
Qed.

(** ** A line that was anonymized is anonymized again *)

Lemma anonymize_line_rebuilt (d : Decomposed) (n : nat) self :
  fields_ok d →
  anonymize_line (base_of d ++ py " " ++ value d) n self
    = dispatch (Some (level d)) (base_of d) (tag d) (value d) self ∧
  (value d = [] →
   anonymize_line (base_of d) n self
     = dispatch (Some (level d)) (base_of d) (tag d) [] self).
Proof.
  intros Hok. destruct (decompose_rebuilt d Hok) as [H1 H2]. split.
  - apply anonymize_line_Some. by rewrite strip_bom_digit_line.
  - intros Hv. specialize (H2 Hv).
    rewrite (anonymize_line_Some (base_of d) n self d); [by rewrite Hv|].
    rewrite <- (app_nil_r (base_of d)). rewrite strip_bom_digit_line by done.
    by rewrite app_nil_r.
Qed.

(** What [anonymize_date] returns depends on the engine only through
    [keep_dates]. *)
Lemma anonymize_date_flag (date v : str) self self' :
  keep_dates self' = keep_dates self →
  anonymize_date date self = Return v self → anonymize_date date self' = Return v self'.
Proof.
  unfold anonymize_date. unfold_M. intros ->. destruct (keep_dates self).
  { by intros [= ->]. }
  destruct (is_match (re_match FULL_DATE_RE date)); [by intros [= ->]|].
  destruct (is_match (re_match QUALIFIED_DATE_RE date)).
  { destruct (split date !! 0%nat); [by intros [= ->]|done]. }
  destruct (is_match (re_match YEAR_RE date)); by intros [= ->].
Qed.

Lemma literal_value_truthy (text : str) : literal_value text → truthy (strip text) = true.
Proof.
  intros Hl. pose proof (literal_value_ok _ Hl) as [_ Hh]. destruct Hl as (Hne & _).
  destruct text as [|c t]; [done|].
  destruct (strip (c :: t)) eqn:E; [|done].
  apply strip_nonempty in E; [done|]. by eapply Hh.
Qed.

(** A line whose value a branch replaces with a fixed text. *)
Lemma fixed_text_line (d : Decomposed) (text : str) :
  fields_ok d → literal_value text →
  (∀ value self, dispatch (Some (level d)) (base_of d) (tag d) value self
                 = fixed_text (base_of d) value text self) →
  ∃ out,
    (∀ self, dispatch (Some (level d)) (base_of d) (tag d) (value d) self
             = Return out self) ∧
    ∀ self' n', anonymize_line out n' self' = Return out self'.
Proof.
  intros Hok Hl Hd. destruct (truthy (strip (value d))) eqn:Hs.
  - exists (base_of d ++ py " " ++ text). split.
    + intros self. rewrite Hd. unfold fixed_text. by rewrite Hs.
    + intros self' n'.
      pose proof (fields_ok_with_value d text Hok (literal_value_ok _ Hl)) as Hok'.
      destruct (anonymize_line_rebuilt (with_value d text) n' self' Hok') as [H1 _].
      change (base_of (with_value d text)) with (base_of d) in H1.
      cbn [with_value level tag value] in H1. rewrite H1, Hd.
      unfold fixed_text. by rewrite literal_value_truthy.
  - exists (base_of d). split.
    + intros self. rewrite Hd. unfold fixed_text. by rewrite Hs.
    + intros self' n'. destruct (value d) as [|c v] eqn:Ev.
      * destruct (anonymize_line_rebuilt d n' self' Hok) as [_ H2].
        rewrite (H2 Ev), Hd. done.
      * destruct Hok as (_ & _ & _ & _ & _ & _ & Hh). rewrite Ev in Hh.
        destruct (strip (c :: v)) eqn:E; [|done].
        apply strip_nonempty in E; [done|]. by eapply Hh.
Qed.

Lemma anonymize_line_idempotent (line : str) (n : nat) self d :
  decompose (strip_bom line) = Some d →
  tag d ≠ py "NAME" → (tag d = py "PLAC" → keep_places self = true) →
  ∃ out,
    anonymize_line line n self = Return out self ∧
    ∀ self' n',
      keep_dates self' = keep_dates self → keep_places self' = keep_places self →
      anonymize_line out n' self' = Return out self'.
Proof.
  intros E Hname Hplac. pose proof (decompose_fields_ok _ _ E) as Hok.
  rewrite (anonymize_line_Some _ _ _ _ E).
  assert (literal_value (py "[anonymized text]")) as Lt
    by (apply literal_by_compute; vm_compute; reflexivity).
  assert (literal_value (py "[anonymized]")) as La
    by (apply literal_by_compute; vm_compute; reflexivity).
  destruct (decide (tag d = py "PLAC")) as [Hp|Hp].
  { specialize (Hplac Hp). rewrite Hp, dispatch_PLAC. unfold mbind, M_bind.
    rewrite anonymize_place_keep by done. eexists. split; [done|].
    intros self' n' _ Kp. destruct (anonymize_line_rebuilt d n' self' Hok) as [-> _].
    rewrite Hp, dispatch_PLAC. unfold mbind, M_bind.
    rewrite anonymize_place_keep by congruence. done. }
  destruct (decide (tag d = py "DATE")) as [Hd|Hd].
  { rewrite Hd, dispatch_DATE. unfold mbind, M_bind.
    destruct (anonymize_date_range (value d) self) as (v & Ev & Hv). rewrite Ev.
    eexists. split; [done|]. intros self' n' Kd _.
    assert (value_ok v) as Hvo.
    { destruct Hv as [->|Hv]; [by apply (decompose_value_ok (strip_bom line))|].
      by apply literal_value_ok, DATE_RESULTS_literal. }
    pose proof (fields_ok_with_value d v Hok Hvo) as Hok'.
    destruct (anonymize_line_rebuilt (with_value d v) n' self' Hok') as [H1 _].
    change (base_of (with_value d v)) with (base_of d) in H1.
    cbn [with_value level tag value] in H1. rewrite H1, Hd, dispatch_DATE.
    unfold mbind, M_bind.
    assert (anonymize_date v self' = Return v self') as ->; [|done].
    destruct Hv as [->|Hv]; [|by apply anonymize_date_fixed].
    by apply (anonymize_date_flag _ _ self). }
  destruct (decide (tag d ∈ TEXT_TAGS)) as [Ht|Ht].
  { destruct (fixed_text_line d (py "[anonymized text]") Hok Lt) as (out & H1 & H2).
    { intros value0 self0. by apply dispatch_TEXT. }
    exists out. split; [by apply H1|]. intros self' n' _ _. by apply H2. }
  destruct (decide (tag d ∈ REDACTED_TAGS)) as [Hr|Hr].
  { destruct (fixed_text_line d (py "[anonymized]") Hok La) as (out & H1 & H2).
    { intros value0 self0. by apply dispatch_REDACTED. }
    exists out. split; [by apply H1|]. intros self' n' _ _. by apply H2. }
  destruct (decide (tag d = py "TITL" ∧ level d = py "1")) as [[Ht1 Hl1]|Ht1].
  { destruct (fixed_text_line d (py "[anonymized]") Hok La) as (out & H1 & H2).
    { intros value0 self0. rewrite Ht1, Hl1. by apply dispatch_TITL_1. }
    exists out. split; [by apply H1|]. intros self' n' _ _. by apply H2. }
  assert (tag d ∉ NAMED_TAGS) as Hn.
  { unfold NAMED_TAGS. rewrite !elem_of_app, !elem_of_cons, elem_of_nil. tauto. }
  assert (¬ (tag d = py "TITL" ∧ Some (level d) = Some (py "1"))) as Ht'.
  { intros [? [= ?]]. tauto. }
  rewrite dispatch_other by done. eexists. split; [done|]. intros self' n' _ _.
  destruct (anonymize_line_rebuilt d n' self' Hok) as [H1 H2].
  destruct (value d) as [|c v] eqn:Ev; cbn [truthy].
  - rewrite app_nil_r, (H2 eq_refl), dispatch_other by done. cbn [truthy].
    by rewrite app_nil_r.
  - rewrite H1, dispatch_other by done. done.
Qed.

(** ** A second run over the output of a first *)

Lemma decomposed_not_blank (l : str) d : decompose l = Some d → truthy (strip l) = true.
Proof.
  intros (w1 & tail & -> & Hne & Hl & _)%decompose_shape.
  destruct (level d) as [|c lv]; [done|]. apply all_cons in Hl as [Hc _].
  cbn [app]. destruct (strip (c :: lv ++ _)) eqn:E; [|done].
  apply strip_nonempty in E; [done|].
  destruct (isspace c) eqn:Es; [|done]. apply space_not_decimal in Es. congruence.
Qed.

Lemma strip_bom_twice (l : str) :
  (∀ rest, l ≠ BOM :: BOM :: rest) → strip_bom (strip_bom l) = strip_bom l.
Proof.
  intros H. destruct l as [|a l]; [done|].
  assert (strip_bom (a :: l) = if (a =? BOM)%N then l else a :: l) as -> by done.
  destruct (a =? BOM)%N eqn:Ea.
  - apply N.eqb_eq in Ea as ->. destruct l as [|b l]; [done|].
    assert (strip_bom (b :: l) = if (b =? BOM)%N then l else b :: l) as -> by done.
    destruct (b =? BOM)%N eqn:Eb; [|done].
    apply N.eqb_eq in Eb as ->. by destruct (H l).
  - unfold strip_bom, startswith. by rewrite Ea.
Qed.

Lemma replayed_init (kind : str) : replayed kind ∅ 1.
Proof.
  intros v p. rewrite lookup_empty. split; [done|]. intros (k & Hk & _). lia.
Qed.

Lemma replays_init (kd kp : bool) : replays (init kd kp) (init kd kp).
Proof. unfold replays. cbn. split_and!; try done; apply replayed_init. Qed.

Lemma replay_resolve (kind : str) seen m1 c m2 (v p : str) m1' c' :
  numbered kind seen m1 c → replayed kind m2 c → resolve kind m1 c v = (p, m1', c') →
  ∃ m2', resolve kind m2 c p = (p, m2', c') ∧ replayed kind m2' c' ∧
         ∃ k, p = placeholder kind k.
Proof.
  intros Hnum Hrep. unfold resolve at 1.
  destruct (m1 !! v) as [p0|] eqn:E; intros [= <- <- <-].
  - destruct Hnum as (Hc & _ & _ & Hm). apply Hm in E as (n & Hn & ->).
    apply lookup_lt_Some in Hn.
    assert (m2 !! placeholder kind (S n) = Some (placeholder kind (S n))) as H2.
    { apply Hrep. exists (S n). split; [lia|done]. }
    exists m2. unfold resolve. rewrite H2. eauto.
  - exists (<[placeholder kind c := placeholder kind c]> m2).
    assert (m2 !! placeholder kind c = None) as Hn.
    { destruct (m2 !! placeholder kind c) eqn:E2; [|done].
      apply Hrep in E2 as (k & Hk & Ek & _). apply placeholder_inj in Ek. lia. }
    unfold resolve. rewrite Hn. split; [done|]. split; [|eauto].
    intros w q. destruct (decide (w = placeholder kind c)) as [->|Hw].
    + rewrite lookup_insert_eq. split.
      * intros [= <-]. exists c. destruct Hnum as (-> & _). split; [lia|done].
      * intros (k & _ & _ & ->). done.
    + rewrite lookup_insert_ne by done. rewrite (Hrep w q). split.
      * intros (k & Hk & -> & ->). exists k. split; [lia|done].
      * intros (k & Hk & -> & ->). exists k. split; [|done].
        assert (k ≠ c) by (intros ->; done). lia.
Qed.

Lemma replay_body (l : str) (i : nat) s1 s2 :
  engine_inv s1 → replays s1 s2 → (∀ rest, l ≠ BOM :: BOM :: rest) →
  ∃ o s1' s2',
    loop_body l i s1 = Return o s1' ∧ loop_body o i s2 = Return o s2' ∧
    engine_inv s1' ∧ replays s1' s2'.
Proof.
  intros Hinv Hrep Hbom. unfold loop_body at 1.
  destruct (truthy (strip l)) eqn:Hb.
  2: { exists l, s1, s2. unfold loop_body. rewrite Hb. done. }
  pose proof (engine_inv_step l i s1 Hinv) as [Hinv' _].
  destruct Hrep as (Kd & Kp & Cn & Cp & Rn & Rp).
  destruct (decompose (strip_bom l)) as [d|] eqn:E.
  - pose proof (decompose_fields_ok _ _ E) as Hok.
    destruct (decide (tag d = py "NAME")) as [Hn|Hn].
    { rewrite (anonymize_line_Some _ _ _ _ E), Hn, dispatch_NAME in Hinv' |- *.
      unfold mbind, M_bind in Hinv' |- *. rewrite anonymize_name_resolve in Hinv' |- *.
      destruct (resolve _ _ _ _) as [[p m] c] eqn:R. cbn [state_of] in Hinv'.
      destruct Hinv as [(seen & Hnum) _].
      destruct (replay_resolve _ _ _ _ _ _ _ _ _ Hnum Rn R) as (m2' & R2 & Rn' & k & ->).
      assert (fields_ok (with_value d (placeholder (py "Person ") k))) as Hok'.
      { apply fields_ok_with_value; [done|]. apply literal_value_ok, placeholder_literal.
        apply literal_by_compute. vm_compute. reflexivity. }
      destruct (decompose_rebuilt _ Hok') as [Hd' _].
      destruct (anonymize_line_rebuilt _ i s2 Hok') as [H1 _].
      change (base_of (with_value d (placeholder (py "Person ") k))) with (base_of d)
        in H1, Hd'.
      cbn [with_value level tag value] in H1, Hd'.
      eexists _, _, (with_names m2' c s2). split; [done|].
      unfold loop_body. rewrite (decomposed_not_blank _ _ Hd').
      rewrite H1, Hn, dispatch_NAME. unfold mbind, M_bind.
      rewrite anonymize_name_resolve, Cn, R2. split; [done|]. split; [done|].
      unfold replays. cbn. done. }
    destruct (decide (tag d = py "PLAC" ∧ keep_places s1 = false)) as [[Hp Hk]|Hp].
    { rewrite (anonymize_line_Some _ _ _ _ E), Hp, dispatch_PLAC in Hinv' |- *.
      unfold mbind, M_bind in Hinv' |- *.
      rewrite anonymize_place_resolve in Hinv' |- * by done.
      destruct (resolve _ _ _ _) as [[p m] c] eqn:R. cbn [state_of] in Hinv'.
      destruct Hinv as [_ (seen & Hnum)].
      destruct (replay_resolve _ _ _ _ _ _ _ _ _ Hnum Rp R) as (m2' & R2 & Rp' & k & ->).
      assert (fields_ok (with_value d (placeholder (py "Place ") k))) as Hok'.
      { apply fields_ok_with_value; [done|]. apply literal_value_ok, placeholder_literal.
        apply literal_by_compute. vm_compute. reflexivity. }
      destruct (decompose_rebuilt _ Hok') as [Hd' _].
      destruct (anonymize_line_rebuilt _ i s2 Hok') as [H1 _].
      change (base_of (with_value d (placeholder (py "Place ") k))) with (base_of d)
        in H1, Hd'.
      cbn [with_value level tag value] in H1, Hd'.
      eexists _, _, (with_places m2' c s2). split; [done|].
      unfold loop_body. rewrite (decomposed_not_blank _ _ Hd').
      rewrite H1, Hp, dispatch_PLAC. unfold mbind, M_bind.
      rewrite anonymize_place_resolve by congruence. rewrite Cp, R2.
      split; [done|]. split; [done|]. unfold replays. cbn. done. }
    destruct (anonymize_line_idempotent l i s1 d E Hn) as (out & E1 & E2).
    { intros Ht. destruct (keep_places s1) eqn:K; [done|]. destruct Hp. done. }
    rewrite E1 in Hinv' |- *. cbn [state_of] in Hinv'.
    exists out, s1, s2. split; [done|]. split; [|done].
    unfold loop_body. destruct (truthy (strip out)); [|done]. by apply E2.
  - rewrite (anonymize_line_None _ _ _ E) in Hinv' |- *. cbn [state_of] in Hinv'.
    destruct (truthy (strip (strip_bom l))) eqn:Hb'.
    + eexists _, _, _. split; [done|]. unfold loop_body. rewrite Hb'.
      rewrite anonymize_line_None by (by rewrite strip_bom_twice).
      rewrite strip_bom_twice by done. split; [done|]. split; [done|].
      rewrite Hb'. destruct (i <? 5)%nat; cbn [andb]; unfold replays; cbn; done.
    + rewrite andb_false_r in Hinv' |- *. exists (strip_bom l), s1, s2.
      split; [done|]. unfold loop_body. rewrite Hb'. split; [done|].
      split; [done|]. unfold replays. done.
Qed.

Lemma replay_lines (lines : list str) (i : nat) s1 s2 :
  engine_inv s1 → replays s1 s2 → Forall one_line lines →
  Forall (λ raw, ∀ rest, content raw ≠ BOM :: BOM :: rest) lines →
  ∃ out s1' s2',
    anonymize_lines i lines s1 = Return out s1' ∧
    anonymize_lines i (written <$> out) s2 = Return out s2' ∧
    replays s1' s2'.
Proof.
  revert i s1 s2. induction lines as [|raw lines IH]; intros i s1 s2 Hinv Hrep Hl Hb.
  - exists [], s1, s2. done.
  - apply Forall_cons in Hl as [Hraw Hl]. apply Forall_cons in Hb as [Hbom Hb].
    destruct (replay_body (content raw) i s1 s2 Hinv Hrep Hbom)
      as (o & s1' & s2' & E1 & E2 & Hinv' & Hrep').
    destruct (IH (S i) s1' s2' Hinv' Hrep' Hl Hb) as (os & s1'' & s2'' & F1 & F2 & Hr).
    exists (o :: os), s1'', s2''.
    assert (∀ c, c ∈ o → is_newline c = false) as Hnl.
    { pose proof (content_one_line raw Hraw) as Hc. unfold loop_body in E1.
      destruct (truthy (strip (content raw))).
      - destruct (anonymize_line_chars (content raw) i s1 Hinv) as (o' & s' & E' & Ho).
        rewrite E' in E1. injection E1 as -> _. intros c Hco.
        destruct (Ho c Hco) as [H|H]; [by apply Hc|by apply printable_not_newline].
      - injection E1 as <- _. done. }
    split_and!; [|  |done].
    + rewrite anonymize_lines_cons. unfold loop_body in E1. rewrite E1, F1. done.
    + rewrite fmap_cons, anonymize_lines_cons, (content_written o Hnl).
      unfold loop_body in E2. rewrite E2, F2. done.
Qed.

(** ** The structure of the document *)

Lemma anonymize_line_structure (line : str) (n : nat) self d :
  engine_inv self → decompose (strip_bom line) = Some d →
  ∃ out self' v,
    anonymize_line line n self = Return out self' ∧
    decompose out = Some (MkDecomposed (level d) (xref d) (tag d) v) ∧
    (tag d ∉ NAMED_TAGS → ¬ (tag d = py "TITL" ∧ level d = py "1") → v = value d).
Proof.
  intros Hinv E. pose proof (decompose_fields_ok _ _ E) as Hok0.
  destruct (decide (tag d ∈ NAMED_TAGS ∨ (tag d = py "TITL" ∧ level d = py "1")))
    as [Hin|Hout].
  - destruct (anonymize_line_form line n _ d Hinv E) as (v & self' & -> & Hv).
    apply (anonymize_line_form_ok line d v E) in Hv.
    pose proof (fields_ok_with_value d v Hok0 Hv) as Hok.
    destruct (decompose_rebuilt _ Hok) as [H1 H2].
    change (base_of (with_value d v)) with (base_of d) in H1, H2.
    cbn [with_value value] in H1, H2.
    eexists _, self', v. split; [reflexivity|]. split; [|tauto].
    destruct (decide (v = [])) as [->|]; [|exact H1].
    destruct (bool_decide _); [exact H1|]. rewrite app_nil_r. by apply H2.
  - assert (tag d ∉ NAMED_TAGS) as Hn by tauto.
    assert (¬ (tag d = py "TITL" ∧ Some (level d) = Some (py "1"))) as Ht.
    { intros [? [= ?]]. tauto. }
    rewrite (anonymize_line_Some _ _ _ _ E), dispatch_other by done.
    eexists _, self, (value d). split; [reflexivity|]. split; [|done].
    destruct (decompose_rebuilt _ Hok0) as [H1 H2].
    assert (MkDecomposed (level d) (xref d) (tag d) (value d) = d) as -> by by destruct d.
    destruct (value d) as [|c v] eqn:Ev; [|exact H1]. cbn [truthy].
    rewrite app_nil_r. by apply H2.
Qed.

(** Every line of the document is handled in a state that keeps the
    invariant of the identity maps. *)
Lemma anonymize_lines_lookup (lines : list str) (i : nat) self out self' :
  engine_inv self → anonymize_lines i lines self = Return out self' →
  ∀ j raw, lines !! j = Some raw →
    ∃ s o s', engine_inv s ∧ loop_body (content raw) (i + j) s = Return o s' ∧
              out !! j = Some o.
Proof.
  revert i self out. induction lines as [|raw0 lines IH]; intros i self out Hinv Hrun j raw Hj.
  - by destruct j.
  - rewrite anonymize_lines_cons in Hrun.
    change ((if truthy (strip (content raw0)) then anonymize_line (content raw0) i
             else mret (content raw0)) self)
      with (loop_body (content raw0) i self) in Hrun.
    destruct (loop_body (content raw0) i self) as [o self1|] eqn:E1; [|done].
    destruct (anonymize_lines (S i) lines self1) as [os self2|] eqn:E2; [|done].
    injection Hrun as <- <-. destruct j as [|j].
    + injection Hj as <-. exists self, o, self1. rewrite Nat.add_0_r. done.
    + assert (engine_inv self1) as Hinv1.
      { unfold loop_body in E1. destruct (truthy (strip (content raw0))).
        - pose proof (engine_inv_step (content raw0) i self Hinv) as [H1 _].
          by rewrite E1 in H1.
        - by injection E1 as _ <-. }
      destruct (IH (S i) self1 os Hinv1 E2 j raw Hj) as (s & o' & s' & Hs & Ho & Hl).
      exists s, o', s'. replace (i + S j)%nat with (S i + j)%nat by lia. done.
Qed.

(** * Further properties of the code *)

(** X1: a line that matches the line pattern is, in this order, its level
    (one or more decimal digits), whitespace, its cross-reference if it has one
    (an at-sign, one or more characters other than the at-sign, an at-sign,
    whitespace), its tag (one or more word characters) and then nothing, or
    whitespace and its value; a single newline may end the line. The value
    has no newline and, the whitespace before it being taken greedily, does
    not start with whitespace. *)
Theorem X1_decomposed_line_shape (line : str) (d : Decomposed) :
  decompose line = Some d →
  ∃ w1 tail,
    line = level d ++ w1 ++ default [] (xref d) ++ tag d ++ tail ∧
    level d ≠ [] ∧ all isdecimal (level d) ∧
    w1 ≠ [] ∧ all isspace w1 ∧
    (xref d = None ∨
     ∃ x w, xref d = Some (AT :: x ++ AT :: w) ∧
            x ≠ [] ∧ all not_at x ∧ w ≠ [] ∧ all isspace w) ∧
    tag d ≠ [] ∧ all isword (tag d) ∧
    ((value d = [] ∧ (tail = [] ∨ tail = [LF])) ∨
     ∃ w2, w2 ≠ [] ∧ all isspace w2 ∧
           (tail = w2 ++ value d ∨ tail = w2 ++ value d ++ [LF])) ∧
    all dot (value d) ∧
    (∀ c v, value d = c :: v → isspace c = false).
Proof.
  intros H. pose proof (decompose_value_ok _ _ H) as [Hd Hg].
  apply decompose_shape in H as (w1 & tail & E & ? & ? & ? & ? & ? & ? & ? & Hv).
  exists w1, tail. split_and!; try done.
  destruct Hv as [?|(w2 & ? & ? & _ & ?)]; [by left|right]. by exists w2.
Qed.

Lemma X1_decomposed_line_shape_witness :
  decompose (py "0 @I1@  INDI") = Some (MkDecomposed (py "0") (Some (py "@I1@  ")) (py "INDI") []) ∧
  ∃ w1 tail, py "0 @I1@  INDI" = py "0" ++ w1 ++ py "@I1@  " ++ py "INDI" ++ tail ∧
             all isspace w1.
Proof.
  assert (decompose (py "0 @I1@  INDI")
          = Some (MkDecomposed (py "0") (Some (py "@I1@  ")) (py "INDI") [])) as H.
  { vm_compute. reflexivity. }
  split; [exact H|].
  destruct (X1_decomposed_line_shape _ _ H) as (w1 & tail & E & _ & _ & _ & A & _).
  exists w1, tail. split; [exact E|exact A].
Defined.

(** X2: rebuilding a well-formed line from its fields, with one space
    before the cross-reference or tag and one space before the value, gives a
    line that decomposes into the same fields; so does the rebuilt line
    without a value when the value is empty. *)
Theorem X2_rebuilt_line_round_trip (line : str) (d : Decomposed) :
  decompose line = Some d →
  decompose (base_of d ++ py " " ++ value d) = Some d ∧
  (value d = [] → decompose (base_of d) = Some d).
Proof. intros H%decompose_fields_ok. by apply decompose_rebuilt. Qed.

Lemma X2_rebuilt_line_round_trip_witness :
  decompose (py "2   PLAC 	 Boston, Massachusetts ")
    = Some (MkDecomposed (py "2") None (py "PLAC") (py "Boston, Massachusetts ")) ∧
  decompose (py "2 PLAC Boston, Massachusetts ")
    = Some (MkDecomposed (py "2") None (py "PLAC") (py "Boston, Massachusetts ")).
Proof.
  assert (decompose (py "2   PLAC 	 Boston, Massachusetts ")
    = Some (MkDecomposed (py "2") None (py "PLAC") (py "Boston, Massachusetts "))) as H.
  { vm_compute. reflexivity. }
  split; [exact H|]. exact (proj1 (X2_rebuilt_line_round_trip _ _ H)).
Defined.

(** X3: in every state a fresh engine can reach, the line returned for a
    well-formed line is again well-formed and has the same level,
    cross-reference and tag; only the value may differ. *)
Theorem X3_output_line_keeps_structure (kd kp : bool) (calls : list (str * nat))
    (line : str) (n : nat) (d : Decomposed) :
  decompose (strip_bom line) = Some d →
  ∃ out self' v,
    anonymize_line line n (after_calls calls (init kd kp)) = Return out self' ∧
    decompose out = Some (MkDecomposed (level d) (xref d) (tag d) v).
Proof.
  intros E.
  destruct (anonymize_line_form line n _ d (engine_inv_after_calls kd kp calls) E)
    as (v & self' & -> & Hv).
  apply (anonymize_line_form_ok line d v E) in Hv.
  pose proof (fields_ok_with_value d v (decompose_fields_ok _ _ E) Hv) as Hok.
  destruct (decompose_rebuilt _ Hok) as [H1 H2].
  change (base_of (with_value d v)) with (base_of d) in H1, H2.
  cbn [with_value value] in H1, H2.
  eexists _, self', v. split; [reflexivity|].
  destruct (decide (v = [])) as [->|]; [|exact H1].
  destruct (bool_decide _); [exact H1|]. rewrite app_nil_r. by apply H2.
Qed.

Lemma X3_output_line_keeps_structure_witness :
  decompose (strip_bom (py "1 @N1@ NOTE  born at sea"))
    = Some (MkDecomposed (py "1") (Some (py "@N1@ ")) (py "NOTE") (py "born at sea")) ∧
  ∃ out self' v,
    anonymize_line (py "1 @N1@ NOTE  born at sea") 0 (after_calls [] (init false false))
      = Return out self' ∧
    decompose out = Some (MkDecomposed (py "1") (Some (py "@N1@ ")) (py "NOTE") v).
Proof.
  assert (decompose (strip_bom (py "1 @N1@ NOTE  born at sea"))
    = Some (MkDecomposed (py "1") (Some (py "@N1@ ")) (py "NOTE") (py "born at sea")))
    as H.
  { vm_compute. reflexivity. }
  split; [exact H|].
  exact (X3_output_line_keeps_structure false false [] _ 0 _ H).
Defined.

(** X4: on a well-formed NOTE, TEXT, CONT or CONC line with a value the
    value is replaced by "[anonymized text]", and on a well-formed name-part,
    address or contact line by "[anonymized]"; without a value the line is the
    rebuilt start alone. Nothing of the value but its presence reaches the
    output, and the state is left as it was. *)
Theorem X4_free_text_is_replaced (self : Anonymizer) (line : str) (n : nat)
    (d : Decomposed) :
  decompose (strip_bom line) = Some d →
  (tag d ∈ TEXT_TAGS →
   anonymize_line line n self
   = Return (base_of d ++ (if truthy (value d) then py " [anonymized text]" else [])) self) ∧
  (tag d ∈ REDACTED_TAGS →
   anonymize_line line n self
   = Return (base_of d ++ (if truthy (value d) then py " [anonymized]" else [])) self).
Proof.
  intros E. rewrite (anonymize_line_Some _ _ _ _ E).
  pose proof (truthy_strip_value _ _ E) as Hs. split; intros Ht.
  - rewrite dispatch_TEXT by done. unfold fixed_text. rewrite Hs. unfold_M.
    destruct (truthy (value d)); [done|]. by rewrite app_nil_r.
  - rewrite dispatch_REDACTED by done. unfold fixed_text. rewrite Hs. unfold_M.
    destruct (truthy (value d)); [done|]. by rewrite app_nil_r.
Qed.

Lemma X4_free_text_is_replaced_witness :
  decompose (strip_bom (py "2 EMAIL john@example.org"))
    = Some (MkDecomposed (py "2") None (py "EMAIL") (py "john@example.org")) ∧
  py "EMAIL" ∈ REDACTED_TAGS ∧
  anonymize_line (py "2 EMAIL john@example.org") 7 (init false false)
    = Return (py "2 EMAIL [anonymized]") (init false false).
Proof.
  assert (decompose (strip_bom (py "2 EMAIL john@example.org"))
    = Some (MkDecomposed (py "2") None (py "EMAIL") (py "john@example.org"))) as H.
  { vm_compute. reflexivity. }
  assert (py "EMAIL" ∈ REDACTED_TAGS) as Ht.
  { apply (bool_decide_eq_true_1 _). vm_compute. reflexivity. }
  split_and!; [exact H|exact Ht|].
  exact (proj2 (X4_free_text_is_replaced (init false false) _ 7 _ H) Ht).
Defined.

(** X5: a well-formed line whose tag the dispatch does not name (and a TITL
    line whose level is not "1") is returned with its value as it was, each
    run of separating whitespace replaced by one space and a closing newline
    dropped; the state is left as it was, and the returned line decomposes
    into the same fields, so that it is returned unchanged when given again. *)
Theorem X5_other_tags_pass_through (self : Anonymizer) (line : str) (n : nat)
    (d : Decomposed) :
  decompose (strip_bom line) = Some d →
  tag d ∉ NAMED_TAGS → ¬ (tag d = py "TITL" ∧ level d = py "1") →
  ∃ out,
    out = base_of d ++ (if truthy (value d) then py " " ++ value d else []) ∧
    anonymize_line line n self = Return out self ∧
    decompose out = Some d ∧
    ∀ self' n', anonymize_line out n' self' = Return out self'.
Proof.
  intros E Hn Ht. eexists. split; [reflexivity|].
  assert (¬ (tag d = py "TITL" ∧ Some (level d) = Some (py "1"))) as Ht'.
  { intros [? [= ?]]. tauto. }
  pose proof (decompose_fields_ok _ _ E) as Hok.
  assert (decompose (base_of d ++ (if truthy (value d) then py " " ++ value d else []))
          = Some d) as Hd.
  { destruct (decompose_rebuilt _ Hok) as [H1 H2].
    destruct (value d) as [|c v] eqn:Ev; [|exact H1]. cbn [truthy].
    rewrite app_nil_r. by apply H2. }
  split_and!.
  - rewrite (anonymize_line_Some _ _ _ _ E). by apply dispatch_other.
  - exact Hd.
  - intros self' n'.
    rewrite (anonymize_line_Some _ _ _ d); [by apply dispatch_other|].
    by rewrite strip_bom_digit_line.
Qed.

Lemma X5_other_tags_pass_through_witness :
  decompose (strip_bom (py "1   FAMS   @F1@"))
    = Some (MkDecomposed (py "1") None (py "FAMS") (py "@F1@")) ∧
  anonymize_line (py "1   FAMS   @F1@") 0 (init false false)
    = Return (py "1 FAMS @F1@") (init false false) ∧
  anonymize_line (py "1 FAMS @F1@") 0 (init false false)
    = Return (py "1 FAMS @F1@") (init false false).
Proof.
  assert (decompose (strip_bom (py "1   FAMS   @F1@"))
    = Some (MkDecomposed (py "1") None (py "FAMS") (py "@F1@"))) as H.
  { vm_compute. reflexivity. }
  assert (py "FAMS" ∉ NAMED_TAGS) as Hn.
  { apply (bool_decide_eq_false_1 _). vm_compute. reflexivity. }
  assert (¬ (py "FAMS" = py "TITL" ∧ py "1" = py "1")) as Ht.
  { intros [E%py_inj _]. discriminate E. }
  destruct (X5_other_tags_pass_through (init false false) _ 0 _ H Hn Ht)
    as (out & -> & H1 & _ & H2).
  split_and!; [exact H|exact H1|exact (H2 (init false false) 0%nat)].
Defined.

(** X6: [anonymize_date] never raises and leaves the engine as it is; what
    it returns is the date itself or, when dates are not kept, one of the seven
    fixed values "1 JAN 1900", "1900", "ABT 1900", "BEF 1900", "AFT 1900",
    "CAL 1900" and "EST 1900"; and the returned value is a fixed point: the
    method returns it unchanged when it is given it again. *)
Theorem X6_date_replacement_is_idempotent (self : Anonymizer) (date : str) :
  ∃ v,
    anonymize_date date self = Return v self ∧
    anonymize_date v self = Return v self ∧
    (v = date ∨ (keep_dates self = false ∧ v ∈ DATE_RESULTS)).
Proof.
  destruct (keep_dates self) eqn:K.
  { exists date. rewrite anonymize_date_keep by done. split_and!; [done|done|by left]. }
  destruct (anonymize_date_range date self) as (v & E & [->|Hv]).
  - exists date. split_and!; [done|done|by left].
  - exists v. split_and!; [done|by apply anonymize_date_fixed|by right].
Qed.

(** X7: in any state, [anonymize_name] returns without raising; afterwards
    the name map holds the returned placeholder under the name, a second call
    with the same name returns the same placeholder and changes nothing, and
    the entries of all other names are as before. A name that was mapped
    already keeps its placeholder and the engine is unchanged; a new name gets
    "Person " and the current counter, which is then one larger. The place map
    and its counter are never touched. *)
Theorem X7_name_lookup_after_insert (self : Anonymizer) (name : str) :
  ∃ p self',
    anonymize_name name self = Return p self' ∧
    name_map self' !! name = Some p ∧
    anonymize_name name self' = Return p self' ∧
    (∀ other, other ≠ name → name_map self' !! other = name_map self !! other) ∧
    (∀ q, name_map self !! name = Some q → p = q ∧ self' = self) ∧
    (name_map self !! name = None →
     p = py "Person " ++ str_of_int (person_counter self) ∧
     person_counter self' = S (person_counter self)) ∧
    place_map self' = place_map self ∧ place_counter self' = place_counter self ∧
    printed self' = printed self.
Proof.
  rewrite anonymize_name_resolve.
  destruct (resolve _ _ _ _) as [[p m] c] eqn:R.
  exists p, (with_names m c self).
  destruct (resolve_lookup _ _ _ _ _ _ _ R) as (Hl & Hr & _ & Ho).
  split_and!; try done.
  - rewrite anonymize_name_resolve. cbn [name_map person_counter with_names].
    rewrite Hr. done.
  - intros q Hq. unfold resolve in R. rewrite Hq in R. injection R as <- <- <-.
    split; [done|]. by apply with_names_id.
  - intros Hn. unfold resolve in R. rewrite Hn in R. by injection R as <- <- <-.
Qed.

(** X8: the identity maps only grow. Whatever lines are anonymized
    afterwards, a name (a place) that has a placeholder keeps that
    placeholder: no entry is ever overwritten or removed. *)
Theorem X8_map_entries_persist (self : Anonymizer) (calls : list (str * nat))
    (v p : str) :
  (name_map self !! v = Some p → name_map (after_calls calls self) !! v = Some p) ∧
  (place_map self !! v = Some p → place_map (after_calls calls self) !! v = Some p).
Proof.
  split; intros H.
  - apply (after_calls_ind (λ s, name_map s !! v = Some p)); [done|].
    intros s line n Hs. by apply anonymize_line_maps_grow.
  - apply (after_calls_ind (λ s, place_map s !! v = Some p)); [done|].
    intros s line n Hs. by apply anonymize_line_maps_grow.
Qed.

(** X9: a run over a document prints at most five warnings, whatever its
    length. A warning with number [k] is printed exactly when [k] is at most
    five and line [k] of the document (counted from one) is, without its line
    ending and a leading byte-order mark, not blank and not matched by the line
    pattern; its preview is the first fifty characters of that line. *)
Theorem X9_warnings_only_for_first_five_lines (self : Anonymizer) (lines : list str) :
  ∃ msgs,
    printed (state_of (anonymize_file lines self)) = printed self ++ msgs ∧
    (length msgs ≤ 5)%nat ∧
    ∀ k pre,
      Warning k pre ∈ msgs ↔
      ∃ raw, (1 ≤ k ≤ 5)%nat ∧ lines !! (k - 1)%nat = Some raw ∧
             decompose (strip_bom (content raw)) = None ∧
             is_blank (strip_bom (content raw)) = false ∧
             pre = take 50 (strip_bom (content raw)) ∧ (length pre ≤ 50)%nat.
Proof.
  exists (omap id (imap (λ k raw, warning_for (0 + k) raw) lines)). split_and!.
  - apply anonymize_lines_printed.
  - pose proof (warnings_length lines 0). lia.
  - intros k pre. rewrite list_elem_of_omap. split.
    + intros (o & Ho & Eo). unfold id in Eo. subst o.
      apply elem_of_lookup_imap in Ho as (j & raw & Hw & Hj).
      unfold warning_for in Hw. rewrite !Nat.add_0_l in Hw.
      destruct (j <? 5)%nat eqn:H5; [|done]. apply Nat.ltb_lt in H5.
      destruct (truthy (strip (strip_bom (content raw)))) eqn:Hb; [|done].
      cbn [andb] in Hw. case_bool_decide as Hd; [|done].
      injection Hw as -> ->. exists raw.
      replace (j + 1 - 1)%nat with j by lia. unfold is_blank. rewrite Hb.
      split_and!; try done; try lia. rewrite length_take. lia.
    + intros (raw & Hk & Hj & Hd & Hb & -> & _).
      exists (Some (Warning k (take 50 (strip_bom (content raw))))). split; [|done].
      apply elem_of_lookup_imap. exists (k - 1)%nat, raw. split; [|done].
      unfold warning_for. rewrite !Nat.add_0_l. unfold is_blank in Hb.
      apply negb_false_iff in Hb. rewrite Hb.
      rewrite bool_decide_eq_true_2 by done.
      assert ((k - 1 <? 5)%nat = true) as -> by (apply Nat.ltb_lt; lia).
      cbn [andb]. do 3 f_equal. lia.
Qed.

(** X10: the counts of the closing summary. After a run from a fresh
    engine the names in the name map are exactly the values of the NAME lines of
    the document, so the number of "unique names anonymized" is the number of
    distinct NAME values, and the person counter is one more; the same holds for
    the place map and the PLAC lines when places are not kept, and the place map
    is empty when they are kept. Neither count exceeds the number of lines. *)
Theorem X10_summary_counts (kd kp : bool) (lines : list str) :
  let self' := state_of (anonymize_file lines (init kd kp)) in
  dom (name_map self') = (list_to_set (tag_values (py "NAME") lines) : gset str) ∧
  size (name_map self') = size (list_to_set (tag_values (py "NAME") lines) : gset str) ∧
  person_counter self' = S (size (name_map self')) ∧
  dom (place_map self')
    = (if kp then ∅ else list_to_set (tag_values (py "PLAC") lines) : gset str) ∧
  size (place_map self')
    = (if kp then 0%nat
       else size (list_to_set (tag_values (py "PLAC") lines) : gset str)) ∧
  place_counter self' = S (size (place_map self')) ∧
  (size (name_map self') ≤ length lines)%nat ∧
  (size (place_map self') ≤ length lines)%nat.
Proof.
  intros self'. subst self'. unfold anonymize_file.
  destruct (anonymize_lines_total lines 0 (init kd kp)) as (out & self' & E & _).
  rewrite E. cbn [state_of].
  assert (∀ tg, (length (tag_values tg lines) ≤ length lines)%nat) as Hlen.
  { intros tg. apply tag_values_length. }
  assert (∀ vs : list str, (size (list_to_set vs : gset str) ≤ length vs)%nat) as Hsz.
  { intros vs. induction vs as [|v vs IH]; cbn [list_to_set length].
    - rewrite size_empty. lia.
    - pose proof (size_union_alt ({[v]} : gset str) (list_to_set vs)) as Hu.
      assert (size (list_to_set vs ∖ {[v]} : gset str) ≤ size (list_to_set vs : gset str))%nat
        by (apply subseteq_size; set_solver).
      rewrite size_singleton in Hu. lia. }
  assert (∀ kind tg (m : gmap str str) c,
    numbered kind (first_seen (tag_values tg lines)) m c →
    dom m = (list_to_set (tag_values tg lines) : gset str) ∧
    size m = size (list_to_set (tag_values tg lines) : gset str) ∧
    c = S (size m)) as Hnum.
  { intros kind tg m c H. pose proof (numbered_dom _ _ _ _ H) as Hd.
    rewrite first_seen_set in Hd. split; [done|].
    rewrite <- Hd, size_dom. split; [done|]. destruct H as (-> & _ & -> & _). done. }
  destruct (anonymize_lines_numbered (py "Person ") (py "NAME") name_map person_counter
              (λ _, True) name_line_effect lines 0 (init kd kp) [] out self' I
              (numbered_init _) E) as [Hn _].
  apply Hnum in Hn as (Hn1 & Hn2 & Hn3).
  assert (dom (place_map self')
            = (if kp then ∅ else list_to_set (tag_values (py "PLAC") lines) : gset str) ∧
          size (place_map self')
            = (if kp then 0%nat
               else size (list_to_set (tag_values (py "PLAC") lines) : gset str)) ∧
          place_counter self' = S (size (place_map self')) ∧
          (size (place_map self') ≤ length lines)%nat) as (Hp1 & Hp2 & Hp3 & Hp4).
  { destruct kp.
    - pose proof (anonymize_lines_keep_places lines 0 (init kd true) eq_refl) as Hk.
      rewrite E in Hk. cbn [state_of] in Hk. cbn [init place_map] in Hk.
      pose proof (engine_inv_anonymize_lines lines 0 (init kd true)
                    (engine_inv_init kd true)) as [_ (seen & Hs)].
      rewrite E in Hs. cbn [state_of] in Hs. destruct Hs as (Hc & _ & Hsz' & _).
      rewrite Hk in Hsz' |- *. rewrite map_size_empty in Hsz'.
      rewrite dom_empty_L, map_size_empty. split_and!; [done|done|lia|lia].
    - destruct (anonymize_lines_numbered (py "Place ") (py "PLAC") place_map place_counter
                  (λ s, keep_places s = false) place_line_effect lines 0 (init kd false)
                  [] out self' eq_refl (numbered_init _) E) as [Hp _].
      apply Hnum in Hp as (Hp1 & Hp2 & Hp3). split_and!; try done.
      rewrite Hp2. specialize (Hsz (tag_values (py "PLAC") lines)).
      specialize (Hlen (py "PLAC")). lia. }
  split_and!; try done.
  rewrite Hn2. specialize (Hsz (tag_values (py "NAME") lines)).
  specialize (Hlen (py "NAME")). lia.
Qed.

(** X11: in every state a fresh engine can reach, [anonymize_line] returns
    a line, and every character of that line is a character of the input line
    or a printable character of Basic Latin (code 32 to 126): the placeholders
    and fixed texts are the only new text. So the output of a line without line
    breaks has no line breaks. *)
Theorem X11_output_characters (kd kp : bool) (calls : list (str * nat))
    (line : str) (n : nat) :
  ∃ out self',
    anonymize_line line n (after_calls calls (init kd kp)) = Return out self' ∧
    (∀ c, c ∈ out → c ∈ line ∨ printable c = true) ∧
    ((∀ c, c ∈ line → is_newline c = false) → ∀ c, c ∈ out → is_newline c = false).
Proof.
  destruct (anonymize_line_chars line n _ (engine_inv_after_calls kd kp calls))
    as (out & self' & E & H).
  exists out, self'. split_and!; [done|done|].
  intros Hl c Hc. destruct (H c Hc) as [H1|H1]; [by apply Hl|].
  by apply printable_not_newline.
Qed.

(** X12: when every input line is one line (no line break inside, at most
    one newline at its end, as [readlines()] gives them), no output line of a
    run contains a line break; so each output line, written followed by a
    newline, is again one line, and is the output line when its line ending is
    stripped: the written file has exactly as many lines as the input. *)
Theorem X12_written_file_has_same_lines (kd kp : bool) (lines : list str) :
  Forall one_line lines →
  ∃ out self',
    anonymize_file lines (init kd kp) = Return out self' ∧
    length out = length lines ∧
    Forall one_line (written <$> out) ∧
    ∀ o, o ∈ out → content (written o) = o ∧ ∀ c, c ∈ o → is_newline c = false.
Proof.
  intros Hl. unfold anonymize_file.
  destruct (anonymize_lines_no_newline lines 0 (init kd kp) (engine_inv_init kd kp) Hl)
    as (out & self' & E & Ho).
  destruct (anonymize_lines_total lines 0 (init kd kp)) as (out' & self'' & E' & Hlen & _).
  rewrite E in E'. injection E' as <- <-.
  exists out, self'. rewrite Forall_forall in Ho. split_and!; [done|done| |].
  - apply Forall_fmap, Forall_forall. intros o Hin. exists o. split; [by right|].
    by apply Ho.
  - intros o Hin. split; [|by apply Ho]. by apply content_written, Ho.
Qed.

Lemma X12_written_file_has_same_lines_witness :
  Forall one_line [py "0 HEAD" ++ [LF]; py "1 NAME John /Smith/"] ∧
  ∃ out self',
    anonymize_file [py "0 HEAD" ++ [LF]; py "1 NAME John /Smith/"] (init false false)
      = Return out self' ∧
    length out = 2%nat ∧ Forall one_line (written <$> out).
Proof.
  assert (Forall one_line [py "0 HEAD" ++ [LF]; py "1 NAME John /Smith/"]) as H.
  { repeat apply Forall_cons_2; [| |apply Forall_nil_2].
    - exists (py "0 HEAD"). split; [by right|].
      intros c Hc. apply (all_elem_of (λ c, negb (is_newline c))) in Hc; [|by vm_compute].
      by apply negb_true_iff.
    - exists (py "1 NAME John /Smith/"). split; [by left|].
      intros c Hc. apply (all_elem_of (λ c, negb (is_newline c))) in Hc; [|by vm_compute].
      by apply negb_true_iff. }
  split; [exact H|].
  destruct (X12_written_file_has_same_lines false false _ H)
    as (out & self' & E & Hlen & Hw & _).
  exists out, self'. split_and!; [exact E|exact Hlen|exact Hw].
Defined.

(** X13: the three date patterns exclude each other: a date that the
    day-month-year pattern matches is matched neither by the pattern of the
    qualified years nor by the pattern of the bare year, and a date that the
    pattern of the qualified years matches is not matched by the pattern of the
    bare year. So the order of the tests does not matter: with dates not kept,
    every date the year pattern matches becomes "1900" and every date the
    qualified pattern matches becomes its qualifier followed by " 1900". *)
Theorem X13_date_rules_do_not_overlap (self : Anonymizer) (date : str) :
  let full := is_match (re_match FULL_DATE_RE date) in
  let qualified := is_match (re_match QUALIFIED_DATE_RE date) in
  let year := is_match (re_match YEAR_RE date) in
  (full = true → qualified = false ∧ year = false) ∧
  (qualified = true → year = false) ∧
  (keep_dates self = false →
   (year = true → anonymize_date date self = Return (py "1900") self) ∧
   (qualified = true →
    ∃ q, q ∈ QUALIFIERS ∧ qualified_shape q date ∧
         anonymize_date date self = Return (q ++ py " 1900") self)).
Proof.
  intros full qualified year. subst full qualified year.
  assert (∀ b, (b = true → False) → b = false) as Hb by (intros []; intuition).
  split_and!.
  - intros Hf%FULL_DATE_RE_spec. split; apply Hb.
    + intros (q & Hq & Hs)%QUALIFIED_DATE_RE_spec. by eapply qualified_not_dmy.
    + intros Hy%YEAR_RE_spec. by eapply dmy_not_year.
  - intros (q & Hq & Hs)%QUALIFIED_DATE_RE_spec. apply Hb.
    intros Hy%YEAR_RE_spec. by eapply qualified_not_year.
  - intros K. split.
    + intros Hy%YEAR_RE_spec. apply anonymize_date_year; [done| |  |done].
      * intros Hd. by eapply dmy_not_year.
      * intros q Hq Hs. by eapply qualified_not_year.
    + intros (q & Hq & Hs)%QUALIFIED_DATE_RE_spec. exists q. split_and!; [done|done|].
      apply anonymize_date_qualified; [done| |done|done].
      by eapply qualified_not_dmy.
Qed.

(** X14: anonymizing a line twice is anonymizing it once. For a
    well-formed line whose tag is not NAME, and not PLAC unless places are
    kept, [anonymize_line] leaves the engine as it is, and the line it returns
    is returned unchanged by every later call in a state with the same two
    switches, whatever the identity maps hold then. *)
Theorem X14_line_anonymization_is_idempotent (self : Anonymizer) (line : str) (n : nat)
    (d : Decomposed) :
  decompose (strip_bom line) = Some d →
  tag d ≠ py "NAME" → (tag d = py "PLAC" → keep_places self = true) →
  ∃ out,
    anonymize_line line n self = Return out self ∧
    ∀ self' n',
      keep_dates self' = keep_dates self → keep_places self' = keep_places self →
      anonymize_line out n' self' = Return out self'.
Proof. intros E Hn Hp. by apply (anonymize_line_idempotent line n self d). Qed.

Lemma X14_line_anonymization_is_idempotent_witness :
  decompose (strip_bom (py "2 DATE   ABT 1850"))
    = Some (MkDecomposed (py "2") None (py "DATE") (py "ABT 1850")) ∧
  ∃ out,
    anonymize_line (py "2 DATE   ABT 1850") 3 (init false false)
      = Return out (init false false) ∧
    anonymize_line out 0 (init false false) = Return out (init false false).
Proof.
  assert (decompose (strip_bom (py "2 DATE   ABT 1850"))
            = Some (MkDecomposed (py "2") None (py "DATE") (py "ABT 1850"))) as H.
  { vm_compute. reflexivity. }
  split; [exact H|].
  destruct (X14_line_anonymization_is_idempotent (init false false) _ 3 _ H)
    as (out & E1 & E2).
  - cbn [tag]. intros E. vm_compute in E. discriminate E.
  - cbn [tag]. intros E. vm_compute in E. discriminate E.
  - exists out. split; [exact E1|]. apply E2; reflexivity.
Defined.

(** X15: a second run changes nothing. When every input line is one line
    as [readlines()] gives them and none starts with two byte-order marks, the
    output of a run from a fresh engine, written line by line and read again,
    is anonymized by a fresh engine with the same switches to exactly the same
    lines; the second run ends with the same two counters, and its identity
    maps hold every placeholder under itself. *)
Theorem X15_second_run_changes_nothing (kd kp : bool) (lines : list str) :
  Forall one_line lines →
  (∀ raw rest, raw ∈ lines → content raw ≠ BOM :: BOM :: rest) →
  ∃ out self1 self2,
    anonymize_file lines (init kd kp) = Return out self1 ∧
    anonymize_file (written <$> out) (init kd kp) = Return out self2 ∧
    person_counter self2 = person_counter self1 ∧
    place_counter self2 = place_counter self1 ∧
    (∀ v p, name_map self2 !! v = Some p → p = v) ∧
    (∀ v p, place_map self2 !! v = Some p → p = v).
Proof.
  intros Hl Hb. unfold anonymize_file.
  destruct (replay_lines lines 0 (init kd kp) (init kd kp) (engine_inv_init kd kp)
              (replays_init kd kp) Hl) as (out & s1 & s2 & E1 & E2 & Hr).
  { apply Forall_forall. intros raw Hin rest. by apply Hb. }
  exists out, s1, s2. destruct Hr as (_ & _ & Cn & Cp & Rn & Rp).
  split_and!; try done.
  - intros v p (k & _ & _ & ->)%Rn. done.
  - intros v p (k & _ & _ & ->)%Rp. done.
Qed.

Lemma X15_second_run_changes_nothing_witness :
  Forall one_line [py "0 HEAD" ++ [LF]; py "1 NAME John /Smith/"] ∧
  ∃ out self1 self2,
    anonymize_file [py "0 HEAD" ++ [LF]; py "1 NAME John /Smith/"] (init false false)
      = Return out self1 ∧
    anonymize_file (written <$> out) (init false false) = Return out self2.
Proof.
  assert (Forall one_line [py "0 HEAD" ++ [LF]; py "1 NAME John /Smith/"]) as H.
  { repeat apply Forall_cons_2; [| |apply Forall_nil_2].
    - exists (py "0 HEAD"). split; [by right|].
      intros c Hc. apply (all_elem_of (λ c, negb (is_newline c))) in Hc; [|by vm_compute].
      by apply negb_true_iff.
    - exists (py "1 NAME John /Smith/"). split; [by left|].
      intros c Hc. apply (all_elem_of (λ c, negb (is_newline c))) in Hc; [|by vm_compute].
      by apply negb_true_iff. }
  split; [exact H|].
  destruct (X15_second_run_changes_nothing false false _ H)
    as (out & self1 & self2 & E1 & E2 & _).
  - intros raw rest Hin.
    apply elem_of_cons in Hin as [->|Hin];
      [|apply list_elem_of_singleton in Hin as ->];
      vm_compute; intros E; discriminate E.
  - exists out, self1, self2. split; [exact E1|exact E2].
Defined.

(** X16: a run keeps the structure of the whole document. For every
    non-blank line of the input that matches the line pattern, the output line
    at the same position matches it too and has the same level, the same
    cross-reference and the same tag; and when the tag is none of those the
    engine replaces (and the line is not a TITL line of level "1"), it has the
    same value as well, so the links between the records are kept. *)
Theorem X16_document_structure_is_preserved (kd kp : bool) (lines : list str) :
  ∃ out self',
    anonymize_file lines (init kd kp) = Return out self' ∧
    ∀ j raw d,
      lines !! j = Some raw → is_blank (content raw) = false →
      decompose (strip_bom (content raw)) = Some d →
      ∃ o v,
        out !! j = Some o ∧
        decompose o = Some (MkDecomposed (level d) (xref d) (tag d) v) ∧
        (tag d ∉ NAMED_TAGS → ¬ (tag d = py "TITL" ∧ level d = py "1") → v = value d).
Proof.
  unfold anonymize_file.
  destruct (anonymize_lines_total lines 0 (init kd kp)) as (out & self' & E & _).
  exists out, self'. split; [done|]. intros j raw d Hj Hb Hd.
  destruct (anonymize_lines_lookup lines 0 _ _ _ (engine_inv_init kd kp) E j raw Hj)
    as (s & o & s' & Hinv & Ho & Hl).
  unfold loop_body in Ho. unfold is_blank in Hb. apply negb_false_iff in Hb.
  rewrite Hb in Ho.
  destruct (anonymize_line_structure (content raw) (0 + j) s d Hinv Hd)
    as (o' & s'' & v & Eo & H1 & H2).
  rewrite Eo in Ho. injection Ho as -> ->. by exists o, v.
Qed.

(** X17: in any state, [anonymize_place] returns without raising. When
    places are kept it returns the place and leaves the engine as it is. When
    they are not, the place map afterwards holds the returned placeholder under
    the place, a second call returns the same placeholder and changes nothing,
    the entries of all other places are as before, a place that was mapped
    keeps its placeholder, and a new place gets "Place " and the current
    counter, which is then one larger. The name map is never touched. *)
Theorem X17_place_lookup_after_insert (self : Anonymizer) (place : str) :
  ∃ p self',
    anonymize_place place self = Return p self' ∧
    anonymize_place place self' = Return p self' ∧
    name_map self' = name_map self ∧ person_counter self' = person_counter self ∧
    printed self' = printed self ∧
    (keep_places self = true → p = place ∧ self' = self) ∧
    (keep_places self = false →
     place_map self' !! place = Some p ∧
     (∀ other, other ≠ place → place_map self' !! other = place_map self !! other) ∧
     (∀ q, place_map self !! place = Some q → p = q ∧ self' = self) ∧
     (place_map self !! place = None →
      p = py "Place " ++ str_of_int (place_counter self) ∧
      place_counter self' = S (place_counter self))).
Proof.
  destruct (keep_places self) eqn:K.
  { exists place, self. rewrite anonymize_place_keep by done. split_and!; done. }
  rewrite anonymize_place_resolve by done.
  destruct (resolve _ _ _ _) as [[p m] c] eqn:R.
  exists p, (with_places m c self).
  destruct (resolve_lookup _ _ _ _ _ _ _ R) as (Hl & Hr & _ & Ho).
  split_and!; try done.
  - rewrite anonymize_place_resolve by done. cbn [place_map place_counter with_places].
    rewrite Hr. done.
  - intros _. split_and!; try done.
    + intros q Hq. unfold resolve in R. rewrite Hq in R. injection R as <- <- <-.
      split; [done|]. by apply with_places_id.
    + intros Hn. unfold resolve in R. rewrite Hn in R. by injection R as <- <- <-.
Qed.
